(** * VS Code Recorder: the CSV edit log, its replay and its write queue

    A shallow embedding of the recorder's core (utilities.ts and
    recording.ts) together with the properties that its specification
    states about it.

    The sources hold two revisions of recording.ts.  The revised one
    (the unnamed part_000: [processCSVLine], [getNewTextContent],
    [getUpdatedText], [finalizeRecording]) is the one that the
    specification describes and is embedded in [Recorder]; what differs
    in the earlier one (src/recording.ts) is embedded in [Legacy].  The
    write queue is the same in both and is embedded in [Writer].

    Modelling conventions.
    - A JavaScript string is the list of its UTF-16 code units
      ([jsstring]); [str] reads a literal.
    - A JavaScript number that the program only ever uses as an integer
      or as NaN is a [number]: [NaN] or [Int z].  Arithmetic on [Int] is
      exact, which is what the double arithmetic of the source computes
      on the safe integer range.
    - [undefined] is [None].
    - A [TypeError] raised by calling a method on [undefined] is the
      [Throw] completion.
    - The global [fileQueue] and the array [processedChanges] are passed
      and returned; an object of the array that the loop updates in place
      is updated in the array.
    - An asynchronous function that nobody awaits runs in steps: up to
      its first [await], then from the settlement of the awaited call up
      to the next one ([Writer.step]).
    - What lives outside the repository sources (the [ChangeType]
      constants of types.ts, the revised [generateFileName],
      [JSON.stringify], [path.join]) is gathered in the [Host] class. *)

From Stdlib Require Import String Ascii.
From Stdlib Require Import List ZArith NArith Bool Lia.
Import ListNotations.
Open Scope Z_scope.

(* ================================================================== *)
(** * Part I. Definitions *)
(* ================================================================== *)

(** ** JavaScript strings *)

Definition char := N.
Definition jsstring := list char.

Definition str (s : string) : jsstring :=
  map N_of_ascii (list_ascii_of_string s).

Definition TAB_CHAR : char := 9%N.
Definition LF : char := 10%N.
Definition CR : char := 13%N.
Definition DQUOTE : char := 34%N.
Definition PLUS : char := 43%N.
Definition COMMA : char := 44%N.
Definition MINUS : char := 45%N.
Definition DIGIT0 : char := 48%N.
Definition BACKSLASH : char := 92%N.
Definition LETTER_n : char := 110%N.
Definition LETTER_r : char := 114%N.
Definition LETTER_t : char := 116%N.
Definition LINE_SEPARATOR : char := 8232%N.
Definition PARAGRAPH_SEPARATOR : char := 8233%N.

(** [a === b] on strings. *)
Fixpoint jsstring_eqb (a b : jsstring) : bool :=
  match a, b with
  | [], [] => true
  | x :: a', y :: b' => N.eqb x y && jsstring_eqb a' b'
  | _, _ => false
  end.

(** [a === b] on values that are a string or [undefined]. *)
Definition opt_jsstring_eqb (a b : option jsstring) : bool :=
  match a, b with
  | None, None => true
  | Some x, Some y => jsstring_eqb x y
  | _, _ => false
  end.

(** [s.startsWith(pat)]: the literal [pat] matches at the head of [s]. *)
Fixpoint startsWith (pat s : jsstring) : bool :=
  match pat, s with
  | [], _ => true
  | p :: pat', c :: s' => N.eqb p c && startsWith pat' s'
  | _ :: _, [] => false
  end.

(** [s.replace(/pat/g, rep)] for a regular expression that is a literal,
    non-empty sequence of characters and a replacement without [$]
    patterns: the matches are found from left to right and do not
    overlap.  [skip] counts the characters of the current match that are
    still to be consumed. *)
Fixpoint replace_from (pat rep : jsstring) (skip : nat) (s : jsstring)
  : jsstring :=
  match s with
  | [] => []
  | c :: s' =>
      match skip with
      | S k => replace_from pat rep k s'
      | O =>
          if startsWith pat s
          then rep ++ replace_from pat rep (pred (length pat)) s'
          else c :: replace_from pat rep O s'
      end
  end.

Definition replace_g (pat rep s : jsstring) : jsstring :=
  replace_from pat rep O s.

(** ** JavaScript numbers *)

Inductive number : Type :=
| NaN
| Int (z : Z).

Definition Number_isNaN (x : number) : bool :=
  match x with NaN => true | Int _ => false end.

(** [a === b] on numbers: NaN differs from everything, itself included. *)
Definition number_eqb (a b : number) : bool :=
  match a, b with
  | Int x, Int y => Z.eqb x y
  | _, _ => false
  end.

(** [a <= b] on numbers: false as soon as one side is NaN. *)
Definition number_leb (a b : number) : bool :=
  match a, b with
  | Int x, Int y => Z.leb x y
  | _, _ => false
  end.

(** [Math.floor(a / d)] for a positive integer constant [d]. *)
Definition Math_floor_div (a : number) (d : Z) : number :=
  match a with NaN => NaN | Int z => Int (z / d) end.

(** [a % d]: the remainder has the sign of the dividend. *)
Definition js_mod (a : number) (d : Z) : number :=
  match a with NaN => NaN | Int z => Int (Z.rem z d) end.

(** Decimal digits of a non-negative integer, most significant first. *)
Fixpoint digits_fuel (fuel : nat) (n : Z) (acc : jsstring) : jsstring :=
  match fuel with
  | O => acc
  | S f =>
      let acc' := Z.to_N (48 + n mod 10) :: acc in
      if n <? 10 then acc' else digits_fuel f (n / 10) acc'
  end.

Definition digits (n : Z) : jsstring :=
  digits_fuel (S (Z.to_nat (Z.log2 n))) n [].

(** [x.toString()] for a number. *)
Definition Number_toString (x : number) : jsstring :=
  match x with
  | NaN => str "NaN"
  | Int z => if z <? 0 then MINUS :: digits (- z) else digits z
  end.

(** [s.padStart(targetLength, c)] for a one-character filler. *)
Definition padStart (s : jsstring) (targetLength : nat) (c : char)
  : jsstring :=
  repeat c (targetLength - length s) ++ s.

(** ** utilities.ts *)

Module Utilities.

(** [formatSrtTime] (utilities.ts, lines 237-249). *)
Definition formatSrtTime (milliseconds : number) : jsstring :=
  let seconds := Math_floor_div milliseconds 1000 in
  let hours := Math_floor_div seconds 3600 in
  let minutes := Math_floor_div (js_mod seconds 3600) 60 in
  let remainingSeconds := js_mod seconds 60 in
  let remainingMilliseconds := js_mod milliseconds 1000 in
  padStart (Number_toString hours) 2 DIGIT0 ++ str ":" ++
  padStart (Number_toString minutes) 2 DIGIT0 ++ str ":" ++
  padStart (Number_toString remainingSeconds) 2 DIGIT0 ++ str "," ++
  padStart (Number_toString remainingMilliseconds) 3 DIGIT0.

(** [escapeString] (utilities.ts, lines 256-266). *)
Definition escapeString (editorText : option jsstring) : jsstring :=
  match editorText with
  | None => []
  | Some editorText =>
      replace_g [TAB_CHAR] [BACKSLASH; LETTER_t]
        (replace_g [CR] [BACKSLASH; LETTER_r]
          (replace_g [LF] [BACKSLASH; LETTER_n]
            (replace_g [CR; LF] [BACKSLASH; LETTER_r; BACKSLASH; LETTER_n]
              (replace_g [DQUOTE] [DQUOTE; DQUOTE] editorText))))
  end.

(** The characters that [.] does not match in a regular expression
    without the [s] flag. *)
Definition isLineTerminator (c : char) : bool :=
  N.eqb c LF || N.eqb c CR ||
  N.eqb c LINE_SEPARATOR || N.eqb c PARAGRAPH_SEPARATOR.

(** [removeDoubleQuotes] (utilities.ts, lines 273-275): one [replace]
    with an anchored regular expression, a double quote, a greedy run of
    [.] captured as group 1, a double quote, and the replacement [$1].
    The expression matches when the text opens and closes with two
    distinct double quotes and has no line terminator in between; the
    whole text is then replaced by what is in between. *)
Definition removeDoubleQuotes (text : jsstring) : jsstring :=
  match text with
  | q :: rest =>
      match rev rest with
      | q' :: rinner =>
          if N.eqb q DQUOTE && N.eqb q' DQUOTE &&
             forallb (fun c => negb (isLineTerminator c)) rinner
          then rev rinner
          else text
      | [] => text
      end
  | [] => text
  end.

(** [unescapeString] (utilities.ts, lines 282-289). *)
Definition unescapeString (text : jsstring) : jsstring :=
  replace_g [BACKSLASH; LETTER_t] [TAB_CHAR]
    (replace_g [BACKSLASH; LETTER_r] [CR]
      (replace_g [BACKSLASH; LETTER_n] [LF]
        (replace_g [BACKSLASH; LETTER_r; BACKSLASH; LETTER_n] [CR; LF]
          (replace_g [DQUOTE; DQUOTE] [DQUOTE] text)))).

End Utilities.

(** The text field as [buildCsvRow] writes it: the escaped text between
    double quotes (recording.ts, lines 66-68). *)
Definition encodeText (text : jsstring) : jsstring :=
  DQUOTE :: Utilities.escapeString (Some text) ++ [DQUOTE].

(** The text field as [processCSVLine] reads it. *)
Definition decodeText (field : jsstring) : jsstring :=
  Utilities.unescapeString (Utilities.removeDoubleQuotes field).

(** ** Built-ins used by the replay *)

(** White space and line terminators skipped by [parseInt]. *)
Definition isStrWhiteSpaceChar (c : char) : bool :=
  (N.leb 9 c && N.leb c 13) || N.eqb c 32 || N.eqb c 160 ||
  N.eqb c 5760 || (N.leb 8192 c && N.leb c 8202) ||
  N.eqb c 8232 || N.eqb c 8233 || N.eqb c 8239 || N.eqb c 8287 ||
  N.eqb c 12288 || N.eqb c 65279.

Fixpoint trimStart (s : jsstring) : jsstring :=
  match s with
  | c :: r => if isStrWhiteSpaceChar c then trimStart r else s
  | [] => []
  end.

(** The value of a character as a digit: 0-9, a-z and A-Z. *)
Definition digitValue (c : char) : option Z :=
  if N.leb 48 c && N.leb c 57 then Some (Z.of_N c - 48)
  else if N.leb 97 c && N.leb c 122 then Some (Z.of_N c - 87)
  else if N.leb 65 c && N.leb c 90 then Some (Z.of_N c - 55)
  else None.

(** The longest prefix of radix-[R] digits, read as a number; [acc] is
    [None] until a first digit has been read. *)
Fixpoint parseDigits (R : Z) (acc : option Z) (s : jsstring) : option Z :=
  match s with
  | [] => acc
  | c :: r =>
      match digitValue c with
      | Some d =>
          if d <? R
          then parseDigits R
                 (Some (R * match acc with Some a => a | None => 0 end + d)) r
          else acc
      | None => acc
      end
  end.

(** [Number.parseInt(x)] without a radix.  [undefined] reads as the
    string of its name, which has no digit. *)
Definition parseInt (x : option jsstring) : number :=
  match x with
  | None => NaN
  | Some input =>
      let S0 := trimStart input in
      let '(sign, S1) :=
        match S0 with
        | c :: r =>
            if N.eqb c MINUS then (-1, r)
            else if N.eqb c PLUS then (1, r) else (1, S0)
        | [] => (1, S0)
        end in
      let '(R, S2) :=
        match S1 with
        | a :: b :: r =>
            if N.eqb a 48 && (N.eqb b 120 || N.eqb b 88)
            then (16, r) else (10, S1)
        | _ => (10, S1)
        end in
      match parseDigits R None S2 with
      | None => NaN
      | Some v => Int (sign * v)
      end
  end.

Definition countQuotes (s : jsstring) : nat :=
  length (filter (N.eqb DQUOTE) s).

(** [line.split(re)] where [re] is a comma followed, up to the end of the
    line, by an even number of double quotes (the lookahead of the
    regular expression of [processCSVLine]).  [cur] is the current field,
    reversed. *)
Fixpoint split_from (cur : jsstring) (s : jsstring) : list jsstring :=
  match s with
  | [] => [rev cur]
  | c :: r =>
      if N.eqb c COMMA && Nat.even (countQuotes r)
      then rev cur :: split_from [] r
      else split_from (c :: cur) r
  end.

Definition splitCsvLine (line : jsstring) : list jsstring :=
  split_from [] line.

(** [a.splice(start, deleteCount, item)] on the array of the characters
    of a string, followed by [join('')]: the start is taken from the end
    when negative and clamped to the array, the count is clamped to what
    is left; NaN is read as 0. *)
Definition spliceStart (len : Z) (start : number) : Z :=
  match start with
  | NaN => 0
  | Int z => if z <? 0 then Z.max (len + z) 0 else Z.min z len
  end.

Definition spliceDeleteCount (len actualStart : Z) (deleteCount : number)
  : Z :=
  match deleteCount with
  | NaN => 0
  | Int z => Z.min (Z.max z 0) (len - actualStart)
  end.

Definition splice_join (a : jsstring) (start deleteCount : number)
  (item : jsstring) : jsstring :=
  let len := Z.of_nat (length a) in
  let actualStart := spliceStart len start in
  let actualDeleteCount := spliceDeleteCount len actualStart deleteCount in
  firstn (Z.to_nat actualStart) a ++ item ++
  skipn (Z.to_nat (actualStart + actualDeleteCount)) a.

(** [a[a.length - 1]]. *)
Definition lastElement {A : Type} (a : list A) : option A :=
  match rev a with
  | x :: _ => Some x
  | [] => None
  end.

(** Completions: a value, or a [TypeError] thrown by a method call on
    [undefined]. *)
Inductive completion (A : Type) : Type :=
| Normal (a : A)
| Throw.
Arguments Normal {A} a.
Arguments Throw {A}.

(** ** Data of recording.ts (the types that it imports) *)

Module Types.

Record Change : Type := mkChange {
  sequence : Z;
  file : jsstring;
  startTime : number;
  endTime : number;
  language : option jsstring;
  text : jsstring
}.

Definition setEndTime (c : Change) (t : number) : Change :=
  mkChange (sequence c) (file c) (startTime c) t (language c) (text c).

Record File : Type := mkFile {
  name : jsstring;
  content : jsstring
}.

Record Recording : Type := mkRecording {
  isRecording : bool;
  startDateTime : option Z;
  endDateTime : option Z
}.

End Types.
Import Types.

(** What the sources of the repository do not contain. *)
Class Host : Type := {
  (** the constant [ChangeType.TAB] of types.ts *)
  ChangeType_TAB : jsstring;
  (** [generateFileName(date, isExport)] of the revised utilities; a call
      without the flag is read as a call with [false] *)
  generateFileName : Z -> bool -> option jsstring;
  (** [JSON.stringify] of the object [{text, file, language}] *)
  JSON_stringify_subtitle : jsstring -> jsstring -> option jsstring -> jsstring;
  (** [JSON.stringify] of the array of changes *)
  JSON_stringify_changes : list Change -> jsstring;
  (** [path.join] *)
  path_join : jsstring -> jsstring -> jsstring
}.

(** [!x] for a value that is a string or [undefined]: the empty string
    and [undefined] are falsy. *)
Definition falsy (x : option jsstring) : bool :=
  match x with
  | Some (_ :: _) => false
  | _ => true
  end.

(** [formats.includes(f)]. *)
Definition includes (formats : list jsstring) (f : jsstring) : bool :=
  existsb (jsstring_eqb f) formats.

(** ** recording.ts, revised (the unnamed source part_000) *)

Module Recorder.

(** [addSrtLine] (lines 445-447). *)
Definition addSrtLine (sequence : Z) (start end_ : number) (text : jsstring)
  : jsstring :=
  Number_toString (Int sequence) ++ [LF] ++
  Utilities.formatSrtTime start ++ str " --> " ++
  Utilities.formatSrtTime end_ ++ [LF] ++ text ++ [LF; LF].

(** [addToFileQueue] (lines 454-473); the queue is returned. *)
Definition addToFileQueue `{Host} (recording : Recording)
  (content : option jsstring) (fileExtension : jsstring) (isExport : bool)
  (fileQueue : list File) : list File :=
  match content with
  | Some (c :: content') =>
      match startDateTime recording with
      | None => fileQueue
      | Some start =>
          let fileName := generateFileName start isExport in
          if falsy fileName then fileQueue
          else
            match fileName with
            | Some fileName =>
                fileQueue ++
                [mkFile (fileName ++ str "." ++ fileExtension) (c :: content')]
            | None => fileQueue
            end
      end
  | _ => fileQueue
  end.

(** [addToSRTFile] (lines 241-262).  Reading a field of
    [processedChanges[i - 1]] throws when there is no such element. *)
Definition addToSRTFile `{Host} (recording : Recording)
  (processedChanges : list Change) (i : nat) (exportInSrt : bool)
  (fileQueue : list File) : completion (list File) :=
  if negb exportInSrt then Normal fileQueue
  else if Nat.eqb i 0 then Normal fileQueue
  else
    match nth_error processedChanges (i - 1) with
    | None => Throw
    | Some c =>
        Normal
          (addToFileQueue recording
             (Some (addSrtLine (sequence c) (startTime c) (endTime c)
                      (JSON_stringify_subtitle (text c) (file c) (language c))))
             (str "srt") true fileQueue)
    end.

(** [getUpdatedText] (lines 338-347). *)
Definition getUpdatedText (previousText : jsstring)
  (rangeOffset rangeLength : number) (newText : jsstring) : jsstring :=
  splice_join previousText rangeOffset rangeLength newText.

(** [getNewTextContent] (lines 272-286). *)
Definition getNewTextContent `{Host} (type : option jsstring)
  (text : jsstring) (previousChange : option Change)
  (rangeOffset rangeLength : number) : jsstring :=
  if opt_jsstring_eqb type (Some ChangeType_TAB) then text
  else
    match previousChange with
    | None => []
    | Some previousChange =>
        getUpdatedText (Types.text previousChange) rangeOffset rangeLength text
    end.

(** [processCSVLine] (lines 291-329): [Normal None] is the [null] of a
    skipped line. *)
Definition processCSVLine `{Host} (line : jsstring)
  (previousChange : option Change) : completion (option Change) :=
  let lineArr := splitCsvLine line in
  if Number_isNaN (parseInt (nth_error lineArr 0)) then Normal None
  else
    let time := parseInt (nth_error lineArr 1) in
    match nth_error lineArr 2 with
    | None => Throw
    | Some field2 =>
        let file := Utilities.removeDoubleQuotes field2 in
        let rangeOffset := parseInt (nth_error lineArr 3) in
        let rangeLength := parseInt (nth_error lineArr 4) in
        match nth_error lineArr 5 with
        | None => Throw
        | Some field5 =>
            let text :=
              Utilities.unescapeString (Utilities.removeDoubleQuotes field5) in
            let language := nth_error lineArr 6 in
            let type := nth_error lineArr 7 in
            let newText :=
              getNewTextContent type text previousChange rangeOffset rangeLength in
            let same :=
              match previousChange with
              | Some p =>
                  number_eqb time (startTime p) &&
                  jsstring_eqb file (Types.file p) &&
                  jsstring_eqb newText (Types.text p) &&
                  opt_jsstring_eqb language (Types.language p)
              | None => false
              end in
            if same then Normal None
            else
              Normal (Some
                (mkChange
                   match previousChange with
                   | Some p => sequence p + 1
                   | None => 1
                   end
                   file time (Int 0) language newText))
        end
    end.

(** The fields that [processCSVLine] reads off a line whose first field
    is a number, as one record. *)
Record Row : Type := mkRow {
  row_time : number;
  row_file : jsstring;
  row_rangeOffset : number;
  row_rangeLength : number;
  row_text : jsstring;
  row_language : option jsstring;
  row_type : option jsstring
}.

(** The decoding half of [processCSVLine]: [Normal None] for a line that
    is skipped, [Throw] for a line that has a number but no file or text
    field. *)
Definition decode (line : jsstring) : completion (option Row) :=
  let lineArr := splitCsvLine line in
  if Number_isNaN (parseInt (nth_error lineArr 0)) then Normal None
  else
    match nth_error lineArr 2, nth_error lineArr 5 with
    | Some field2, Some field5 =>
        Normal (Some
          (mkRow (parseInt (nth_error lineArr 1))
             (Utilities.removeDoubleQuotes field2)
             (parseInt (nth_error lineArr 3))
             (parseInt (nth_error lineArr 4))
             (Utilities.unescapeString (Utilities.removeDoubleQuotes field5))
             (nth_error lineArr 6)
             (nth_error lineArr 7)))
    | _, _ => Throw
    end.

(** The text that a decoded row reconstructs. *)
Definition rowText `{Host} (row : Row) (previousChange : option Change)
  : jsstring :=
  getNewTextContent (row_type row) (row_text row) previousChange
    (row_rangeOffset row) (row_rangeLength row).

(** The test of [processCSVLine] that drops a row (lines 311-319). *)
Definition sameAsPrevious `{Host} (row : Row) (p : Change) : bool :=
  number_eqb (row_time row) (startTime p) &&
  jsstring_eqb (row_file row) (Types.file p) &&
  jsstring_eqb (rowText row (Some p)) (Types.text p) &&
  opt_jsstring_eqb (row_language row) (Types.language p).

(** The change that [processCSVLine] returns for a row that is kept
    (lines 321-328). *)
Definition newChange `{Host} (row : Row) (previousChange : option Change)
  : Change :=
  mkChange
    match previousChange with
    | Some p => sequence p + 1
    | None => 1
    end
    (row_file row) (row_time row) (Int 0) (row_language row)
    (rowText row previousChange).

(** The state that the loop of [processCsvFile] updates: the array
    [processedChanges] and the module's [fileQueue]. *)
Record ReplayState : Type := mkReplayState {
  processedChanges : list Change;
  fileQueue : list File
}.

(** [previousChange.endTime = t], where [previousChange] is the last
    element of [processedChanges] itself. *)
Definition closePrevious (processedChanges : list Change) (t : number)
  : list Change :=
  match lastElement processedChanges with
  | Some p => removelast processedChanges ++ [setEndTime p t]
  | None => processedChanges
  end.

(** One turn of the [for await] loop of [processCsvFile]
    (lines 386-399). *)
Definition processLine `{Host} (recording : Recording)
  (exportFormats : list jsstring) (st : ReplayState) (line : jsstring)
  : completion ReplayState :=
  let previousChange := lastElement (processedChanges st) in
  match processCSVLine line previousChange with
  | Throw => Throw
  | Normal None => Normal st
  | Normal (Some change) =>
      match previousChange with
      | Some _ =>
          let closed := closePrevious (processedChanges st) (startTime change) in
          if includes exportFormats (str "SRT")
          then
            match addToSRTFile recording closed (length closed) true
                    (fileQueue st) with
            | Throw => Throw
            | Normal q => Normal (mkReplayState (closed ++ [change]) q)
            end
          else Normal (mkReplayState (closed ++ [change]) (fileQueue st))
      | None =>
          Normal (mkReplayState (processedChanges st ++ [change]) (fileQueue st))
      end
  end.

(** The whole loop: the state when the lines are exhausted, or the state
    reached when a turn throws. *)
Fixpoint processLines `{Host} (recording : Recording)
  (exportFormats : list jsstring) (st : ReplayState) (lines : list jsstring)
  : ReplayState * bool :=
  match lines with
  | [] => (st, false)
  | line :: lines' =>
      match processLine recording exportFormats st line with
      | Throw => (st, true)
      | Normal st' => processLines recording exportFormats st' lines'
      end
  end.

(** [finalizeRecording] (lines 422-435), up to its last statement, the
    call of [appendToFile]. *)
Definition finalizeRecording `{Host} (recording : Recording)
  (exportFormats : list jsstring) (st : ReplayState) : completion ReplayState :=
  let lastChange := lastElement (processedChanges st) in
  let closing :=
    match lastChange, endDateTime recording, startDateTime recording with
    | Some _, Some e, Some s =>
        let closed := closePrevious (processedChanges st) (Int (e - s)) in
        if includes exportFormats (str "SRT")
        then
          match addToSRTFile recording closed (length closed) true
                  (fileQueue st) with
          | Throw => Throw
          | Normal q => Normal (mkReplayState closed q)
          end
        else Normal (mkReplayState closed (fileQueue st))
    | _, _, _ => Normal st
    end in
  match closing with
  | Throw => Throw
  | Normal st' =>
      if includes exportFormats (str "JSON")
      then
        Normal (mkReplayState (processedChanges st')
                  (addToFileQueue recording
                     (Some (JSON_stringify_changes (processedChanges st')))
                     (str "json") true (fileQueue st')))
      else Normal st'
  end.

(** What the rest of the extension observes of a run of
    [processCsvFile]. *)
Inductive severity : Type := info | success | error.

Inductive effect : Type :=
| LogToOutput (message : jsstring) (type : severity)
| ShowWarningMessage (message : jsstring)
| CreateReadStream (filePath : jsstring)
| AppendToFile.

(** What [processCsvFile] reads of its environment: the workspace
    folders, the configured export formats, what [getExportPath] returns
    and the lines that the reader yields for a path ([None] when the file
    cannot be opened). *)
Record Environment : Type := mkEnvironment {
  workspaceFolders : bool;
  exportFormats : list jsstring;
  exportPath : option jsstring;
  readLines : jsstring -> option (list jsstring)
}.

(** How a run ends: before the log is read, by an exception, or with the
    array of changes. *)
Inductive replay : Type :=
| NotStarted
| Aborted
| Replayed (changes : list Change).

Record Outcome : Type := mkOutcome {
  effects : list effect;
  queue : list File;
  result : replay
}.

(** [validateRecordingState] (lines 405-420), with what it logs. *)
Definition validateRecordingState (env : Environment) (recording : Recording)
  : bool * list effect :=
  if negb (workspaceFolders env)
  then (false,
        [LogToOutput
           (str "No workspace folder found. To process the recording is needed a workspace folder")
           error])
  else
    match endDateTime recording, startDateTime recording with
    | Some _, Some _ => (true, [])
    | _, _ =>
        (false,
         [LogToOutput (str "Recording date time is not properly set") error])
    end.

(** [processCsvFile] (lines 352-403). *)
Definition processCsvFile `{Host} (env : Environment) (recording : Recording)
  (fileQueue : list File) : Outcome :=
  let '(valid, logs) := validateRecordingState env recording in
  if negb valid then mkOutcome logs fileQueue NotStarted
  else if Nat.eqb (length (exportFormats env)) 0
  then
    mkOutcome
      [LogToOutput (str "No export formats specified") info;
       ShowWarningMessage (str "No export formats specified")]
      fileQueue NotStarted
  else
    match exportPath env with
    | None => mkOutcome [] fileQueue NotStarted
    | Some exportPath =>
        match startDateTime recording with
        | None => mkOutcome [] fileQueue NotStarted
        | Some start =>
            let sourceFileName := generateFileName start false in
            match sourceFileName with
            | Some (c :: n) =>
                let filePath :=
                  path_join exportPath ((c :: n) ++ str ".csv") in
                match readLines env filePath with
                | None =>
                    mkOutcome [CreateReadStream filePath] fileQueue Aborted
                | Some lines =>
                    match processLines recording (exportFormats env)
                            (mkReplayState [] fileQueue) lines with
                    | (st, true) =>
                        mkOutcome [CreateReadStream filePath]
                          (Recorder.fileQueue st) Aborted
                    | (st, false) =>
                        match finalizeRecording recording (exportFormats env)
                                st with
                        | Throw =>
                            mkOutcome [CreateReadStream filePath]
                              (Recorder.fileQueue st) Aborted
                        | Normal st' =>
                            mkOutcome [CreateReadStream filePath; AppendToFile]
                              (Recorder.fileQueue st')
                              (Replayed (processedChanges st'))
                        end
                    end
                end
            | _ => mkOutcome [] fileQueue NotStarted
            end
        end
    end.

End Recorder.

(** ** recording.ts, earlier revision (src/recording.ts)

    The revision kept under its own name differs from the revised one in
    the replay loop (no row is dropped and a change keeps the sequence
    number of its row) and in [addToFileQueue]. *)

Module Legacy.

(** [addToFileQueue] (src/recording.ts, lines 370-378); [fileName] is
    [recording.fileName]. *)
Definition addToFileQueue (fileName : jsstring) (content : option jsstring)
  (fileExtension : jsstring) (fileQueue : list File) : list File :=
  match content with
  | Some (c :: content') =>
      fileQueue ++
      [mkFile (fileName ++ str "." ++ fileExtension) (c :: content')]
  | _ => fileQueue
  end.

(** [addToSRTFile] (src/recording.ts, lines 244-264). *)
Definition addToSRTFile `{Host} (fileName : jsstring)
  (processedChanges : list Change) (i : nat) (exportInSrt : bool)
  (fileQueue : list File) : completion (list File) :=
  if negb exportInSrt then Normal fileQueue
  else if Nat.eqb i 0 then Normal fileQueue
  else
    match nth_error processedChanges (i - 1) with
    | None => Throw
    | Some c =>
        Normal
          (addToFileQueue fileName
             (Some (Recorder.addSrtLine (sequence c) (startTime c) (endTime c)
                      (JSON_stringify_subtitle (text c) (file c) (language c))))
             (str "srt") fileQueue)
    end.

(** One turn of the loop of [processCsvFile] (src/recording.ts,
    lines 311-340); the counter [i] is the length of
    [processedChanges]. *)
Definition processLine `{Host} (fileName : jsstring) (exportInSrt : bool)
  (st : Recorder.ReplayState) (line : jsstring)
  : completion Recorder.ReplayState :=
  let lineArr := splitCsvLine line in
  match parseInt (nth_error lineArr 0) with
  | NaN => Normal st
  | Int sequence =>
      let time := parseInt (nth_error lineArr 1) in
      match nth_error lineArr 2, nth_error lineArr 5 with
      | Some field2, Some field5 =>
          let file := Utilities.removeDoubleQuotes field2 in
          let rangeOffset := parseInt (nth_error lineArr 3) in
          let rangeLength := parseInt (nth_error lineArr 4) in
          let text :=
            Utilities.unescapeString (Utilities.removeDoubleQuotes field5) in
          let language := nth_error lineArr 6 in
          let type := nth_error lineArr 7 in
          let processedChanges := Recorder.processedChanges st in
          let i := length processedChanges in
          let newText :=
            if opt_jsstring_eqb type (Some ChangeType_TAB) then Normal text
            else
              match lastElement processedChanges with
              | None => Throw
              | Some p =>
                  Normal (splice_join (Types.text p) rangeOffset rangeLength text)
              end in
          match newText with
          | Throw => Throw
          | Normal newText =>
              let change :=
                mkChange sequence file time (Int 0) language newText in
              if Nat.ltb 0 i
              then
                let pushed :=
                  Recorder.closePrevious processedChanges time ++ [change] in
                match addToSRTFile fileName pushed i exportInSrt
                        (Recorder.fileQueue st) with
                | Throw => Throw
                | Normal q => Normal (Recorder.mkReplayState pushed q)
                end
              else
                Normal (Recorder.mkReplayState (processedChanges ++ [change])
                          (Recorder.fileQueue st))
          end
      | _, _ => Throw
      end
  end.

Fixpoint processLines `{Host} (fileName : jsstring) (exportInSrt : bool)
  (st : Recorder.ReplayState) (lines : list jsstring)
  : Recorder.ReplayState * bool :=
  match lines with
  | [] => (st, false)
  | line :: lines' =>
      match processLine fileName exportInSrt st line with
      | Throw => (st, true)
      | Normal st' => processLines fileName exportInSrt st' lines'
      end
  end.

End Legacy.

(** ** The write queue: [appendToFile] and [addToFile]

    The two functions are the same in both revisions (src/recording.ts,
    lines 207-232).  [appendToFile] is asynchronous and its callers do
    not wait for it: a call runs up to its first [await], which leaves a
    call of [appendFile] pending, and resumes when that call settles.
    Several runs can therefore be under way at once, all on the one
    [fileQueue]. *)

Module Writer.

(** A pending call of [appendFileUtil(filePath, text)]. *)
Record Pending : Type := mkPending {
  filePath : jsstring;
  pendingText : jsstring
}.

(** The queue, the appends that succeeded so far (oldest first), and the
    pending append of each run of [appendToFile] under way. *)
Record World : Type := mkWorld {
  fileQueue : list File;
  written : list (jsstring * jsstring);
  running : list Pending
}.

Inductive event : Type :=
| Push (f : File)
| CallAppendToFile
| Settle (i : nat) (ok : bool).

(** The test of the [while] loop and, when the queue is not empty, the
    call of [addToFile] on its head, up to the [await]. *)
Definition nextAppend `{Host} (exportPath : jsstring) (fileQueue : list File)
  : option Pending :=
  match fileQueue with
  | [] => None
  | f :: _ => Some (mkPending (path_join exportPath (name f)) (content f))
  end.

Definition setRun (runs : list Pending) (i : nat) (p : option Pending)
  : list Pending :=
  firstn i runs ++
  match p with Some p => [p] | None => [] end ++ skipn (S i) runs.

Definition step `{Host} (exportPath : jsstring) (w : World) (e : event)
  : World :=
  match e with
  | Push f => mkWorld (fileQueue w ++ [f]) (written w) (running w)
  | CallAppendToFile =>
      match nextAppend exportPath (fileQueue w) with
      | None => w
      | Some p => mkWorld (fileQueue w) (written w) (running w ++ [p])
      end
  | Settle i ok =>
      match nth_error (running w) i with
      | None => w
      | Some p =>
          (* addToFile resumes: shift on success, a log on failure *)
          let fileQueue' := if ok then tl (fileQueue w) else fileQueue w in
          let written' :=
            if ok then written w ++ [(filePath p, pendingText p)]
            else written w in
          (* appendToFile resumes: next turn of the loop *)
          mkWorld fileQueue' written'
            (setRun (running w) i (nextAppend exportPath fileQueue'))
      end
  end.

Definition run `{Host} (exportPath : jsstring) (w : World) (es : list event)
  : World :=
  fold_left (step exportPath) es w.

(** The append that a queued task asks for. *)
Definition task `{Host} (exportPath : jsstring) (f : File)
  : jsstring * jsstring :=
  (path_join exportPath (name f), content f).

(** A single run of [appendToFile] on its own: the call, then its
    appends settle one after the other with the given results. *)
Definition alone (results : list bool) : list event :=
  CallAppendToFile :: map (Settle 0) results.

(** What a file holds: the texts appended to it, in order. *)
Definition fileContent (path : jsstring) (written : list (jsstring * jsstring))
  : jsstring :=
  concat (map snd (filter (fun a => jsstring_eqb path (fst a)) written)).

(** A single run of [appendToFile] has exactly the append of the head of
    the queue pending, or none when the queue is empty. *)
Definition singleRun `{Host} (exportPath : jsstring) (w : World) : Prop :=
  running w =
  match nextAppend exportPath (fileQueue w) with
  | Some p => [p]
  | None => []
  end.

(** No call of [appendToFile] is made while a run is under way. *)
Fixpoint oneRunAtATime `{Host} (exportPath : jsstring) (w : World)
  (es : list event) : Prop :=
  match es with
  | [] => True
  | e :: es' =>
      (e = CallAppendToFile -> running w = []) /\
      oneRunAtATime exportPath (step exportPath w e) es'
  end.

(** The tasks that a list of events pushes, in order. *)
Fixpoint pushed (es : list event) : list File :=
  match es with
  | [] => []
  | Push f :: es' => f :: pushed es'
  | _ :: es' => pushed es'
  end.

End Writer.

(** ** A host for the examples

    The constants are those that [buildCsvRow] writes; the two
    serialisations are reduced to what the examples need. *)
Definition exampleHost : Host := {|
  ChangeType_TAB := str "tab";
  generateFileName := fun _ isExport =>
    Some (if isExport then str "export" else str "source");
  JSON_stringify_subtitle := fun text _ _ => text;
  JSON_stringify_changes := fun _ => str "[]";
  path_join := fun a b => a ++ b
|}.

(** A line of the log, as [buildCsvRow] lays it out. *)
Definition csvLine (sequence time : Z) (file : jsstring)
  (rangeOffset rangeLength : Z) (text : jsstring) (language type : jsstring)
  : jsstring :=
  Number_toString (Int sequence) ++ [COMMA] ++
  Number_toString (Int time) ++ [COMMA] ++
  [DQUOTE] ++ file ++ [DQUOTE] ++ [COMMA] ++
  Number_toString (Int rangeOffset) ++ [COMMA] ++
  Number_toString (Int rangeLength) ++ [COMMA] ++
  encodeText text ++ [COMMA] ++ language ++ [COMMA] ++ type.

Definition headingLine : jsstring :=
  str "Sequence,Time,File,RangeOffset,RangeLength,Text,Language,Type".

(** ** The session and the logs of the examples *)

(** A session of 5000 ms. *)
Definition exampleRecording : Recording :=
  mkRecording false (Some 1000) (Some 6000).

Definition exampleEnvironment (lines : list jsstring) : Recorder.Environment :=
  Recorder.mkEnvironment true [str "SRT"; str "JSON"] (Some (str "/out/"))
    (fun _ => Some lines).

Definition helloWorldLog : list jsstring :=
  [headingLine;
   csvLine 1 0 (str "a.ts") 0 0 (str "hello") (str "ts") (str "tab");
   csvLine 2 10 (str "a.ts") 5 0 (str " world") (str "ts") (str "content")].

Definition sameStateLog : list jsstring :=
  [headingLine;
   csvLine 1 0 (str "a.ts") 0 0 (str "abc") (str "ts") (str "tab");
   csvLine 2 0 (str "a.ts") 0 0 [] (str "ts") (str "content")].

Definition threeChangesLog : list jsstring :=
  [headingLine;
   csvLine 1 0 (str "a.ts") 0 0 (str "let x") (str "ts") (str "tab");
   csvLine 2 1200 (str "a.ts") 5 0 (str " = 1") (str "ts") (str "content");
   csvLine 3 3400 (str "b.ts") 0 0 (str "// b") (str "ts") (str "tab")].

Definition outOfOrderLog : list jsstring :=
  [headingLine;
   csvLine 1 10 (str "a.ts") 0 0 (str "a") (str "ts") (str "tab");
   csvLine 2 5 (str "a.ts") 0 0 (str "b") (str "ts") (str "tab")].

(** The changes that the replay of [threeChangesLog] yields. *)
Definition threeChanges : list Change :=
  Eval vm_compute in
    match Recorder.result
            (@Recorder.processCsvFile exampleHost
               (exampleEnvironment threeChangesLog) exampleRecording []) with
    | Recorder.Replayed cs => cs
    | _ => []
    end.

(** Two rows queued for the log of a session, and the events of a
    change notification that carries two content changes: each row is
    pushed and followed by a call of [appendToFile] that is not awaited;
    the appends then settle, the last one with the given result. *)
Definition row1 : File := mkFile (str "source.csv") (str "1,5,row one").
Definition row2 : File := mkFile (str "source.csv") (str "2,5,row two").

Definition emptyWorld : Writer.World := Writer.mkWorld [] [] [].

Definition twoChangesEvents : list Writer.event :=
  [Writer.Push row1; Writer.CallAppendToFile;
   Writer.Push row2; Writer.CallAppendToFile;
   Writer.Settle 0 true; Writer.Settle 1 true].

(** ** Notions used to state the properties *)

(** The number that a string of decimal digits denotes; [None] when a
    character is not a digit. *)
Fixpoint readDigits (acc : Z) (s : jsstring) : option Z :=
  match s with
  | [] => Some acc
  | c :: r =>
      if N.leb 48 c && N.leb c 57
      then readDigits (10 * acc + (Z.of_N c - 48)) r
      else None
  end.

Definition digitsValue (s : jsstring) : option Z := readDigits 0 s.

(** The run [1; 2; ...; n]. *)
Definition countFrom1 (n : nat) : list Z :=
  map (fun i => Z.of_nat i + 1) (seq 0 n).

(** The rows of a log carry integer times that start at [from] or later,
    never decrease along the log and do not exceed [upto]. *)
Fixpoint timesOrdered (from upto : Z) (lines : list jsstring) : bool :=
  match lines with
  | [] => from <=? upto
  | line :: rest =>
      match Recorder.decode line with
      | Normal (Some row) =>
          match Recorder.row_time row with
          | Int t => (from <=? t) && timesOrdered t upto rest
          | NaN => false
          end
      | _ => timesOrdered from upto rest
      end
  end.

(** The end times of all changes but the last are the start times of all
    changes but the first. *)
Definition chained (cs : list Change) : Prop :=
  map endTime (removelast cs) = map startTime (tl cs).

Definition numbered (cs : list Change) : Prop :=
  map sequence cs = countFrom1 (length cs).

(** All changes but the last are closed on an interval that is not
    empty, and the last one starts at an integer time, [from] at most. *)
Definition ordered (from : Z) (cs : list Change) : Prop :=
  Forall (fun c => number_leb (startTime c) (endTime c) = true)
    (removelast cs) /\
  (forall p, lastElement cs = Some p ->
     exists t, startTime p = Int t /\ t <= from).

(** The text with its double quotes, CR LF pairs, line feeds, carriage
    returns and tabs written as the given strings, in one pass from left
    to right; a carriage return that is followed by a line feed forms a
    pair with it. *)
Fixpoint render (q crlf lf cr tab : jsstring) (s : jsstring) : jsstring :=
  match s with
  | [] => []
  | c :: r =>
      if N.eqb c CR
      then
        match r with
        | d :: r' =>
            if N.eqb d LF then crlf ++ render q crlf lf cr tab r'
            else cr ++ render q crlf lf cr tab r
        | [] => cr ++ render q crlf lf cr tab r
        end
      else
        (if N.eqb c DQUOTE then q
         else if N.eqb c LF then lf
         else if N.eqb c TAB_CHAR then tab
         else [c]) ++ render q crlf lf cr tab r
  end.

Definition startsWithLF (s : jsstring) : bool :=
  match s with c :: _ => N.eqb c LF | [] => false end.

(** Texts without backslash, and texts without the two Unicode line
    separators. *)
Definition noBackslash (s : jsstring) : bool :=
  forallb (fun c => negb (N.eqb c BACKSLASH)) s.

Definition noSeparator (s : jsstring) : bool :=
  forallb
    (fun c => negb (N.eqb c LINE_SEPARATOR || N.eqb c PARAGRAPH_SEPARATOR)) s.

(** ** More notions, for the properties beyond the specification *)

(** No character of [s] is one of [cs]. *)
Definition noneOf (cs : list char) (s : jsstring) : bool :=
  forallb (fun c => negb (existsb (N.eqb c) cs)) s.

(** The characters 0 to 9. *)
Definition isDecimalDigit (c : char) : bool := N.leb 48 c && N.leb c 57.

(** A line that the loop skips: its first field is not a number. *)
Definition skipped (line : jsstring) : bool :=
  Number_isNaN (parseInt (nth_error (splitCsvLine line) 0)).

(** Every comma of [x] has an odd number of double quotes between it and
    the end of the line, where [rest] is what follows [x] on the line:
    the regular expression of [processCSVLine] splits at none of them. *)
Fixpoint commasQuoted (x rest : jsstring) : bool :=
  match x with
  | [] => true
  | c :: x' =>
      (if N.eqb c COMMA then negb (Nat.even (countQuotes (x' ++ rest)))
       else true) && commasQuoted x' rest
  end.

(** ** The capture side of recording.ts and of extension.ts

    [buildCsvRow], the two handlers and [startRecording],
    [stopRecording] read the editor, the clock and the export path; what
    they read is passed to them.  They act on the record [recording]
    (with its timer and its sequence counter, here a [Session]), on the
    queue, by calls of [addToFileQueue], and on the writer, by calls of
    [appendToFile] that they do not await: their queue pushes and their
    calls are returned as events of [Writer].  The interval timer, the
    list of subscriptions and the status bar are left out. *)

Module Capture.

(** The active text editor: the file name of its document, what
    [vscode.workspace.asRelativePath] makes of it, the language
    identifier and the text of the document. *)
Record Editor : Type := mkEditor {
  fileName : jsstring;
  relativePath : jsstring;
  languageId : jsstring;
  getText : jsstring
}.

(** What a call reads of the window and of the configuration:
    [vscode.window.activeTextEditor], what [asRelativePath] returns for
    the empty file name, and what [getExportPath] returns. *)
Record Window : Type := mkWindow {
  activeTextEditor : option Editor;
  relativePathOfNothing : jsstring;
  exportPath : option jsstring
}.

(** [getEditorLanguage] (utilities.ts, lines 163-170). *)
Definition getEditorLanguage (w : Window) : jsstring :=
  match activeTextEditor w with
  | Some editor => languageId editor
  | None => []
  end.

(** [getEditorFileName] (utilities.ts, lines 176-178). *)
Definition getEditorFileName (w : Window) : jsstring :=
  match activeTextEditor w with
  | Some editor => relativePath editor
  | None => relativePathOfNothing w
  end.

(** [buildCsvRow] (recording.ts, lines 51-69, the same in both
    revisions); [now] is the time that [new Date()] reads and [type] the
    type of the row, which the callers that give none leave to
    [ChangeType.CONTENT]. *)
Definition buildCsvRow (recording : Recording) (w : Window) (now : Z)
  (sequence rangeOffset rangeLength : Z) (text : jsstring) (type : jsstring)
  : option jsstring :=
  match startDateTime recording with
  | None => None
  | Some start =>
      if jsstring_eqb type (str "heading")
      then Some (headingLine ++ [LF])
      else
        let time := now - start in
        Some (Number_toString (Int sequence) ++ [COMMA] ++
              Number_toString (Int time) ++ [COMMA] ++
              [DQUOTE] ++ getEditorFileName w ++ [DQUOTE] ++ [COMMA] ++
              Number_toString (Int rangeOffset) ++ [COMMA] ++
              Number_toString (Int rangeLength) ++ [COMMA] ++
              [DQUOTE] ++ Utilities.escapeString (Some text) ++ [DQUOTE] ++
              [COMMA] ++ getEditorLanguage w ++ [COMMA] ++ type ++ [LF])
  end.

(** The line that the reader yields for a row: the row without its
    final line feed. *)
Definition rowLine (row : option jsstring) : jsstring :=
  match row with
  | Some r => removelast r
  | None => []
  end.

End Capture.

(** The subtitle block of a closed change: a line with the sequence
    number of the change, a line with its start and its end as subtitle
    times, an arrow in between, a line with the payload of the change,
    and an empty line. *)
Definition subtitleBlock `{Host} (c : Change) : jsstring :=
  Number_toString (Int (sequence c)) ++ [LF] ++
  Utilities.formatSrtTime (startTime c) ++ str " --> " ++
  Utilities.formatSrtTime (endTime c) ++ [LF] ++
  JSON_stringify_subtitle (text c) (file c) (language c) ++ [LF; LF].

(** The task of a closed change: the block of the change, for the file
    of the subtitles. *)
Definition subtitleTask `{Host} (fileName : jsstring) (c : Change) : File :=
  mkFile (fileName ++ str ".srt") (subtitleBlock c).

(** The task of the structured export: the serialised array of changes,
    for the file of the export. *)
Definition jsonTask `{Host} (fileName : jsstring) (cs : list Change) : File :=
  mkFile (fileName ++ str ".json") (JSON_stringify_changes cs).

(** The tasks queued for a list of closed changes when the subtitle
    format is asked for. *)
Definition subtitleTasks `{Host} (exportFormats : list jsstring)
  (fileName : jsstring) (cs : list Change) : list File :=
  if includes exportFormats (str "SRT")
  then map (subtitleTask fileName) cs else [].

(** ** A captured log

    What one call of [buildCsvRow] is given: the window, the clock and
    the fields of the row. *)
Record CapturedRow : Type := mkCapturedRow {
  cr_window : Capture.Window;
  cr_now : Z;
  cr_sequence : Z;
  cr_rangeOffset : Z;
  cr_rangeLength : Z;
  cr_text : jsstring;
  cr_type : jsstring
}.

(** The line of the log that the row becomes. *)
Definition capturedLine (recording : Recording) (r : CapturedRow) : jsstring :=
  Capture.rowLine
    (Capture.buildCsvRow recording (cr_window r) (cr_now r) (cr_sequence r)
       (cr_rangeOffset r) (cr_rangeLength r) (cr_text r) (cr_type r)).

(** The row is not the heading, its file name has no double quote and no
    line terminator, its language and its type no comma, quote or line
    break, and its text no backslash and no Unicode line separator. *)
Definition readableRow (r : CapturedRow) : bool :=
  negb (jsstring_eqb (cr_type r) (str "heading")) &&
  noneOf [DQUOTE; LF; CR; LINE_SEPARATOR; PARAGRAPH_SEPARATOR]
    (Capture.getEditorFileName (cr_window r)) &&
  noneOf [COMMA; DQUOTE; LF; CR] (Capture.getEditorLanguage (cr_window r)) &&
  noneOf [COMMA; DQUOTE; LF; CR] (cr_type r) &&
  noBackslash (cr_text r) && noSeparator (cr_text r).

(** The text of the document after the row, from the text before it: a
    row of the type TAB carries the whole text; another row replaces, in
    the text before it, the [cr_rangeLength] characters that start at
    [cr_rangeOffset] by its own text, and gives the empty text when there
    is no text before it. *)
Definition textAfter `{Host} (before : option jsstring) (r : CapturedRow)
  : option jsstring :=
  Some
    (if jsstring_eqb (cr_type r) ChangeType_TAB then cr_text r
     else
       match before with
       | Some p =>
           firstn (Z.to_nat (cr_rangeOffset r)) p ++ cr_text r ++
           skipn (Z.to_nat (cr_rangeOffset r + cr_rangeLength r)) p
       | None => []
       end).

(** Every row that is not of the type TAB has a range inside the text
    before it: the offset and the length are not negative and the range
    ends within the text. *)
Fixpoint editsInRange `{Host} (before : option jsstring)
  (rows : list CapturedRow) : bool :=
  match rows with
  | [] => true
  | r :: rows' =>
      (jsstring_eqb (cr_type r) ChangeType_TAB ||
       match before with
       | Some p =>
           (0 <=? cr_rangeOffset r) && (0 <=? cr_rangeLength r) &&
           (cr_rangeOffset r + cr_rangeLength r <=? Z.of_nat (length p))
       | None => true
       end) &&
      editsInRange (textAfter before r) rows'
  end.

(** ** utilities.ts: the time shown in the status bar *)

(** [a > b] on numbers. *)
Definition number_gtb (a b : number) : bool :=
  match a, b with
  | Int x, Int y => Z.ltb y x
  | _, _ => false
  end.

Module Display.

(** [formatDisplayTime] (utilities.ts, lines 214-230). *)
Definition formatDisplayTime (seconds : number) : jsstring :=
  let hours := Math_floor_div seconds 3600 in
  let minutes := Math_floor_div (js_mod seconds 3600) 60 in
  let remainingSeconds := js_mod seconds 60 in
  let timeString :=
    if number_gtb hours (Int 0)
    then padStart (Number_toString hours) 2 DIGIT0 ++ str ":"
    else [] in
  timeString ++
  padStart (Number_toString minutes) 2 DIGIT0 ++ str ":" ++
  padStart (Number_toString remainingSeconds) 2 DIGIT0.

End Display.

(** ** recording.ts and extension.ts: the session and its handlers

    The functions are those of the revised recording.ts, with the
    [addToFileQueue] of [Recorder]; the handler of the changes of the
    active editor is that of extension.ts (lines 75-95). *)

Module Lifecycle.

(** The record [recording] with the fields that [Recording] leaves
    out. *)
Record Session : Type := mkSession {
  recording : Recording;
  timer : Z;
  sequence : Z
}.

(** What a call shows, logs or starts besides the queue and the
    writer. *)
Inductive action : Type :=
| NotificationWithProgress (title : jsstring)
| ShowErrorMessage (message : jsstring)
| LogToOutput (message : jsstring) (type : Recorder.severity)
| ProcessCsvFile.

Definition SLASH : char := 47%N.

(** [isCurrentFileExported] (recording.ts revised, lines 76-84). *)
Definition isCurrentFileExported (w : Capture.Window) : bool :=
  match Capture.activeTextEditor w with
  | None => false
  | Some editor =>
      let filename :=
        replace_g [BACKSLASH] [SLASH] (Capture.fileName editor) in
      if falsy (Some filename) || falsy (Capture.exportPath w) then false
      else
        match Capture.exportPath w with
        | Some exportPath => startsWith exportPath filename
        | None => false
        end
  end.

(** [stopRecording] (lines 169-191); [now] is the date that a stop that
    is not forced reads. *)
Definition stopRecording (force : bool) (now : Z) (s : Session)
  : Session * list action :=
  if negb (isRecording (recording s))
  then (s, [NotificationWithProgress (str "Not recording")])
  else
    let stopped :=
      mkRecording false (startDateTime (recording s))
        (endDateTime (recording s)) in
    if force
    then (mkSession stopped 0 (sequence s),
          [NotificationWithProgress (str "Recording cancelled");
           LogToOutput (str "Recording cancelled") Recorder.info])
    else (mkSession
            (mkRecording false (startDateTime (recording s)) (Some now))
            0 (sequence s),
          [NotificationWithProgress (str "Recording finished");
           LogToOutput (str "Recording finished") Recorder.info;
           ProcessCsvFile]).

(** A call of [appendToFile] (lines 204-215) up to its loop: without an
    export path the recording is stopped, with one a run of the writer
    starts. *)
Definition appendToFile (w : Capture.Window) (s : Session)
  : Session * list Writer.event * list action :=
  if falsy (Capture.exportPath w)
  then let '(s', a) := stopRecording true 0 s in (s', [], a)
  else (s, [Writer.CallAppendToFile], []).

(** A call of [addToFileQueue] with the default extension, as the push
    that it makes or not. *)
Definition pushRow `{Host} (recording : Recording) (row : option jsstring)
  : list Writer.event :=
  map Writer.Push (Recorder.addToFileQueue recording row (str "csv") false []).

(** [startRecording] (lines 115-163); [startDate] is the date that
    becomes the start of the session and [now] the one that
    [buildCsvRow] reads. *)
Definition startRecording `{Host} (w : Capture.Window) (startDate now : Z)
  (s : Session) : Session * list Writer.event * list action :=
  match Capture.activeTextEditor w with
  | None =>
      (s, [],
       [ShowErrorMessage (str "No active text editor");
        LogToOutput (str "No active text editor") Recorder.info])
  | Some editor =>
      if isRecording (recording s)
      then (s, [],
            [NotificationWithProgress (str "Already recording");
             LogToOutput (str "Already recording") Recorder.info])
      else if falsy (Capture.exportPath w) then (s, [], [])
      else
        let recording1 := mkRecording true (Some startDate) None in
        let s1 := mkSession recording1 0 (0 + 1) in
        let started :=
          [NotificationWithProgress (str "Recording started");
           LogToOutput (str "Recording started") Recorder.info] in
        if falsy (generateFileName startDate false)
        then let '(s2, a) := stopRecording true now s1 in
             (s2, [], started ++ a)
        else
          let editorText := Capture.getText editor in
          let pushes :=
            pushRow recording1
              (Capture.buildCsvRow recording1 w now (sequence s1) 0 0
                 editorText (str "heading")) ++
            pushRow recording1
              (Capture.buildCsvRow recording1 w now (sequence s1) 0 0
                 editorText ChangeType_TAB) in
          let '(s2, calls, a) := appendToFile w s1 in
          (s2, pushes ++ calls, started ++ a)
  end.

(** One change of a change notification, with the time that
    [buildCsvRow] reads for it. *)
Record ContentChange : Type := mkContentChange {
  rangeOffset : Z;
  rangeLength : Z;
  text : jsstring;
  readAt : Z
}.

(** A change notification: whether its document is the document of the
    active editor, and its changes. *)
Record DocumentChange : Type := mkDocumentChange {
  ofActiveDocument : bool;
  contentChanges : list ContentChange
}.

(** One turn of the loop of the change handler (lines 96-107);
    [CONTENT] is the constant [ChangeType.CONTENT] of types.ts. *)
Definition recordChange `{Host} (CONTENT : jsstring) (w : Capture.Window)
  (acc : Session * list Writer.event * list action) (change : ContentChange)
  : Session * list Writer.event * list action :=
  let '(s, events, actions) := acc in
  let s1 := mkSession (recording s) (timer s) (sequence s + 1) in
  let pushes :=
    pushRow (recording s1)
      (Capture.buildCsvRow (recording s1) w (readAt change) (sequence s1)
         (rangeOffset change) (rangeLength change) (text change) CONTENT) in
  let '(s2, calls, a) := appendToFile w s1 in
  (s2, events ++ pushes ++ calls, actions ++ a).

(** The handler of [onDidChangeTextDocument] (lines 86-109). *)
Definition onDidChangeTextDocument `{Host} (CONTENT : jsstring)
  (w : Capture.Window) (event : DocumentChange) (s : Session)
  : Session * list Writer.event * list action :=
  if negb (isRecording (recording s)) then (s, [], [])
  else if isCurrentFileExported w then (s, [], [])
  else
    match Capture.activeTextEditor w with
    | Some _ =>
        if ofActiveDocument event
        then fold_left (recordChange CONTENT w) (contentChanges event)
               (s, [], [])
        else (s, [], [])
    | None => (s, [], [])
    end.

(** The handler of [onDidChangeActiveTextEditor] (extension.ts,
    lines 75-95), called with the active editor of the window. *)
Definition onDidChangeActiveTextEditor `{Host} (w : Capture.Window) (now : Z)
  (s : Session) : Session * list Writer.event * list action :=
  match Capture.activeTextEditor w with
  | Some editor =>
      if isRecording (recording s)
      then
        if isCurrentFileExported w then (s, [], [])
        else
          let s1 := mkSession (recording s) (timer s) (sequence s + 1) in
          let pushes :=
            pushRow (recording s1)
              (Capture.buildCsvRow (recording s1) w now (sequence s1) 0 0
                 (Capture.getText editor) ChangeType_TAB) in
          let '(s2, calls, a) := appendToFile w s1 in
          (s2, pushes ++ calls, a)
      else (s, [], [])
  | None => (s, [], [])
  end.

(** What happens between a start and a stop. *)
Inductive notification : Type :=
| DocumentChanged (w : Capture.Window) (event : DocumentChange)
| EditorChanged (w : Capture.Window) (now : Z).

Definition handle `{Host} (CONTENT : jsstring)
  (acc : Session * list Writer.event) (n : notification)
  : Session * list Writer.event :=
  let '(s, events) := acc in
  let '(s', events', _) :=
    match n with
    | DocumentChanged w event => onDidChangeTextDocument CONTENT w event s
    | EditorChanged w now => onDidChangeActiveTextEditor w now s
    end in
  (s', events ++ events').

End Lifecycle.

(** The tasks are rows queued for the file [logName], the first of which
    begins with the number [from] and a comma, the next with the number
    after it, and so on. *)
Fixpoint rowsNumbered (logName : jsstring) (from : Z) (rows : list File)
  : Prop :=
  match rows with
  | [] => True
  | f :: rows' =>
      name f = logName /\
      startsWith (Number_toString (Int from) ++ [COMMA]) (content f) = true /\
      rowsNumbered logName (from + 1) rows'
  end.

(** From [s] to [s'] the start of the session is kept and the events
    push rows for the file [logName], numbered from the counter of [s]
    on up to the counter of [s']. *)
Definition adds (logName : jsstring) (s s' : Lifecycle.Session)
  (events : list Writer.event) : Prop :=
  startDateTime (Lifecycle.recording s') =
    startDateTime (Lifecycle.recording s) /\
  rowsNumbered logName (Lifecycle.sequence s + 1) (Writer.pushed events) /\
  Lifecycle.sequence s' =
    Lifecycle.sequence s + Z.of_nat (length (Writer.pushed events)).

(** ** The editor and the events of the examples *)

Definition exampleEditor : Capture.Editor :=
  Capture.mkEditor (str "/w/a.ts") (str "a.ts") (str "ts") (str "hello").

Definition exampleWindow : Capture.Window :=
  Capture.mkWindow (Some exampleEditor) [] (Some (str "/out/")).

Definition exampleRows : list CapturedRow :=
  [mkCapturedRow exampleWindow 1000 1 0 0 (str "hello") (str "tab");
   mkCapturedRow exampleWindow 1010 2 5 0
     (str " wor" ++ [DQUOTE; COMMA; LF] ++ str "ld") (str "content");
   mkCapturedRow exampleWindow 1020 3 0 1 (str "H") (str "content")].

Definition truncatedLog : list jsstring :=
  [headingLine;
   csvLine 1 0 (str "a.ts") 0 0 (str "abc") (str "ts") (str "tab")] ++
  str "2,17" ::
  [csvLine 3 20 (str "a.ts") 0 0 (str "x") (str "ts") (str "content")].

Definition idleSession : Lifecycle.Session :=
  Lifecycle.mkSession (mkRecording false None None) 0 0.

Definition activeSession : Lifecycle.Session :=
  Lifecycle.mkSession (mkRecording true (Some 1000) None) 0 1.

Definition twoChanges : Lifecycle.DocumentChange :=
  Lifecycle.mkDocumentChange true
    [Lifecycle.mkContentChange 5 0 (str "!") 1010;
     Lifecycle.mkContentChange 0 1 (str "H") 1010].

Definition exampleNotifications : list Lifecycle.notification :=
  [Lifecycle.DocumentChanged exampleWindow twoChanges;
   Lifecycle.EditorChanged exampleWindow 1500].

(** ** utilities.ts, earlier revision: the name of a recording

    [generateFileName] (src/utilities.ts, lines 153-156) reads the local
    date of the machine; [LocalDate] holds what the getters of [Date]
    return, with [month] counted from 0 as [getMonth] does. *)

Module FileNames.

Record LocalDate : Type := mkLocalDate {
  fullYear : Z;
  month : Z;
  date : Z;
  hours : Z;
  minutes : Z;
  seconds : Z;
  milliseconds : Z
}.

Definition generateFileName (d : LocalDate) : jsstring :=
  str "vs-code-recorder-" ++
  Number_toString (Int (fullYear d)) ++ str "_" ++
  Number_toString (Int (month d)) ++ str "_" ++
  Number_toString (Int (date d)) ++ str "-" ++
  Number_toString (Int (hours d)) ++ str "." ++
  Number_toString (Int (minutes d)) ++ str "." ++
  Number_toString (Int (seconds d)) ++ str "." ++
  Number_toString (Int (milliseconds d)).

(** What the getters of [Date] guarantee that matters here. *)
Definition wellFormed (d : LocalDate) : Prop :=
  0 <= fullYear d /\ 0 <= month d /\ 0 <= date d /\ 0 <= hours d /\
  0 <= minutes d /\ 0 <= seconds d /\ 0 <= milliseconds d.

End FileNames.

(** ** A range cut down to the text

    [clampedSplice p o l t] replaces, in [p], the range from [o] to
    [o + l] by [t] after both ends have been brought back between 0 and
    the length of [p]. *)
Definition clamp (len x : Z) : Z := Z.max 0 (Z.min x len).

Definition clampedSplice (p : jsstring) (o l : Z) (t : jsstring) : jsstring :=
  let len := Z.of_nat (length p) in
  firstn (Z.to_nat (clamp len o)) p ++ t ++
  skipn (Z.to_nat (clamp len (o + l))) p.

(** A log whose second row has a negative offset. *)
Definition negativeOffsetLog : list jsstring :=
  [headingLine;
   csvLine 1 0 (str "a.ts") 0 0 (str "hello") (str "ts") (str "tab");
   csvLine 2 10 (str "a.ts") (-2) 1 (str "X") (str "ts") (str "content")].

(* ================================================================== *)
(** * Part II. Properties *)
(* ================================================================== *)

(** ** Numbers and their digits *)

Lemma digits_fuel_acc (fuel : nat) :
  forall n acc, digits_fuel fuel n acc = digits_fuel fuel n [] ++ acc.
Proof.
  induction fuel as [|f IH]; intros n acc; cbn [digits_fuel]; [reflexivity|].
  destruct (n <? 10); [reflexivity|].
  rewrite IH. rewrite (IH _ [_]). rewrite <- app_assoc. reflexivity.
Qed.

Lemma readDigits_app (x y : jsstring) :
  forall a,
    readDigits a (x ++ y) =
    match readDigits a x with Some v => readDigits v y | None => None end.
Proof.
  induction x as [|c x IH]; intros a; cbn [readDigits app]; [reflexivity|].
  destruct (N.leb 48 c && N.leb c 57); [apply IH|reflexivity].
Qed.

Lemma readDigits_digit (a d : Z) :
  0 <= d < 10 -> readDigits a [Z.to_N (48 + d)] = Some (10 * a + d).
Proof.
  intros Hd. cbn [readDigits].
  replace (N.leb 48 (Z.to_N (48 + d)) && N.leb (Z.to_N (48 + d)) 57) with true.
  - rewrite Z2N.id by lia. f_equal. lia.
  - symmetry. apply andb_true_iff. split; apply N.leb_le; lia.
Qed.

Lemma digits_fuel_value (fuel : nat) :
  forall n, 0 <= n < 2 ^ Z.of_nat fuel -> (1 <= fuel)%nat ->
    readDigits 0 (digits_fuel fuel n []) = Some n.
Proof.
  induction fuel as [|f IH]; intros n Hn Hf; [lia|].
  cbn [digits_fuel].
  assert (Hm : 0 <= n mod 10 < 10) by (apply Z.mod_pos_bound; lia).
  destruct (n <? 10) eqn:E.
  - apply Z.ltb_lt in E. rewrite readDigits_digit by lia.
    f_equal. rewrite Z.mod_small by lia. lia.
  - apply Z.ltb_ge in E. rewrite digits_fuel_acc, readDigits_app.
    assert (Hpow : 2 ^ Z.of_nat (S f) = 2 * 2 ^ Z.of_nat f).
    { rewrite Nat2Z.inj_succ, Z.pow_succ_r by lia. reflexivity. }
    assert (Hdiv : 0 <= n / 10 < 2 ^ Z.of_nat f).
    { split; [apply Z.div_pos; lia|].
      apply Z.div_lt_upper_bound; lia. }
    assert (Hf' : (1 <= f)%nat).
    { destruct f; [|lia]. simpl in Hn. lia. }
    rewrite IH by assumption. rewrite readDigits_digit by lia.
    f_equal. pose proof (Z.div_mod n 10). lia.
Qed.

Lemma digits_fuel_length (fuel : nat) :
  forall n k, 0 <= n < 2 ^ Z.of_nat fuel -> (1 <= fuel)%nat ->
    n < 10 ^ Z.of_nat k -> (1 <= k)%nat ->
    (1 <= length (digits_fuel fuel n []) <= k)%nat.
Proof.
  induction fuel as [|f IH]; intros n k Hn Hf Hk Hk1; [lia|].
  cbn [digits_fuel].
  destruct (n <? 10) eqn:E; [cbn [length]; lia|].
  apply Z.ltb_ge in E. rewrite digits_fuel_acc, length_app. cbn [length].
  assert (Hpow : 2 ^ Z.of_nat (S f) = 2 * 2 ^ Z.of_nat f).
  { rewrite Nat2Z.inj_succ, Z.pow_succ_r by lia. reflexivity. }
  assert (Hdiv : 0 <= n / 10 < 2 ^ Z.of_nat f).
  { split; [apply Z.div_pos; lia|].
    apply Z.div_lt_upper_bound; lia. }
  assert (Hf' : (1 <= f)%nat).
  { destruct f; [|lia]. simpl in Hn. lia. }
  destruct k as [|k]; [lia|].
  assert (Hk' : (1 <= k)%nat).
  { destruct k; [|lia]. simpl in Hk. lia. }
  assert (Hlt : n / 10 < 10 ^ Z.of_nat k).
  { apply Z.div_lt_upper_bound; [lia|].
    rewrite Nat2Z.inj_succ, Z.pow_succ_r in Hk by lia. lia. }
  specialize (IH (n / 10) k Hdiv Hf' Hlt Hk'). lia.
Qed.

Lemma digits_fuel_enough (n : Z) :
  0 <= n -> 0 <= n < 2 ^ Z.of_nat (S (Z.to_nat (Z.log2 n))).
Proof.
  intros Hn. split; [assumption|].
  rewrite Nat2Z.inj_succ, Z2Nat.id by apply Z.log2_nonneg.
  destruct (Z.eq_dec n 0) as [->|Hne]; [reflexivity|].
  apply Z.log2_spec. lia.
Qed.

Lemma digits_value (n : Z) : 0 <= n -> digitsValue (digits n) = Some n.
Proof.
  intros Hn. apply digits_fuel_value; [apply digits_fuel_enough; lia|lia].
Qed.

Lemma digits_length (n : Z) (k : nat) :
  0 <= n < 10 ^ Z.of_nat k -> (1 <= k)%nat ->
  (1 <= length (digits n) <= k)%nat.
Proof.
  intros Hn Hk.
  apply digits_fuel_length; [apply digits_fuel_enough; lia|lia|lia|lia].
Qed.

Lemma readDigits_bound (s : jsstring) :
  forall a v, 0 <= a -> readDigits a s = Some v ->
    v < (a + 1) * 10 ^ Z.of_nat (length s).
Proof.
  induction s as [|c s IH]; intros a v Ha R.
  - injection R as <-. cbn [length]. change (10 ^ Z.of_nat 0) with 1. lia.
  - cbn [readDigits] in R.
    destruct (N.leb 48 c && N.leb c 57) eqn:D; [|discriminate].
    apply andb_true_iff in D. destruct D as [D1 D2].
    apply N.leb_le in D1, D2.
    apply IH in R; [|lia].
    cbn [length]. rewrite Nat2Z.inj_succ, Z.pow_succ_r by lia.
    assert (P : 0 < 10 ^ Z.of_nat (length s)) by (apply Z.pow_pos_nonneg; lia).
    nia.
Qed.

(** A number from 100 on has three digits or more. *)
Lemma digits_long (n : Z) : 100 <= n -> (3 <= length (digits n))%nat.
Proof.
  intros Hn. pose proof (digits_value n ltac:(lia)) as V.
  unfold digitsValue in V. apply readDigits_bound in V; [|lia].
  destruct (digits n) as [|a [|b [|c r]]]; cbn [length] in V |- *;
    try lia; cbn in V; lia.
Qed.

Lemma readDigits_zeros (k : nat) (s : jsstring) :
  readDigits 0 (repeat DIGIT0 k ++ s) = readDigits 0 s.
Proof.
  induction k as [|k IH]; [reflexivity|]. simpl. exact IH.
Qed.

Lemma padStart_value (s : jsstring) (k : nat) :
  digitsValue (padStart s k DIGIT0) = digitsValue s.
Proof. apply readDigits_zeros. Qed.

Lemma padStart_length (s : jsstring) (k : nat) (c : char) :
  length (padStart s k c) = Nat.max k (length s).
Proof.
  unfold padStart. rewrite length_app, repeat_length. lia.
Qed.

(** ** C9: the subtitle time format *)

(** C9.  For a non-negative count of milliseconds [m], [formatSrtTime]
    renders four fields of decimal digits separated by two colons and a
    comma.  With [s = floor (m / 1000)], the fields denote [s / 3600],
    [(s mod 3600) / 60], [s mod 60] and [m mod 1000]; the minutes and the
    seconds have exactly two characters, the milliseconds exactly three.
    The hours are the decimal digits of [s / 3600] padded with zeros to
    two characters: exactly two characters below 100 hours, and the
    digits themselves, with nothing in front, from 100 hours on.  In
    particular 3661500 is rendered 01:01:01,500. *)
Theorem formatSrtTime_fields (m : Z) (Hm : 0 <= m) :
  (exists hh mm ss mmm : jsstring,
      Utilities.formatSrtTime (Int m) =
        hh ++ str ":" ++ mm ++ str ":" ++ ss ++ str "," ++ mmm /\
      digitsValue hh = Some (m / 1000 / 3600) /\
      digitsValue mm = Some ((m / 1000) mod 3600 / 60) /\
      digitsValue ss = Some ((m / 1000) mod 60) /\
      digitsValue mmm = Some (m mod 1000) /\
      hh = repeat DIGIT0 (2 - length (digits (m / 1000 / 3600))) ++
           digits (m / 1000 / 3600) /\
      length hh = Nat.max 2 (length (digits (m / 1000 / 3600))) /\
      (m / 1000 / 3600 < 100 -> length hh = 2%nat) /\
      (100 <= m / 1000 / 3600 -> hh = digits (m / 1000 / 3600)) /\
      length mm = 2%nat /\
      length ss = 2%nat /\ length mmm = 3%nat) /\
  Utilities.formatSrtTime (Int 3661500) = str "01:01:01,500".
Proof.
  split; [|reflexivity].
  set (s := m / 1000).
  assert (Hs : 0 <= s) by (apply Z.div_pos; lia).
  assert (Hh : 0 <= s / 3600) by (apply Z.div_pos; lia).
  assert (Hr : 0 <= s mod 3600 < 3600) by (apply Z.mod_pos_bound; lia).
  assert (Hmin : 0 <= s mod 3600 / 60 < 60).
  { split; [apply Z.div_pos; lia|apply Z.div_lt_upper_bound; lia]. }
  assert (Hsec : 0 <= s mod 60 < 60) by (apply Z.mod_pos_bound; lia).
  assert (Hms : 0 <= m mod 1000 < 1000) by (apply Z.mod_pos_bound; lia).
  unfold Utilities.formatSrtTime. cbn [Math_floor_div js_mod].
  fold s. rewrite !Z.rem_mod_nonneg by lia.
  unfold Number_toString.
  replace (s / 3600 <? 0) with false by (symmetry; apply Z.ltb_ge; lia).
  replace (s mod 3600 / 60 <? 0) with false by (symmetry; apply Z.ltb_ge; lia).
  replace (s mod 60 <? 0) with false by (symmetry; apply Z.ltb_ge; lia).
  replace (m mod 1000 <? 0) with false by (symmetry; apply Z.ltb_ge; lia).
  eexists _, _, _, _. split; [reflexivity|].
  rewrite !padStart_value, !padStart_length.
  rewrite !digits_value by lia.
  pose proof (digits_length (s mod 3600 / 60) 2 ltac:(simpl; lia) ltac:(lia)).
  pose proof (digits_length (s mod 60) 2 ltac:(simpl; lia) ltac:(lia)).
  pose proof (digits_length (m mod 1000) 3 ltac:(simpl; lia) ltac:(lia)).
  assert (Hlow : s / 3600 < 100 -> (1 <= length (digits (s / 3600)) <= 2)%nat).
  { intros B. apply digits_length; [simpl; lia|lia]. }
  assert (Hhigh : 100 <= s / 3600 -> (3 <= length (digits (s / 3600)))%nat).
  { intros B. apply digits_long. exact B. }
  repeat split; try lia; try reflexivity.
  intros B. specialize (Hhigh B). unfold padStart.
  replace (2 - length (digits (s / 3600)))%nat with 0%nat by lia.
  reflexivity.
Qed.

Lemma formatSrtTime_fields_witness :
  0 <= 3661500 /\
  Utilities.formatSrtTime (Int 3661500) = str "01:01:01,500".
Proof.
  split; [lia|]. exact (proj2 (formatSrtTime_fields 3661500 ltac:(lia))).
Defined.

(** ** Strings *)

Lemma jsstring_eqb_eq (a b : jsstring) : jsstring_eqb a b = true <-> a = b.
Proof.
  revert b. induction a as [|x a IH]; intros [|y b]; simpl;
    try (split; [discriminate|discriminate]); [tauto|].
  rewrite andb_true_iff, N.eqb_eq, IH. split.
  - intros [-> ->]. reflexivity.
  - intros E. injection E as -> ->. split; reflexivity.
Qed.

Lemma jsstring_eqb_refl (a : jsstring) : jsstring_eqb a a = true.
Proof. apply jsstring_eqb_eq. reflexivity. Qed.

Lemma opt_jsstring_eqb_eq (a b : option jsstring) :
  opt_jsstring_eqb a b = true <-> a = b.
Proof.
  destruct a as [a|], b as [b|]; simpl;
    try (split; [discriminate|discriminate]); [|tauto].
  rewrite jsstring_eqb_eq. split; [intros ->; reflexivity|].
  intros E. injection E as ->. reflexivity.
Qed.

(** ** Arrays *)

Lemma lastElement_snoc {A : Type} (l : list A) (x : A) :
  lastElement (l ++ [x]) = Some x.
Proof. unfold lastElement. rewrite rev_unit. reflexivity. Qed.

Lemma lastElement_nil {A : Type} (l : list A) :
  lastElement l = None -> l = [].
Proof.
  unfold lastElement. intros E.
  destruct (rev l) as [|x r] eqn:R; [|discriminate].
  rewrite <- (rev_involutive l), R. reflexivity.
Qed.

Lemma lastElement_some {A : Type} (l : list A) (x : A) :
  lastElement l = Some x -> l = removelast l ++ [x].
Proof.
  unfold lastElement. intros E.
  destruct (rev l) as [|y r] eqn:R; [discriminate|].
  injection E as ->.
  assert (L : l = rev r ++ [x]).
  { rewrite <- (rev_involutive l), R. reflexivity. }
  rewrite L at 2. rewrite removelast_last. exact L.
Qed.

Lemma nth_error_last {A : Type} (l : list A) (x : A) :
  lastElement l = Some x -> nth_error l (length l - 1) = Some x.
Proof.
  intros E. apply lastElement_some in E. rewrite E.
  rewrite length_app. simpl.
  rewrite nth_error_app2 by lia.
  replace (length (removelast l) + 1 - 1 - length (removelast l))%nat
    with 0%nat by lia.
  reflexivity.
Qed.

(** ** C10: empty content is not queued *)

(** C10.  A call of [addToFileQueue] whose content is [undefined] or the
    empty string returns the queue as it was, in the revised
    recording.ts as in the earlier one; and whatever the content, the
    tasks that a call adds have a content that is not empty. *)
Theorem addToFileQueue_empty_content `{Host} (recording : Recording)
  (fileName fileExtension : jsstring) (isExport : bool)
  (fileQueue : list File) :
  Recorder.addToFileQueue recording None fileExtension isExport fileQueue
    = fileQueue /\
  Recorder.addToFileQueue recording (Some []) fileExtension isExport fileQueue
    = fileQueue /\
  Legacy.addToFileQueue fileName None fileExtension fileQueue = fileQueue /\
  Legacy.addToFileQueue fileName (Some []) fileExtension fileQueue
    = fileQueue /\
  (forall content : option jsstring,
      exists added : list File,
        Recorder.addToFileQueue recording content fileExtension isExport
          fileQueue = fileQueue ++ added /\
        Forall (fun f => Types.content f <> []) added) /\
  (forall content : option jsstring,
      exists added : list File,
        Legacy.addToFileQueue fileName content fileExtension fileQueue
          = fileQueue ++ added /\
        Forall (fun f => Types.content f <> []) added).
Proof.
  repeat split; try reflexivity.
  - intros [[|c content']|]; unfold Recorder.addToFileQueue;
      try (exists []; split; [symmetry; apply app_nil_r|constructor]).
    destruct (startDateTime recording) as [start|];
      [|exists []; split; [symmetry; apply app_nil_r|constructor]].
    destruct (generateFileName start isExport) as [[|d n]|]; simpl;
      try (exists []; split; [symmetry; apply app_nil_r|constructor]).
    eexists [_]. split; [reflexivity|].
    constructor; [simpl; discriminate|constructor].
  - intros [[|c content']|]; unfold Legacy.addToFileQueue;
      try (exists []; split; [symmetry; apply app_nil_r|constructor]).
    eexists [_]. split; [reflexivity|].
    constructor; [simpl; discriminate|constructor].
Qed.

(** ** C1: escaping and unescaping *)

(** C1, at a text that the encoder does not survive.  The two characters
    backslash and n are written as they are, since [escapeString] has no
    case for the backslash, and [unescapeString] reads them back as one
    line feed. *)
Theorem escape_backslash_n_not_restored :
  encodeText [BACKSLASH; LETTER_n] = [DQUOTE; BACKSLASH; LETTER_n; DQUOTE] /\
  decodeText (encodeText [BACKSLASH; LETTER_n]) = [LF] /\
  decodeText (encodeText [BACKSLASH; LETTER_n]) <> [BACKSLASH; LETTER_n].
Proof.
  split; [reflexivity|]. split; [reflexivity|]. discriminate.
Qed.

(** A text with a line separator (U+2028) keeps its quotes: the [.] of
    [removeDoubleQuotes] does not match it. *)
Lemma escape_line_separator_not_restored :
  decodeText (encodeText [LINE_SEPARATOR]) = [DQUOTE; LINE_SEPARATOR; DQUOTE].
Proof. reflexivity. Qed.

(** The round trip does hold for the texts that have no backslash and
    none of the two Unicode line separators.  Each pass of
    [escapeString] and of [unescapeString] is followed on the one-pass
    rendering [render] of the text. *)

Lemma render_ind (P : jsstring -> Prop) :
  P [] ->
  (forall r, P r -> P (CR :: LF :: r)) ->
  (forall r, startsWithLF r = false -> P r -> P (CR :: r)) ->
  (forall c r, N.eqb c CR = false -> P r -> P (c :: r)) ->
  forall s, P s.
Proof.
  intros Hnil Hcrlf Hcr Hc.
  assert (G : forall s, P s /\ forall c, P (c :: s)).
  { induction s as [|d s [IH1 IH2]].
    - split; [exact Hnil|]. intros c.
      destruct (N.eqb c CR) eqn:E.
      + apply N.eqb_eq in E. subst c. apply Hcr; [reflexivity|exact Hnil].
      + apply Hc; assumption.
    - split; [apply IH2|]. intros c.
      destruct (N.eqb c CR) eqn:E.
      + apply N.eqb_eq in E. subst c.
        destruct (N.eqb d LF) eqn:F.
        * apply N.eqb_eq in F. subst d. apply Hcrlf. exact IH1.
        * apply Hcr; [exact F|apply IH2].
      + apply Hc; [exact E|apply IH2]. }
  intros s. apply G.
Qed.

Lemma render_crlf q crlf lf cr tab r :
  render q crlf lf cr tab (CR :: LF :: r) = crlf ++ render q crlf lf cr tab r.
Proof. reflexivity. Qed.

Lemma render_cr q crlf lf cr tab r :
  startsWithLF r = false ->
  render q crlf lf cr tab (CR :: r) = cr ++ render q crlf lf cr tab r.
Proof.
  intros E. destruct r as [|d r]; [reflexivity|].
  cbn in E. cbn [render]. change (N.eqb CR CR) with true. cbv iota.
  rewrite E. reflexivity.
Qed.

Lemma render_other q crlf lf cr tab c r :
  N.eqb c CR = false ->
  render q crlf lf cr tab (c :: r) =
  (if N.eqb c DQUOTE then q
   else if N.eqb c LF then lf
   else if N.eqb c TAB_CHAR then tab
   else [c]) ++ render q crlf lf cr tab r.
Proof. intros E. cbn [render]. rewrite E. reflexivity. Qed.

Lemma render_id s : render [DQUOTE] [CR; LF] [LF] [CR] [TAB_CHAR] s = s.
Proof.
  induction s as [| r IH | r E IH | c r E IH] using render_ind.
  - reflexivity.
  - rewrite render_crlf, IH. reflexivity.
  - rewrite render_cr, IH by assumption. reflexivity.
  - rewrite render_other, IH by assumption.
    destruct (N.eqb c DQUOTE) eqn:A;
      [apply N.eqb_eq in A; subst; reflexivity|].
    destruct (N.eqb c LF) eqn:B;
      [apply N.eqb_eq in B; subst; reflexivity|].
    destruct (N.eqb c TAB_CHAR) eqn:C;
      [apply N.eqb_eq in C; subst; reflexivity|].
    reflexivity.
Qed.

Lemma replace_cons_no pat rep c s :
  startsWith pat (c :: s) = false ->
  replace_g pat rep (c :: s) = c :: replace_g pat rep s.
Proof.
  intros E. unfold replace_g. cbn [replace_from]. rewrite E. reflexivity.
Qed.

Lemma escape_pass1 s :
  replace_g [DQUOTE] [DQUOTE; DQUOTE]
    (render [DQUOTE] [CR; LF] [LF] [CR] [TAB_CHAR] s)
  = render [DQUOTE; DQUOTE] [CR; LF] [LF] [CR] [TAB_CHAR] s.
Proof.
  induction s as [| r IH | r E IH | c r E IH] using render_ind.
  - reflexivity.
  - rewrite !render_crlf, <- IH. reflexivity.
  - rewrite !render_cr, <- IH by assumption. reflexivity.
  - rewrite !render_other, <- IH by assumption.
    destruct (N.eqb c DQUOTE) eqn:A; [reflexivity|].
    destruct (N.eqb c LF) eqn:B; [reflexivity|].
    destruct (N.eqb c TAB_CHAR) eqn:C; [reflexivity|].
    cbn [app]. apply replace_cons_no. cbn [startsWith].
    rewrite N.eqb_sym, A. reflexivity.
Qed.

Ltac other_case c A B C :=
  destruct (N.eqb c DQUOTE) eqn:A; [try reflexivity|];
  destruct (N.eqb c LF) eqn:B; [try reflexivity|];
  destruct (N.eqb c TAB_CHAR) eqn:C; [try reflexivity|].

Lemma head_LF_render q crlf cr tab r :
  startsWithLF r = false ->
  startsWithLF q = false -> startsWithLF crlf = false ->
  startsWithLF cr = false -> startsWithLF tab = false ->
  q <> [] -> crlf <> [] -> cr <> [] -> tab <> [] ->
  startsWithLF (render q crlf [LF] cr tab r) = false.
Proof.
  intros E Hq Hcrlf Hcr Htab Nq Ncrlf Ncr Ntab.
  destruct r as [|c r]; [reflexivity|]. cbn in E. cbn [render].
  destruct (N.eqb c CR).
  - destruct r as [|d r].
    + destruct cr; [contradiction|exact Hcr].
    + destruct (N.eqb d LF).
      * destruct crlf; [contradiction|exact Hcrlf].
      * destruct cr; [contradiction|exact Hcr].
  - destruct (N.eqb c DQUOTE); [destruct q; [contradiction|exact Hq]|].
    rewrite E. destruct (N.eqb c TAB_CHAR).
    + destruct tab; [contradiction|exact Htab].
    + exact E.
Qed.

Lemma escape_pass2 s :
  replace_g [CR; LF] [BACKSLASH; LETTER_r; BACKSLASH; LETTER_n]
    (render [DQUOTE; DQUOTE] [CR; LF] [LF] [CR] [TAB_CHAR] s)
  = render [DQUOTE; DQUOTE] [BACKSLASH; LETTER_r; BACKSLASH; LETTER_n]
      [LF] [CR] [TAB_CHAR] s.
Proof.
  induction s as [| r IH | r E IH | c r E IH] using render_ind.
  - reflexivity.
  - rewrite !render_crlf, <- IH. reflexivity.
  - rewrite !render_cr, <- IH by assumption.
    cbn [app]. apply replace_cons_no. cbn [startsWith].
    pose proof (head_LF_render [DQUOTE; DQUOTE] [CR; LF] [CR] [TAB_CHAR] r E
                  eq_refl eq_refl eq_refl eq_refl) as L.
    specialize (L ltac:(discriminate) ltac:(discriminate) ltac:(discriminate)
                  ltac:(discriminate)).
    destruct (render _ _ _ _ _ r) as [|x X]; [reflexivity|].
    cbn in L. cbn [startsWith]. rewrite (N.eqb_sym LF x), L. reflexivity.
  - rewrite !render_other, <- IH by assumption.
    other_case c A B C.
    cbn [app]. apply replace_cons_no. cbn [startsWith].
    rewrite (N.eqb_sym CR c), E. reflexivity.
Qed.

Lemma escape_pass3 s :
  replace_g [LF] [BACKSLASH; LETTER_n]
    (render [DQUOTE; DQUOTE] [BACKSLASH; LETTER_r; BACKSLASH; LETTER_n]
      [LF] [CR] [TAB_CHAR] s)
  = render [DQUOTE; DQUOTE] [BACKSLASH; LETTER_r; BACKSLASH; LETTER_n]
      [BACKSLASH; LETTER_n] [CR] [TAB_CHAR] s.
Proof.
  induction s as [| r IH | r E IH | c r E IH] using render_ind.
  - reflexivity.
  - rewrite !render_crlf, <- IH. reflexivity.
  - rewrite !render_cr, <- IH by assumption. reflexivity.
  - rewrite !render_other, <- IH by assumption.
    other_case c A B C.
    cbn [app]. apply replace_cons_no. cbn [startsWith].
    rewrite N.eqb_sym, B. reflexivity.
Qed.

Lemma escape_pass4 s :
  replace_g [CR] [BACKSLASH; LETTER_r]
    (render [DQUOTE; DQUOTE] [BACKSLASH; LETTER_r; BACKSLASH; LETTER_n]
      [BACKSLASH; LETTER_n] [CR] [TAB_CHAR] s)
  = render [DQUOTE; DQUOTE] [BACKSLASH; LETTER_r; BACKSLASH; LETTER_n]
      [BACKSLASH; LETTER_n] [BACKSLASH; LETTER_r] [TAB_CHAR] s.
Proof.
  induction s as [| r IH | r E IH | c r E IH] using render_ind.
  - reflexivity.
  - rewrite !render_crlf, <- IH. reflexivity.
  - rewrite !render_cr, <- IH by assumption. reflexivity.
  - rewrite !render_other, <- IH by assumption.
    other_case c A B C.
    cbn [app]. apply replace_cons_no. cbn [startsWith].
    rewrite N.eqb_sym, E. reflexivity.
Qed.

Lemma escape_pass5 s :
  replace_g [TAB_CHAR] [BACKSLASH; LETTER_t]
    (render [DQUOTE; DQUOTE] [BACKSLASH; LETTER_r; BACKSLASH; LETTER_n]
      [BACKSLASH; LETTER_n] [BACKSLASH; LETTER_r] [TAB_CHAR] s)
  = render [DQUOTE; DQUOTE] [BACKSLASH; LETTER_r; BACKSLASH; LETTER_n]
      [BACKSLASH; LETTER_n] [BACKSLASH; LETTER_r] [BACKSLASH; LETTER_t] s.
Proof.
  induction s as [| r IH | r E IH | c r E IH] using render_ind.
  - reflexivity.
  - rewrite !render_crlf, <- IH. reflexivity.
  - rewrite !render_cr, <- IH by assumption. reflexivity.
  - rewrite !render_other, <- IH by assumption.
    other_case c A B C.
    cbn [app]. apply replace_cons_no. cbn [startsWith].
    rewrite N.eqb_sym, C. reflexivity.
Qed.

Lemma escapeString_render s :
  Utilities.escapeString (Some s) =
  render [DQUOTE; DQUOTE] [BACKSLASH; LETTER_r; BACKSLASH; LETTER_n]
    [BACKSLASH; LETTER_n] [BACKSLASH; LETTER_r] [BACKSLASH; LETTER_t] s.
Proof.
  unfold Utilities.escapeString.
  rewrite <- (render_id s) at 1.
  rewrite escape_pass1, escape_pass2, escape_pass3, escape_pass4, escape_pass5.
  reflexivity.
Qed.

Lemma startsWith_cons p pat c s :
  startsWith (p :: pat) (c :: s) = N.eqb p c && startsWith pat s.
Proof. reflexivity. Qed.

Lemma unescape_pass1 s :
  replace_g [DQUOTE; DQUOTE] [DQUOTE]
    (render [DQUOTE; DQUOTE] [BACKSLASH; LETTER_r; BACKSLASH; LETTER_n]
      [BACKSLASH; LETTER_n] [BACKSLASH; LETTER_r] [BACKSLASH; LETTER_t] s)
  = render [DQUOTE] [BACKSLASH; LETTER_r; BACKSLASH; LETTER_n]
      [BACKSLASH; LETTER_n] [BACKSLASH; LETTER_r] [BACKSLASH; LETTER_t] s.
Proof.
  induction s as [| r IH | r E IH | c r E IH] using render_ind.
  - reflexivity.
  - rewrite !render_crlf, <- IH. reflexivity.
  - rewrite !render_cr, <- IH by assumption. reflexivity.
  - rewrite !render_other, <- IH by assumption.
    other_case c A B C.
    cbn [app]. apply replace_cons_no. cbn [startsWith].
    rewrite (N.eqb_sym DQUOTE c), A. reflexivity.
Qed.

Lemma head_escape_n_render r :
  startsWithLF r = false -> noBackslash r = true ->
  startsWith [BACKSLASH; LETTER_n]
    (render [DQUOTE] [BACKSLASH; LETTER_r; BACKSLASH; LETTER_n]
       [BACKSLASH; LETTER_n] [BACKSLASH; LETTER_r] [BACKSLASH; LETTER_t] r)
  = false.
Proof.
  intros E N. destruct r as [|c r]; [reflexivity|].
  cbn in E. cbn [noBackslash forallb] in N.
  apply andb_true_iff in N. destruct N as [N _].
  apply negb_true_iff in N.
  cbn [render]. destruct (N.eqb c CR).
  - destruct r as [|d r]; [reflexivity|]. destruct (N.eqb d LF); reflexivity.
  - destruct (N.eqb c DQUOTE); [reflexivity|]. rewrite E.
    destruct (N.eqb c TAB_CHAR); [reflexivity|].
    cbn [app startsWith]. rewrite (N.eqb_sym BACKSLASH c), N. reflexivity.
Qed.

Ltac split_noBackslash N :=
  cbn [noBackslash forallb] in N; fold noBackslash in N;
  repeat (let N1 := fresh "N" in
          apply andb_true_iff in N; destruct N as [N1 N];
          try apply negb_true_iff in N1).

Lemma unescape_pass2 s :
  noBackslash s = true ->
  replace_g [BACKSLASH; LETTER_r; BACKSLASH; LETTER_n] [CR; LF]
    (render [DQUOTE] [BACKSLASH; LETTER_r; BACKSLASH; LETTER_n]
      [BACKSLASH; LETTER_n] [BACKSLASH; LETTER_r] [BACKSLASH; LETTER_t] s)
  = render [DQUOTE] [CR; LF]
      [BACKSLASH; LETTER_n] [BACKSLASH; LETTER_r] [BACKSLASH; LETTER_t] s.
Proof.
  induction s as [| r IH | r E IH | c r E IH] using render_ind; intros N.
  - reflexivity.
  - split_noBackslash N. rewrite !render_crlf, <- IH by assumption. reflexivity.
  - split_noBackslash N. rewrite !render_cr, <- IH by assumption.
    cbn [app]. rewrite replace_cons_no.
    + rewrite replace_cons_no; reflexivity.
    + rewrite !startsWith_cons, head_escape_n_render by assumption.
      reflexivity.
  - split_noBackslash N. rewrite !render_other, <- IH by assumption.
    other_case c A B C.
    cbn [app]. apply replace_cons_no. cbn [startsWith].
    rewrite (N.eqb_sym BACKSLASH c), N0. reflexivity.
Qed.

Lemma unescape_pass3 s :
  noBackslash s = true ->
  replace_g [BACKSLASH; LETTER_n] [LF]
    (render [DQUOTE] [CR; LF]
      [BACKSLASH; LETTER_n] [BACKSLASH; LETTER_r] [BACKSLASH; LETTER_t] s)
  = render [DQUOTE] [CR; LF] [LF] [BACKSLASH; LETTER_r] [BACKSLASH; LETTER_t] s.
Proof.
  induction s as [| r IH | r E IH | c r E IH] using render_ind; intros N.
  - reflexivity.
  - split_noBackslash N. rewrite !render_crlf, <- IH by assumption. reflexivity.
  - split_noBackslash N. rewrite !render_cr, <- IH by assumption. reflexivity.
  - split_noBackslash N. rewrite !render_other, <- IH by assumption.
    other_case c A B C.
    cbn [app]. apply replace_cons_no. cbn [startsWith].
    rewrite (N.eqb_sym BACKSLASH c), N0. reflexivity.
Qed.

Lemma unescape_pass4 s :
  noBackslash s = true ->
  replace_g [BACKSLASH; LETTER_r] [CR]
    (render [DQUOTE] [CR; LF] [LF] [BACKSLASH; LETTER_r] [BACKSLASH; LETTER_t] s)
  = render [DQUOTE] [CR; LF] [LF] [CR] [BACKSLASH; LETTER_t] s.
Proof.
  induction s as [| r IH | r E IH | c r E IH] using render_ind; intros N.
  - reflexivity.
  - split_noBackslash N. rewrite !render_crlf, <- IH by assumption. reflexivity.
  - split_noBackslash N. rewrite !render_cr, <- IH by assumption. reflexivity.
  - split_noBackslash N. rewrite !render_other, <- IH by assumption.
    other_case c A B C.
    cbn [app]. apply replace_cons_no. cbn [startsWith].
    rewrite (N.eqb_sym BACKSLASH c), N0. reflexivity.
Qed.

Lemma unescape_pass5 s :
  noBackslash s = true ->
  replace_g [BACKSLASH; LETTER_t] [TAB_CHAR]
    (render [DQUOTE] [CR; LF] [LF] [CR] [BACKSLASH; LETTER_t] s)
  = render [DQUOTE] [CR; LF] [LF] [CR] [TAB_CHAR] s.
Proof.
  induction s as [| r IH | r E IH | c r E IH] using render_ind; intros N.
  - reflexivity.
  - split_noBackslash N. rewrite !render_crlf, <- IH by assumption. reflexivity.
  - split_noBackslash N. rewrite !render_cr, <- IH by assumption. reflexivity.
  - split_noBackslash N. rewrite !render_other, <- IH by assumption.
    other_case c A B C.
    cbn [app]. apply replace_cons_no. cbn [startsWith].
    rewrite (N.eqb_sym BACKSLASH c), N0. reflexivity.
Qed.

Lemma unescape_escape s :
  noBackslash s = true ->
  Utilities.unescapeString (Utilities.escapeString (Some s)) = s.
Proof.
  intros N. rewrite escapeString_render. unfold Utilities.unescapeString.
  rewrite unescape_pass1, unescape_pass2, unescape_pass3, unescape_pass4,
    unescape_pass5 by assumption.
  apply render_id.
Qed.

Lemma escaped_one_line s :
  noSeparator s = true ->
  forallb (fun c => negb (Utilities.isLineTerminator c))
    (render [DQUOTE; DQUOTE] [BACKSLASH; LETTER_r; BACKSLASH; LETTER_n]
       [BACKSLASH; LETTER_n] [BACKSLASH; LETTER_r] [BACKSLASH; LETTER_t] s)
  = true.
Proof.
  induction s as [| r IH | r E IH | c r E IH] using render_ind; intros N.
  - reflexivity.
  - rewrite render_crlf. apply IH. exact N.
  - rewrite render_cr by assumption. apply IH. exact N.
  - cbn [noSeparator forallb] in N. apply andb_true_iff in N.
    destruct N as [N1 N]. rewrite render_other by assumption.
    rewrite forallb_app, (IH N), andb_true_r.
    other_case c A B C.
    cbn [forallb]. rewrite andb_true_r. unfold Utilities.isLineTerminator.
    rewrite B, E. exact N1.
Qed.

Lemma forallb_rev {A : Type} (f : A -> bool) (l : list A) :
  forallb f (rev l) = forallb f l.
Proof.
  induction l as [|x l IH]; [reflexivity|].
  cbn [rev forallb]. rewrite forallb_app, IH. cbn [forallb].
  rewrite andb_true_r. apply andb_comm.
Qed.

Lemma removeDoubleQuotes_quoted (x : jsstring) :
  forallb (fun c => negb (Utilities.isLineTerminator c)) x = true ->
  Utilities.removeDoubleQuotes (DQUOTE :: x ++ [DQUOTE]) = x.
Proof.
  intros F. unfold Utilities.removeDoubleQuotes.
  rewrite rev_unit, forallb_rev, F, rev_involutive. reflexivity.
Qed.

Lemma text_round_trip s :
  noBackslash s = true -> noSeparator s = true ->
  decodeText (encodeText s) = s.
Proof.
  intros B S. unfold decodeText, encodeText.
  rewrite removeDoubleQuotes_quoted.
  - apply unescape_escape. exact B.
  - rewrite escapeString_render. apply escaped_one_line. exact S.
Qed.

(** ** The replay, one line at a time *)

Section ReplayLemmas.

Context `{Host}.
Variable recording : Recording.
Variable exportFormats : list jsstring.

Lemma processCSVLine_decode (line : jsstring) (previousChange : option Change) :
  Recorder.processCSVLine line previousChange =
  match Recorder.decode line with
  | Throw => Throw
  | Normal None => Normal None
  | Normal (Some row) =>
      if match previousChange with
         | Some p => Recorder.sameAsPrevious row p
         | None => false
         end
      then Normal None
      else Normal (Some (Recorder.newChange row previousChange))
  end.
Proof.
  unfold Recorder.processCSVLine, Recorder.decode.
  destruct (Number_isNaN (parseInt (nth_error (splitCsvLine line) 0)));
    [reflexivity|].
  destruct (nth_error (splitCsvLine line) 2) as [field2|]; [|reflexivity].
  destruct (nth_error (splitCsvLine line) 5) as [field5|]; [|reflexivity].
  destruct previousChange as [p|]; reflexivity.
Qed.

Lemma addToSRTFile_last (changes : list Change) (c : Change)
  (fileQueue : list File) :
  exists q,
    Recorder.addToSRTFile recording (changes ++ [c])
      (length (changes ++ [c])) true fileQueue = Normal q.
Proof.
  unfold Recorder.addToSRTFile. simpl negb. cbv iota.
  rewrite length_app. simpl length.
  replace (Nat.eqb (length changes + 1) 0) with false
    by (symmetry; apply Nat.eqb_neq; lia).
  rewrite nth_error_app2 by lia.
  replace (length changes + 1 - 1 - length changes)%nat with 0%nat by lia.
  simpl. eexists. reflexivity.
Qed.

Lemma processLine_skipped (st : Recorder.ReplayState) (line : jsstring) :
  Recorder.decode line = Normal None ->
  Recorder.processLine recording exportFormats st line = Normal st.
Proof.
  intros D. unfold Recorder.processLine.
  rewrite processCSVLine_decode, D. reflexivity.
Qed.

Lemma processLine_throws (st : Recorder.ReplayState) (line : jsstring) :
  Recorder.decode line = Throw ->
  Recorder.processLine recording exportFormats st line = Throw.
Proof.
  intros D. unfold Recorder.processLine.
  rewrite processCSVLine_decode, D. reflexivity.
Qed.

Lemma processLine_first (st : Recorder.ReplayState) (line : jsstring)
  (row : Recorder.Row) :
  lastElement (Recorder.processedChanges st) = None ->
  Recorder.decode line = Normal (Some row) ->
  Recorder.processLine recording exportFormats st line =
  Normal (Recorder.mkReplayState
            (Recorder.processedChanges st ++ [Recorder.newChange row None])
            (Recorder.fileQueue st)).
Proof.
  intros L D. unfold Recorder.processLine.
  rewrite processCSVLine_decode, D, L. reflexivity.
Qed.

Lemma processLine_dropped (st : Recorder.ReplayState) (line : jsstring)
  (row : Recorder.Row) (p : Change) :
  lastElement (Recorder.processedChanges st) = Some p ->
  Recorder.decode line = Normal (Some row) ->
  Recorder.sameAsPrevious row p = true ->
  Recorder.processLine recording exportFormats st line = Normal st.
Proof.
  intros L D E. unfold Recorder.processLine.
  rewrite processCSVLine_decode, D, L, E. reflexivity.
Qed.

Lemma processLine_kept (st : Recorder.ReplayState) (line : jsstring)
  (row : Recorder.Row) (p : Change) :
  lastElement (Recorder.processedChanges st) = Some p ->
  Recorder.decode line = Normal (Some row) ->
  Recorder.sameAsPrevious row p = false ->
  exists q,
    Recorder.processLine recording exportFormats st line =
    Normal (Recorder.mkReplayState
              (removelast (Recorder.processedChanges st) ++
               [setEndTime p (Recorder.row_time row)] ++
               [Recorder.newChange row (Some p)])
              q).
Proof.
  intros L D E. unfold Recorder.processLine.
  rewrite processCSVLine_decode, D, L, E.
  unfold Recorder.closePrevious. rewrite L.
  cbn [startTime Recorder.newChange].
  destruct (includes exportFormats (str "SRT")).
  - destruct (addToSRTFile_last (removelast (Recorder.processedChanges st))
                (setEndTime p (Recorder.row_time row))
                (Recorder.fileQueue st)) as [q Q].
    rewrite Q. exists q. rewrite <- app_assoc. reflexivity.
  - eexists. rewrite <- app_assoc. reflexivity.
Qed.

(** In every case the text of the last change, once a decoded row has
    been processed, is the text that the row reconstructs. *)
Lemma processLine_text (st : Recorder.ReplayState) (line : jsstring)
  (row : Recorder.Row) :
  Recorder.decode line = Normal (Some row) ->
  exists st' c,
    Recorder.processLine recording exportFormats st line = Normal st' /\
    lastElement (Recorder.processedChanges st') = Some c /\
    text c =
      Recorder.rowText row (lastElement (Recorder.processedChanges st)).
Proof.
  intros D.
  destruct (lastElement (Recorder.processedChanges st)) as [p|] eqn:L.
  - destruct (Recorder.sameAsPrevious row p) eqn:E.
    + exists st, p. split; [eapply processLine_dropped; eassumption|].
      split; [assumption|].
      unfold Recorder.sameAsPrevious in E.
      rewrite !andb_true_iff in E. destruct E as [[[_ _] T] _].
      apply jsstring_eqb_eq in T. symmetry. exact T.
    + destruct (processLine_kept st line row p L D E) as [q Q].
      eexists _, _. split; [exact Q|]. split.
      * cbn [Recorder.processedChanges]. rewrite app_assoc.
        apply lastElement_snoc.
      * reflexivity.
  - eexists _, _. split; [eapply processLine_first; eassumption|]. split.
    + cbn [Recorder.processedChanges]. apply lastElement_snoc.
    + reflexivity.
Qed.

End ReplayLemmas.

(** ** C2 and C5: what a CONTENT row reconstructs *)

Lemma getUpdatedText_clamped (previousText newText : jsstring) (o l : Z) :
  0 <= o -> 0 <= l ->
  Recorder.getUpdatedText previousText (Int o) (Int l) newText =
  firstn (Z.to_nat (Z.min o (Z.of_nat (length previousText)))) previousText ++
  newText ++
  skipn (Z.to_nat (Z.min (o + l) (Z.of_nat (length previousText))))
    previousText.
Proof.
  intros Ho Hl.
  unfold Recorder.getUpdatedText, splice_join, spliceStart, spliceDeleteCount.
  replace (o <? 0) with false by (symmetry; apply Z.ltb_ge; lia).
  do 3 f_equal. lia.
Qed.

Lemma rowText_content `{Host} (row : Recorder.Row) (p : Change) (o l : Z) :
  Recorder.row_type row <> Some ChangeType_TAB ->
  Recorder.row_rangeOffset row = Int o ->
  Recorder.row_rangeLength row = Int l ->
  0 <= o -> 0 <= l ->
  Recorder.rowText row (Some p) =
  firstn (Z.to_nat (Z.min o (Z.of_nat (length (text p))))) (text p) ++
  Recorder.row_text row ++
  skipn (Z.to_nat (Z.min (o + l) (Z.of_nat (length (text p))))) (text p).
Proof.
  intros T O L Ho Hl. unfold Recorder.rowText, Recorder.getNewTextContent.
  destruct (opt_jsstring_eqb (Recorder.row_type row) (Some ChangeType_TAB))
    eqn:E.
  - apply opt_jsstring_eqb_eq in E. contradiction.
  - rewrite O, L. apply getUpdatedText_clamped; assumption.
Qed.

(** C2.  Let the last reconstructed change have the text [p], and let a
    line decode to a CONTENT row with offset [o], length [l] and text [t],
    where [o + l] does not exceed the length of [p].  Processing the line
    succeeds and leaves a last change whose text is [p] with the
    characters from [o] to [o + l] replaced by [t].  And the log of a TAB
    row hello followed by the CONTENT row (5, 0, world with a leading
    space) is replayed into two changes, the second with the text
    hello world. *)
Theorem content_row_replaces_range :
  (forall (H : Host) (recording : Recording) (exportFormats : list jsstring)
          (st : Recorder.ReplayState) (line : jsstring) (row : Recorder.Row)
          (previous : Change) (o l : Z),
      lastElement (Recorder.processedChanges st) = Some previous ->
      Recorder.decode line = Normal (Some row) ->
      Recorder.row_type row <> Some ChangeType_TAB ->
      Recorder.row_rangeOffset row = Int o ->
      Recorder.row_rangeLength row = Int l ->
      0 <= o -> 0 <= l -> o + l <= Z.of_nat (length (text previous)) ->
      exists st' c,
        Recorder.processLine recording exportFormats st line = Normal st' /\
        lastElement (Recorder.processedChanges st') = Some c /\
        text c =
          firstn (Z.to_nat o) (text previous) ++ Recorder.row_text row ++
          skipn (Z.to_nat (o + l)) (text previous)) /\
  (exists c1 c2,
      Recorder.result
        (@Recorder.processCsvFile exampleHost
           (exampleEnvironment helloWorldLog) exampleRecording [])
        = Recorder.Replayed [c1; c2] /\
      text c1 = str "hello" /\ text c2 = str "hello world").
Proof.
  split.
  - intros H recording exportFormats st line row previous o l L D T O Len
      Ho Hl Hin.
    destruct (processLine_text recording exportFormats st line row D)
      as (st' & c & P & L' & Tx).
    exists st', c. split; [exact P|]. split; [exact L'|].
    rewrite Tx, L.
    rewrite (rowText_content row previous o l T O Len Ho Hl).
    rewrite !Z.min_l by lia. reflexivity.
  - eexists _, _. split; [vm_compute; reflexivity|].
    split; reflexivity.
Qed.

Lemma content_row_replaces_range_witness :
  exists st' c,
    @Recorder.processLine exampleHost exampleRecording [str "SRT"]
      (Recorder.mkReplayState
         [mkChange 1 (str "a.ts") (Int 0) (Int 0) (Some (str "ts"))
            (str "hello")] [])
      (csvLine 2 10 (str "a.ts") 1 3 (str "ipp") (str "ts") (str "content"))
      = Normal st' /\
    lastElement (Recorder.processedChanges st') = Some c /\
    text c = str "h" ++ str "ipp" ++ str "o".
Proof.
  refine (proj1 content_row_replaces_range exampleHost exampleRecording
            [str "SRT"] _ _
            (Recorder.mkRow (Int 10) (str "a.ts") (Int 1) (Int 3) (str "ipp")
               (Some (str "ts")) (Some (str "content")))
            (mkChange 1 (str "a.ts") (Int 0) (Int 0) (Some (str "ts"))
               (str "hello"))
            1 3 _ _ _ _ _ _ _ _);
    try reflexivity; try (vm_compute; discriminate).
Defined.

(** C5, as the code has it.  Let the last reconstructed change have the
    text [p], and let a line decode to a CONTENT row whose offset [o] and
    length [l] are not negative and whose range, from [o] to [o + l],
    goes beyond the end of [p].  Processing the line does not throw: it
    leaves a last change whose text is [p] with the range cut down to [p]
    (both ends brought back to the length of [p]) replaced by the text of
    the row, and the loop goes on with the lines that follow from that
    state. *)
Theorem content_row_out_of_range_clamped (H : Host) (recording : Recording)
  (exportFormats : list jsstring) (st : Recorder.ReplayState)
  (line : jsstring) (rest : list jsstring) (row : Recorder.Row)
  (previous : Change) (o l : Z) :
  lastElement (Recorder.processedChanges st) = Some previous ->
  Recorder.decode line = Normal (Some row) ->
  Recorder.row_type row <> Some ChangeType_TAB ->
  Recorder.row_rangeOffset row = Int o ->
  Recorder.row_rangeLength row = Int l ->
  0 <= o -> 0 <= l -> Z.of_nat (length (text previous)) < o + l ->
  exists st' c,
    Recorder.processLine recording exportFormats st line = Normal st' /\
    lastElement (Recorder.processedChanges st') = Some c /\
    text c =
      firstn (Z.to_nat (Z.min o (Z.of_nat (length (text previous)))))
        (text previous) ++
      Recorder.row_text row ++
      skipn (length (text previous)) (text previous) /\
    Recorder.processLines recording exportFormats st (line :: rest) =
    Recorder.processLines recording exportFormats st' rest.
Proof.
  intros L D T O Len Ho Hl Hout.
  destruct (processLine_text recording exportFormats st line row D)
    as (st' & c & P & L' & Tx).
  exists st', c. split; [exact P|]. split; [exact L'|]. split.
  - rewrite Tx, L.
    rewrite (rowText_content row previous o l T O Len Ho Hl).
    rewrite (Z.min_r (o + l)) by lia. rewrite Nat2Z.id. reflexivity.
  - cbn [Recorder.processLines]. rewrite P. reflexivity.
Qed.

Lemma content_row_out_of_range_clamped_witness :
  exists st' c,
    @Recorder.processLine exampleHost exampleRecording [str "SRT"]
      (Recorder.mkReplayState
         [mkChange 1 (str "a.ts") (Int 0) (Int 0) (Some (str "ts"))
            (str "hello")] [])
      (csvLine 2 10 (str "a.ts") 3 9 (str "p!") (str "ts") (str "content"))
      = Normal st' /\
    lastElement (Recorder.processedChanges st') = Some c /\
    text c = str "hel" ++ str "p!" ++ [] /\
    @Recorder.processLines exampleHost exampleRecording [str "SRT"]
      (Recorder.mkReplayState
         [mkChange 1 (str "a.ts") (Int 0) (Int 0) (Some (str "ts"))
            (str "hello")] [])
      [csvLine 2 10 (str "a.ts") 3 9 (str "p!") (str "ts") (str "content");
       csvLine 3 20 (str "a.ts") 0 0 (str "// ") (str "ts") (str "content")]
    = @Recorder.processLines exampleHost exampleRecording [str "SRT"] st'
        [csvLine 3 20 (str "a.ts") 0 0 (str "// ") (str "ts") (str "content")].
Proof.
  refine (content_row_out_of_range_clamped exampleHost exampleRecording
            [str "SRT"] _ _ _
            (Recorder.mkRow (Int 10) (str "a.ts") (Int 3) (Int 9) (str "p!")
               (Some (str "ts")) (Some (str "content")))
            (mkChange 1 (str "a.ts") (Int 0) (Int 0) (Some (str "ts"))
               (str "hello"))
            3 9 _ _ _ _ _ _ _ _);
    try reflexivity; try (vm_compute; discriminate).
Defined.

(** The text of C5 is the range cut down to the text, for an offset and a
    length that are not negative. *)
Lemma clampedSplice_beyond_the_end (p t : jsstring) (o l : Z) :
  0 <= o -> 0 <= l -> Z.of_nat (length p) < o + l ->
  clampedSplice p o l t =
  firstn (Z.to_nat (Z.min o (Z.of_nat (length p)))) p ++ t ++
  skipn (length p) p.
Proof.
  intros Ho Hl Hout. unfold clampedSplice, clamp.
  rewrite (Z.max_r 0 (Z.min o _)) by lia.
  rewrite (Z.min_r (o + l)) by lia.
  rewrite Z.max_r by lia. rewrite Nat2Z.id. reflexivity.
Qed.

(** C5 as it is stated fails on a row whose offset is negative: the
    range from -2 to -1 is outside the text hello, and the replay does
    not cut it down to the text, which would put X in front of hello; it
    counts the offset from the end of the text and replaces the l of
    hello. *)
Lemma negative_offset_counts_from_the_end :
  exists c1 c2,
    Recorder.result
      (@Recorder.processCsvFile exampleHost
         (exampleEnvironment negativeOffsetLog) exampleRecording [])
      = Recorder.Replayed [c1; c2] /\
    text c1 = str "hello" /\
    text c2 = str "helXo" /\
    clampedSplice (text c1) (-2) 1 (str "X") = str "Xhello" /\
    text c2 <> clampedSplice (text c1) (-2) 1 (str "X").
Proof.
  eexists _, _. split; [vm_compute; reflexivity|].
  repeat split; try reflexivity. vm_compute. discriminate.
Qed.

(** ** C3: a row that changes nothing is dropped *)

(** C3.  Let a line decode to a row whose time is an integer, and whose
    time, file, reconstructed text and language are those of the last
    change.  [processCSVLine] returns [null] for it and the loop leaves
    its state as it was: no change is added, none is closed, nothing is
    queued.  And the log of a TAB row abc at 0 ms followed by a CONTENT
    row that replaces nothing at 0 ms is replayed into exactly one
    change. *)
Theorem unchanged_row_dropped :
  (forall (H : Host) (recording : Recording) (exportFormats : list jsstring)
          (st : Recorder.ReplayState) (line : jsstring) (row : Recorder.Row)
          (previous : Change) (t : Z),
      lastElement (Recorder.processedChanges st) = Some previous ->
      Recorder.decode line = Normal (Some row) ->
      Recorder.row_time row = Int t ->
      startTime previous = Int t ->
      Recorder.row_file row = file previous ->
      Recorder.rowText row (Some previous) = text previous ->
      Recorder.row_language row = language previous ->
      Recorder.processCSVLine line (Some previous) = Normal None /\
      Recorder.processLine recording exportFormats st line = Normal st) /\
  (exists c,
      Recorder.result
        (@Recorder.processCsvFile exampleHost
           (exampleEnvironment sameStateLog) exampleRecording [])
        = Recorder.Replayed [c] /\
      text c = str "abc" /\ startTime c = Int 0).
Proof.
  split.
  - intros H recording exportFormats st line row previous t L D Ti Tp F Tx La.
    assert (E : Recorder.sameAsPrevious row previous = true).
    { unfold Recorder.sameAsPrevious.
      rewrite Ti, Tp, F, Tx, La. cbn [number_eqb].
      rewrite Z.eqb_refl, !jsstring_eqb_refl. cbn [andb].
      apply opt_jsstring_eqb_eq. reflexivity. }
    split.
    + rewrite processCSVLine_decode, D, E. reflexivity.
    + eapply processLine_dropped; eassumption.
  - eexists. split; [vm_compute; reflexivity|]. split; reflexivity.
Qed.

Lemma unchanged_row_dropped_witness :
  let previous :=
    mkChange 1 (str "a.ts") (Int 0) (Int 0) (Some (str "ts")) (str "abc") in
  let line := csvLine 2 0 (str "a.ts") 0 0 [] (str "ts") (str "content") in
  @Recorder.processCSVLine exampleHost line (Some previous) = Normal None /\
  @Recorder.processLine exampleHost exampleRecording [str "SRT"]
    (Recorder.mkReplayState [previous] []) line
  = Normal (Recorder.mkReplayState [previous] []).
Proof.
  refine (proj1 unchanged_row_dropped exampleHost exampleRecording
            [str "SRT"] (Recorder.mkReplayState _ []) _
            (Recorder.mkRow (Int 0) (str "a.ts") (Int 0) (Int 0) []
               (Some (str "ts")) (Some (str "content")))
            (mkChange 1 (str "a.ts") (Int 0) (Int 0) (Some (str "ts"))
               (str "abc"))
            0 _ _ _ _ _ _ _);
    reflexivity.
Defined.

(** ** C4 and C8: the intervals and the sequence numbers of a replay *)

Lemma nth_error_removelast {A : Type} (l : list A) (i : nat) :
  (S i < length l)%nat -> nth_error (removelast l) i = nth_error l i.
Proof.
  revert i. induction l as [|x l IH]; intros i Hi; [simpl in Hi; lia|].
  destruct l as [|y l]; [simpl in Hi; lia|].
  destruct i as [|i]; [reflexivity|].
  change (nth_error (removelast (y :: l)) i = nth_error (y :: l) i).
  apply IH. simpl in Hi |- *. lia.
Qed.

Lemma countFrom1_S (n : nat) :
  countFrom1 (S n) = countFrom1 n ++ [Z.of_nat n + 1].
Proof. unfold countFrom1. rewrite seq_S, map_app. reflexivity. Qed.

Lemma chained_nth (cs : list Change) :
  chained cs ->
  forall i c c',
    nth_error cs i = Some c -> nth_error cs (S i) = Some c' ->
    endTime c = startTime c'.
Proof.
  unfold chained. intros E i c c' Hc Hc'.
  assert (Hi : (S i < length cs)%nat).
  { apply nth_error_Some. rewrite Hc'. discriminate. }
  assert (A : nth_error (map endTime (removelast cs)) i = Some (endTime c)).
  { rewrite nth_error_map, nth_error_removelast, Hc by assumption.
    reflexivity. }
  assert (B : nth_error (map startTime (tl cs)) i = Some (startTime c')).
  { rewrite nth_error_map. destruct cs as [|x cs]; [discriminate|].
    simpl in Hc' |- *. rewrite Hc'. reflexivity. }
  rewrite E, B in A. injection A as A. symmetry. exact A.
Qed.

Lemma chained_push (r : list Change) (p c : Change) (t : number) :
  chained (r ++ [p]) -> startTime c = t ->
  chained (r ++ [setEndTime p t] ++ [c]).
Proof.
  unfold chained. intros E Hc.
  rewrite removelast_last in E.
  rewrite app_assoc, removelast_last, map_app. cbn [map setEndTime endTime].
  destruct r as [|x r].
  - simpl. rewrite Hc. reflexivity.
  - cbn [app tl] in E |- *. rewrite E. rewrite !map_app.
    cbn [map setEndTime startTime]. rewrite Hc. reflexivity.
Qed.

Lemma chained_close (r : list Change) (p : Change) (t : number) :
  chained (r ++ [p]) -> chained (r ++ [setEndTime p t]).
Proof.
  unfold chained. rewrite !removelast_last. intros E.
  destruct r as [|x r]; [reflexivity|].
  cbn [app tl] in E |- *. rewrite map_app in E |- *. exact E.
Qed.

Lemma numbered_last (r : list Change) (p : Change) :
  numbered (r ++ [p]) ->
  numbered r /\ sequence p = Z.of_nat (length r) + 1.
Proof.
  unfold numbered. rewrite map_app, length_app. cbn [map length].
  replace (length r + 1)%nat with (S (length r)) by lia.
  rewrite countFrom1_S. intros E. apply app_inj_tail in E. exact E.
Qed.

Lemma numbered_push (r : list Change) (p c : Change) (t : number) :
  numbered (r ++ [p]) -> sequence c = sequence p + 1 ->
  numbered (r ++ [setEndTime p t] ++ [c]).
Proof.
  intros N Hc. destruct (numbered_last r p N) as [Nr Np].
  unfold numbered in *. rewrite !map_app, !length_app. cbn [map length].
  replace (length r + (1 + 1))%nat with (S (S (length r))) by lia.
  rewrite !countFrom1_S, <- Nr. cbn [setEndTime sequence].
  rewrite <- app_assoc. cbn [app]. rewrite Hc, Np.
  do 3 f_equal. lia.
Qed.

Lemma numbered_close (r : list Change) (p : Change) (t : number) :
  numbered (r ++ [p]) -> numbered (r ++ [setEndTime p t]).
Proof.
  unfold numbered. rewrite !map_app, !length_app. intros E. exact E.
Qed.

Lemma ordered_weaken (from from' : Z) (cs : list Change) :
  from <= from' -> ordered from cs -> ordered from' cs.
Proof.
  intros Hle [A B]. split; [exact A|].
  intros p Hp. destruct (B p Hp) as (t & Ht & Hb). exists t. split; [exact Ht|lia].
Qed.

Lemma ordered_push (from t : Z) (r : list Change) (p c : Change) :
  ordered from (r ++ [p]) -> from <= t -> startTime c = Int t ->
  ordered t (r ++ [setEndTime p (Int t)] ++ [c]).
Proof.
  intros [A B] Hle Hc. rewrite removelast_last in A.
  destruct (B p (lastElement_snoc r p)) as (tp & Htp & Hb).
  split.
  - rewrite app_assoc, removelast_last. apply Forall_app. split; [exact A|].
    constructor; [|constructor]. cbn [setEndTime startTime endTime].
    rewrite Htp. apply Z.leb_le. lia.
  - intros q Hq. rewrite app_assoc, lastElement_snoc in Hq.
    injection Hq as <-. exists t. split; [exact Hc|lia].
Qed.

Lemma ordered_close (from d : Z) (r : list Change) (p : Change) :
  ordered from (r ++ [p]) -> from <= d ->
  Forall (fun c => number_leb (startTime c) (endTime c) = true)
    (r ++ [setEndTime p (Int d)]).
Proof.
  intros [A B] Hle. rewrite removelast_last in A.
  destruct (B p (lastElement_snoc r p)) as (tp & Htp & Hb).
  apply Forall_app. split; [exact A|].
  constructor; [|constructor]. cbn [setEndTime startTime endTime].
  rewrite Htp. apply Z.leb_le. lia.
Qed.

Section ReplayInvariants.

Context `{Host}.
Variable recording : Recording.
Variable exportFormats : list jsstring.

(** One turn of the loop keeps the chaining and the numbering. *)
Lemma processLine_invariant (st st' : Recorder.ReplayState) (line : jsstring) :
  Recorder.processLine recording exportFormats st line = Normal st' ->
  chained (Recorder.processedChanges st) ->
  numbered (Recorder.processedChanges st) ->
  chained (Recorder.processedChanges st') /\
  numbered (Recorder.processedChanges st').
Proof.
  intros P C N.
  destruct (Recorder.decode line) as [[row|]|] eqn:D.
  - destruct (lastElement (Recorder.processedChanges st)) as [p|] eqn:L.
    + destruct (Recorder.sameAsPrevious row p) eqn:E.
      * rewrite (processLine_dropped _ _ st line row p L D E) in P.
        injection P as <-. split; assumption.
      * destruct (processLine_kept recording exportFormats st line row p L D E)
          as [q Q].
        rewrite Q in P. injection P as <-. cbn [Recorder.processedChanges].
        apply lastElement_some in L. rewrite L in C, N. split.
        -- apply chained_push; [exact C|reflexivity].
        -- apply numbered_push; [exact N|reflexivity].
    + rewrite (processLine_first _ _ st line row L D) in P.
      injection P as <-. cbn [Recorder.processedChanges].
      apply lastElement_nil in L. rewrite L. split; reflexivity.
  - rewrite (processLine_skipped _ _ st line D) in P.
    injection P as <-. split; assumption.
  - rewrite (processLine_throws _ _ st line D) in P. discriminate.
Qed.

Lemma processLines_invariant (lines : list jsstring) :
  forall st st' threw,
    Recorder.processLines recording exportFormats st lines = (st', threw) ->
    chained (Recorder.processedChanges st) ->
    numbered (Recorder.processedChanges st) ->
    chained (Recorder.processedChanges st') /\
    numbered (Recorder.processedChanges st').
Proof.
  induction lines as [|line lines IH]; intros st st' threw P C N.
  - injection P as <- _. split; assumption.
  - cbn [Recorder.processLines] in P.
    destruct (Recorder.processLine recording exportFormats st line)
      as [st1|] eqn:P1.
    + destruct (processLine_invariant st st1 line P1 C N) as [C1 N1].
      exact (IH st1 st' threw P C1 N1).
    + injection P as <- _. split; assumption.
Qed.

(** One turn of the loop on a log whose times are ordered. *)
Lemma processLines_ordered (upto : Z) (lines : list jsstring) :
  forall from st st' threw,
    Recorder.processLines recording exportFormats st lines = (st', threw) ->
    timesOrdered from upto lines = true ->
    ordered from (Recorder.processedChanges st) ->
    exists from',
      from' <= upto /\ ordered from' (Recorder.processedChanges st').
Proof.
  induction lines as [|line lines IH]; intros from st st' threw P T O.
  - injection P as <- _. exists from. split; [|exact O].
    apply Z.leb_le. exact T.
  - cbn [Recorder.processLines] in P. cbn [timesOrdered] in T.
    destruct (Recorder.decode line) as [[row|]|] eqn:D.
    + destruct (Recorder.row_time row) as [|t] eqn:Rt; [discriminate|].
      apply andb_true_iff in T. destruct T as [Hle T].
      apply Z.leb_le in Hle.
      destruct (lastElement (Recorder.processedChanges st)) as [p|] eqn:L.
      * destruct (Recorder.sameAsPrevious row p) eqn:E.
        -- rewrite (processLine_dropped _ _ st line row p L D E) in P.
           apply (IH t st st' threw P T).
           apply (ordered_weaken from t); assumption.
        -- destruct (processLine_kept recording exportFormats st line row p
                       L D E) as [q Q].
           rewrite Q in P. apply (IH t _ st' threw P T).
           cbn [Recorder.processedChanges].
           apply lastElement_some in L. rewrite L in O. rewrite Rt.
           apply (ordered_push from t); [exact O|exact Hle|exact Rt].
      * rewrite (processLine_first _ _ st line row L D) in P.
        apply (IH t _ st' threw P T). cbn [Recorder.processedChanges].
        apply lastElement_nil in L. rewrite L. split.
        -- constructor.
        -- intros q Hq. injection Hq as <-. exists t. split; [exact Rt|lia].
    + rewrite (processLine_skipped _ _ st line D) in P.
      exact (IH from st st' threw P T O).
    + rewrite (processLine_throws _ _ st line D) in P.
      injection P as <- _.
      assert (G : forall ls f, timesOrdered f upto ls = true -> f <= upto).
      { clear. induction ls as [|l ls IHl]; intros f Hf.
        - apply Z.leb_le. exact Hf.
        - cbn [timesOrdered] in Hf.
          destruct (Recorder.decode l) as [[row|]|]; try (apply IHl; exact Hf).
          destruct (Recorder.row_time row) as [|t]; [discriminate|].
          apply andb_true_iff in Hf. destruct Hf as [Hle Hf].
          apply Z.leb_le in Hle. specialize (IHl t Hf). lia. }
      exists from. split; [exact (G lines from T)|exact O].
Qed.

(** The closing of the last change by [finalizeRecording]. *)
Lemma finalizeRecording_changes (st st' : Recorder.ReplayState) :
  Recorder.finalizeRecording recording exportFormats st = Normal st' ->
  Recorder.processedChanges st' =
  match endDateTime recording, startDateTime recording with
  | Some e, Some s =>
      Recorder.closePrevious (Recorder.processedChanges st) (Int (e - s))
  | _, _ => Recorder.processedChanges st
  end.
Proof.
  unfold Recorder.finalizeRecording. intros F.
  assert (K : forall x : completion Recorder.ReplayState,
             match x with
             | Throw => Throw
             | Normal st1 =>
                 if includes exportFormats (str "JSON")
                 then Normal
                        (Recorder.mkReplayState (Recorder.processedChanges st1)
                           (Recorder.addToFileQueue recording
                              (Some (JSON_stringify_changes
                                       (Recorder.processedChanges st1)))
                              (str "json") true (Recorder.fileQueue st1)))
                 else Normal st1
             end = Normal st' ->
             exists st1, x = Normal st1 /\
               Recorder.processedChanges st' = Recorder.processedChanges st1).
  { intros [st1|] E; [|discriminate]. exists st1. split; [reflexivity|].
    destruct (includes exportFormats (str "JSON")); injection E as <-;
      reflexivity. }
  apply K in F. destruct F as (st1 & F & ->). clear K.
  unfold Recorder.closePrevious.
  destruct (lastElement (Recorder.processedChanges st)) as [p|] eqn:L.
  - destruct (endDateTime recording) as [e|];
      [|injection F as <-; reflexivity].
    destruct (startDateTime recording) as [s|];
      [|injection F as <-; reflexivity].
    unfold Recorder.closePrevious in F. rewrite L in F.
    destruct (includes exportFormats (str "SRT")).
    + destruct (Recorder.addToSRTFile recording _ _ true _) in F;
        [injection F as <-; reflexivity|discriminate].
    + injection F as <-. reflexivity.
  - injection F as <-.
    destruct (endDateTime recording), (startDateTime recording); reflexivity.
Qed.

End ReplayInvariants.

(** What a run that ends with the array of changes went through. *)
Lemma processCsvFile_replayed `{Host} (env : Recorder.Environment)
  (recording : Recording) (fileQueue : list File) (cs : list Change) :
  Recorder.result (Recorder.processCsvFile env recording fileQueue)
    = Recorder.Replayed cs ->
  exists s e path lines st,
    startDateTime recording = Some s /\
    endDateTime recording = Some e /\
    Recorder.readLines env path = Some lines /\
    Recorder.processLines recording (Recorder.exportFormats env)
      (Recorder.mkReplayState [] fileQueue) lines = (st, false) /\
    cs = Recorder.closePrevious (Recorder.processedChanges st) (Int (e - s)).
Proof.
  unfold Recorder.processCsvFile, Recorder.validateRecordingState.
  destruct (Recorder.workspaceFolders env) eqn:W; cbn [negb];
    [|cbn; discriminate].
  destruct (endDateTime recording) as [e|] eqn:E; [|cbn; discriminate].
  destruct (startDateTime recording) as [s|] eqn:S; [|cbn; discriminate].
  cbn [negb].
  destruct (Nat.eqb (length (Recorder.exportFormats env)) 0);
    [cbn; discriminate|].
  destruct (Recorder.exportPath env) as [exportPath|]; [|cbn; discriminate].
  destruct (generateFileName s false) as [[|c n]|]; try (cbn; discriminate).
  destruct (Recorder.readLines env _) as [lines|] eqn:R;
    [|cbn; discriminate].
  destruct (Recorder.processLines recording (Recorder.exportFormats env)
              (Recorder.mkReplayState [] fileQueue) lines) as [st [|]] eqn:P;
    [cbn; discriminate|].
  destruct (Recorder.finalizeRecording recording (Recorder.exportFormats env)
              st) as [st'|] eqn:F; [|cbn; discriminate].
  cbn [Recorder.result]. intros Q. injection Q as <-.
  eexists s, e, _, lines, st. split; [reflexivity|]. split; [reflexivity|].
  split; [exact R|]. split; [exact P|].
  rewrite (finalizeRecording_changes _ _ st st' F), E, S. reflexivity.
Qed.

(** The loop does not throw on a log whose lines all decode, and
    [finalizeRecording] never throws: the run then ends with the array
    of changes. *)
Lemma processLines_no_throw `{Host} (recording : Recording)
  (exportFormats : list jsstring) (lines : list jsstring) :
  Forall (fun line => Recorder.decode line <> Throw) lines ->
  forall st,
    snd (Recorder.processLines recording exportFormats st lines) = false.
Proof.
  induction 1 as [|line lines D _ IH]; intros st; [reflexivity|].
  cbn [Recorder.processLines].
  destruct (Recorder.decode line) as [[row|]|] eqn:E; [| |contradiction].
  - destruct (processLine_text recording exportFormats st line row E)
      as (st' & c & P & _). rewrite P. apply IH.
  - rewrite (processLine_skipped recording exportFormats st line E). apply IH.
Qed.

Lemma finalizeRecording_normal `{Host} (recording : Recording)
  (exportFormats : list jsstring) (st : Recorder.ReplayState) :
  exists st',
    Recorder.finalizeRecording recording exportFormats st = Normal st'.
Proof.
  unfold Recorder.finalizeRecording.
  assert (K : forall st1 : Recorder.ReplayState,
             exists st',
               (if includes exportFormats (str "JSON")
                then Normal
                       (Recorder.mkReplayState (Recorder.processedChanges st1)
                          (Recorder.addToFileQueue recording
                             (Some (JSON_stringify_changes
                                      (Recorder.processedChanges st1)))
                             (str "json") true (Recorder.fileQueue st1)))
                else Normal st1) = Normal st').
  { intros st1. destruct (includes exportFormats (str "JSON"));
      eexists; reflexivity. }
  destruct (lastElement (Recorder.processedChanges st)) as [p|] eqn:L;
    [|apply K].
  destruct (endDateTime recording) as [e|]; [|apply K].
  destruct (startDateTime recording) as [s|]; [|apply K].
  destruct (includes exportFormats (str "SRT")); [|apply K].
  unfold Recorder.closePrevious. rewrite L.
  destruct (addToSRTFile_last recording
              (removelast (Recorder.processedChanges st))
              (setEndTime p (Int (e - s))) (Recorder.fileQueue st)) as [q Q].
  rewrite Q. apply K.
Qed.

Lemma processCsvFile_replays `{Host} (env : Recorder.Environment)
  (recording : Recording) (fileQueue : list File) (s e : Z)
  (exportPath : jsstring) (c : char) (n : jsstring) (lines : list jsstring) :
  Recorder.workspaceFolders env = true ->
  startDateTime recording = Some s ->
  endDateTime recording = Some e ->
  Recorder.exportFormats env <> [] ->
  Recorder.exportPath env = Some exportPath ->
  generateFileName s false = Some (c :: n) ->
  Recorder.readLines env (path_join exportPath ((c :: n) ++ str ".csv"))
    = Some lines ->
  Forall (fun line => Recorder.decode line <> Throw) lines ->
  exists cs,
    Recorder.result (Recorder.processCsvFile env recording fileQueue)
      = Recorder.Replayed cs.
Proof.
  intros W S E F P G R D.
  unfold Recorder.processCsvFile, Recorder.validateRecordingState.
  rewrite W, E, S. cbn [negb].
  destruct (Recorder.exportFormats env) as [|f fs] eqn:Fs; [contradiction|].
  cbn [length Nat.eqb]. rewrite P, G, R.
  pose proof (processLines_no_throw recording (f :: fs) lines D
                (Recorder.mkReplayState [] fileQueue)) as T.
  destruct (Recorder.processLines recording (f :: fs)
              (Recorder.mkReplayState [] fileQueue) lines) as [st threw].
  cbn [snd] in T. subst threw.
  destruct (finalizeRecording_normal recording (f :: fs) st) as [st' Fi].
  rewrite Fi. eexists. reflexivity.
Qed.

Lemma closePrevious_cases (cs : list Change) (t : number) :
  (cs = [] /\ Recorder.closePrevious cs t = []) \/
  (exists r p, cs = r ++ [p] /\
     Recorder.closePrevious cs t = r ++ [setEndTime p t]).
Proof.
  unfold Recorder.closePrevious.
  destruct (lastElement cs) as [p|] eqn:L.
  - right. exists (removelast cs), p. split; [|reflexivity].
    apply lastElement_some. exact L.
  - left. apply lastElement_nil in L. subst cs. split; reflexivity.
Qed.

(** C4.  When a run of [processCsvFile] ends with the array of changes,
    the end time of every change that has a successor is the start time
    of that successor, and the end time of the last change is the end
    of the session minus its start.  The log of three distinct changes
    replayed for a session of 5000 ms gives three changes, the first two
    ending where the next one starts and the third ending at 5000. *)
Theorem interval_closure :
  (forall (H : Host) (env : Recorder.Environment) (recording : Recording)
          (fileQueue : list File) (cs : list Change),
      Recorder.result (Recorder.processCsvFile env recording fileQueue)
        = Recorder.Replayed cs ->
      (forall i c c',
          nth_error cs i = Some c -> nth_error cs (S i) = Some c' ->
          endTime c = startTime c') /\
      (forall c,
          lastElement cs = Some c ->
          exists s e,
            startDateTime recording = Some s /\
            endDateTime recording = Some e /\
            endTime c = Int (e - s))) /\
  (exists c1 c2 c3,
      Recorder.result
        (@Recorder.processCsvFile exampleHost
           (exampleEnvironment threeChangesLog) exampleRecording [])
        = Recorder.Replayed [c1; c2; c3] /\
      endTime c1 = startTime c2 /\ endTime c2 = startTime c3 /\
      endTime c3 = Int 5000).
Proof.
  split.
  - intros H env recording fileQueue cs R.
    destruct (processCsvFile_replayed env recording fileQueue cs R)
      as (s & e & path & lines & st & S & E & _ & P & ->).
    destruct (processLines_invariant recording (Recorder.exportFormats env)
                lines _ st false P) as [C _]; [reflexivity|reflexivity|].
    destruct (closePrevious_cases (Recorder.processedChanges st) (Int (e - s)))
      as [[_ ->]|(r & p & Er & ->)].
    + split; [intros [|i] c c' Hc; discriminate|].
      intros c Hc. discriminate.
    + split.
      * apply chained_nth. apply chained_close with (p := p).
        rewrite <- Er. exact C.
      * intros c Hc. rewrite lastElement_snoc in Hc. injection Hc as <-.
        exists s, e. repeat split; assumption.
  - eexists _, _, _. split; [vm_compute; reflexivity|].
    repeat split; reflexivity.
Qed.

Lemma interval_closure_witness :
  (forall i c c',
      nth_error threeChanges i = Some c ->
      nth_error threeChanges (S i) = Some c' ->
      endTime c = startTime c') /\
  (forall c,
      lastElement threeChanges = Some c ->
      exists s e,
        startDateTime exampleRecording = Some s /\
        endDateTime exampleRecording = Some e /\
        endTime c = Int (e - s)).
Proof.
  apply (proj1 interval_closure exampleHost
           (exampleEnvironment threeChangesLog) exampleRecording []).
  vm_compute. reflexivity.
Defined.

(** C8, as the log allows it.  When a run of [processCsvFile] ends with
    the array of [N] changes, their sequence numbers are 1, 2, ..., [N],
    whatever the sequence numbers of the rows.  When moreover the rows of
    the log carry integer times that are not negative, never decrease
    along the log and do not exceed the duration of the session, every
    change starts no later than it ends. *)
Theorem sequences_contiguous_intervals_ordered :
  (forall (H : Host) (env : Recorder.Environment) (recording : Recording)
          (fileQueue : list File) (cs : list Change),
      Recorder.result (Recorder.processCsvFile env recording fileQueue)
        = Recorder.Replayed cs ->
      map sequence cs = countFrom1 (length cs)) /\
  (forall (H : Host) (env : Recorder.Environment) (recording : Recording)
          (fileQueue : list File) (cs : list Change) (s e : Z),
      Recorder.result (Recorder.processCsvFile env recording fileQueue)
        = Recorder.Replayed cs ->
      startDateTime recording = Some s ->
      endDateTime recording = Some e ->
      (forall path lines,
          Recorder.readLines env path = Some lines ->
          timesOrdered 0 (e - s) lines = true) ->
      Forall (fun c => number_leb (startTime c) (endTime c) = true) cs).
Proof.
  split.
  - intros H env recording fileQueue cs R.
    destruct (processCsvFile_replayed env recording fileQueue cs R)
      as (s & e & path & lines & st & S & E & _ & P & ->).
    destruct (processLines_invariant recording (Recorder.exportFormats env)
                lines _ st false P) as [_ N]; [reflexivity|reflexivity|].
    destruct (closePrevious_cases (Recorder.processedChanges st) (Int (e - s)))
      as [[_ ->]|(r & p & Er & ->)]; [reflexivity|].
    apply numbered_close with (p := p). rewrite <- Er. exact N.
  - intros H env recording fileQueue cs s e R S E T.
    destruct (processCsvFile_replayed env recording fileQueue cs R)
      as (s' & e' & path & lines & st & S' & E' & Rd & P & ->).
    rewrite S in S'. injection S' as <-. rewrite E in E'. injection E' as <-.
    destruct (processLines_ordered recording (Recorder.exportFormats env)
                (e - s) lines 0 _ st false P (T path lines Rd))
      as (from & Hf & O).
    { split; [constructor|]. intros p Hp. discriminate. }
    destruct (closePrevious_cases (Recorder.processedChanges st) (Int (e - s)))
      as [[_ ->]|(r & p & Er & ->)]; [constructor|].
    apply ordered_close with (from := from); [|exact Hf].
    rewrite <- Er. exact O.
Qed.

Lemma sequences_contiguous_intervals_ordered_witness :
  Forall (fun c => number_leb (startTime c) (endTime c) = true) threeChanges.
Proof.
  apply (proj2 sequences_contiguous_intervals_ordered exampleHost
           (exampleEnvironment threeChangesLog) exampleRecording []
           threeChanges 1000 6000).
  - vm_compute. reflexivity.
  - reflexivity.
  - reflexivity.
  - intros path lines E. injection E as <-. vm_compute. reflexivity.
Defined.

(** C8 as it is stated fails on a log whose times go backwards: the
    first change of the replay starts at 10 and ends at 5. *)
Lemma interval_reversed_on_out_of_order_log :
  exists c1 c2,
    Recorder.result
      (@Recorder.processCsvFile exampleHost
         (exampleEnvironment outOfOrderLog) exampleRecording [])
      = Recorder.Replayed [c1; c2] /\
    startTime c1 = Int 10 /\ endTime c1 = Int 5 /\
    number_leb (startTime c1) (endTime c1) = false.
Proof.
  eexists _, _. split; [vm_compute; reflexivity|].
  repeat split; reflexivity.
Qed.

(** ** C6: no export format *)

(** C6, as the code has it.  With an empty list of export formats
    [processCsvFile] returns before the log is opened: it ends without
    an array of changes, leaves the queue as it was and opens no file;
    once the state of the recording is validated, all it does is log
    the condition with the severity [info] and show it as a warning. *)
Theorem no_export_format_returns_early (H : Host)
  (env : Recorder.Environment) (recording : Recording)
  (fileQueue : list File) :
  Recorder.exportFormats env = [] ->
  let out := Recorder.processCsvFile env recording fileQueue in
  Recorder.result out = Recorder.NotStarted /\
  Recorder.queue out = fileQueue /\
  (forall path, ~ In (Recorder.CreateReadStream path) (Recorder.effects out)) /\
  (Recorder.workspaceFolders env = true ->
   startDateTime recording <> None -> endDateTime recording <> None ->
   Recorder.effects out =
     [Recorder.LogToOutput (str "No export formats specified") Recorder.info;
      Recorder.ShowWarningMessage (str "No export formats specified")]).
Proof.
  intros F. unfold Recorder.processCsvFile, Recorder.validateRecordingState.
  rewrite F. cbn [length Nat.eqb].
  destruct (Recorder.workspaceFolders env); cbn [negb].
  - destruct (endDateTime recording) as [e|], (startDateTime recording) as [s|];
      cbn [negb Recorder.result Recorder.queue Recorder.effects];
      (split; [reflexivity|]); (split; [reflexivity|]); split;
      try (intros path [A|[A|[]]]; discriminate);
      try (intros path [A|[]]; discriminate);
      try (intros _ A B; congruence).
  - cbn [Recorder.result Recorder.queue Recorder.effects].
    split; [reflexivity|]. split; [reflexivity|]. split.
    + intros path [A|[]]. discriminate.
    + discriminate.
Qed.

Lemma no_export_format_returns_early_witness :
  let out :=
    @Recorder.processCsvFile exampleHost
      (Recorder.mkEnvironment true [] (Some (str "/out/"))
         (fun _ => Some helloWorldLog))
      exampleRecording [] in
  Recorder.result out = Recorder.NotStarted /\
  Recorder.queue out = [] /\
  (forall path, ~ In (Recorder.CreateReadStream path) (Recorder.effects out)) /\
  (true = true ->
   startDateTime exampleRecording <> None ->
   endDateTime exampleRecording <> None ->
   Recorder.effects out =
     [Recorder.LogToOutput (str "No export formats specified") Recorder.info;
      Recorder.ShowWarningMessage (str "No export formats specified")]).
Proof.
  apply (no_export_format_returns_early exampleHost
           (Recorder.mkEnvironment true [] (Some (str "/out/"))
              (fun _ => Some helloWorldLog))
           exampleRecording []).
  reflexivity.
Defined.

(** C6 as it is stated fails: with no export format the log of the
    session is not replayed, although the same log is replayed into two
    changes as soon as a format is asked for. *)
Lemma no_export_format_no_replay :
  let env formats :=
    Recorder.mkEnvironment true formats (Some (str "/out/"))
      (fun _ => Some helloWorldLog) in
  (~ exists cs,
       Recorder.result
         (@Recorder.processCsvFile exampleHost (env []) exampleRecording [])
       = Recorder.Replayed cs) /\
  (exists cs,
       Recorder.result
         (@Recorder.processCsvFile exampleHost (env [str "SRT"])
            exampleRecording [])
       = Recorder.Replayed cs /\ length cs = 2%nat).
Proof.
  split.
  - intros [cs E]. vm_compute in E. discriminate.
  - eexists. split; [vm_compute; reflexivity|reflexivity].
Qed.

(** ** C7: the write queue *)

Section WriterLemmas.

Context `{Host}.
Variable exportPath : jsstring.

Lemma settle_alone (w : Writer.World) (ok : bool) :
  Writer.singleRun exportPath w ->
  let w' := Writer.step exportPath w (Writer.Settle 0 ok) in
  Writer.singleRun exportPath w' /\
  Writer.written w' ++ map (Writer.task exportPath) (Writer.fileQueue w') =
  Writer.written w ++ map (Writer.task exportPath) (Writer.fileQueue w) /\
  Writer.fileQueue w' =
    (if ok then tl (Writer.fileQueue w) else Writer.fileQueue w).
Proof.
  unfold Writer.singleRun. intros J. destruct w as [q wr rn]. cbn in J |- *.
  destruct q as [|f q]; cbn in J; subst rn; cbn.
  - repeat split; destruct ok; reflexivity.
  - destruct ok; cbn.
    + repeat split.
      * destruct q; reflexivity.
      * rewrite <- app_assoc. reflexivity.
    + repeat split.
Qed.

(** A run on its own takes the tasks from the head of the queue, one for
    each append that succeeds and none for an append that fails: what is
    written followed by what is queued never changes. *)
Lemma run_alone_keeps_order (results : list bool) (w : Writer.World) :
  Writer.running w = [] ->
  let w' := Writer.run exportPath w (Writer.alone results) in
  Writer.written w' ++ map (Writer.task exportPath) (Writer.fileQueue w') =
  Writer.written w ++ map (Writer.task exportPath) (Writer.fileQueue w) /\
  Writer.fileQueue w' =
    skipn (count_occ bool_dec results true) (Writer.fileQueue w).
Proof.
  intros R. unfold Writer.alone, Writer.run. cbn [fold_left].
  set (w0 := Writer.step exportPath w Writer.CallAppendToFile).
  assert (J0 : Writer.singleRun exportPath w0).
  { unfold w0, Writer.singleRun. destruct w as [q wr rn]. cbn in R. subst rn. cbn.
    destruct q as [|f q]; reflexivity. }
  assert (Q0 : Writer.fileQueue w0 = Writer.fileQueue w /\
               Writer.written w0 = Writer.written w).
  { unfold w0. destruct w as [q wr rn]. cbn. destruct q; split; reflexivity. }
  destruct Q0 as [<- <-]. clearbody w0. clear R w.
  revert w0 J0. induction results as [|ok results IH]; intros w J.
  - cbn. split; reflexivity.
  - cbn [map fold_left].
    destruct (settle_alone w ok J) as (J' & C & Q).
    destruct (IH _ J') as [C' Q']. split.
    + rewrite C'. exact C.
    + rewrite Q', Q. destruct ok; cbn [count_occ].
      * destruct (bool_dec true true) as [_|n]; [|contradiction].
        destruct (Writer.fileQueue w); [|reflexivity].
        cbn. rewrite skipn_nil. reflexivity.
      * destruct (bool_dec false true) as [e|_]; [discriminate|reflexivity].
Qed.

(** X10.  As long as no call of [appendToFile] is made while a run is
    under way, whatever the pushes and the results of the appends: what is
    written, followed by what is queued, is what was there followed by
    what has been pushed, in order. *)
Lemma one_run_at_a_time_keeps_order (es : list Writer.event) :
  forall w,
    Writer.running w = [] \/ Writer.singleRun exportPath w ->
    Writer.oneRunAtATime exportPath w es ->
    let w' := Writer.run exportPath w es in
    Writer.written w' ++ map (Writer.task exportPath) (Writer.fileQueue w') =
    Writer.written w ++
    map (Writer.task exportPath) (Writer.fileQueue w ++ Writer.pushed es).
Proof.
  induction es as [|e es IH]; intros w I X.
  - cbn. rewrite app_nil_r. reflexivity.
  - destruct X as [G X]. cbn zeta in IH |- *.
    change (Writer.run exportPath w (e :: es))
      with (Writer.run exportPath (Writer.step exportPath w e) es).
    destruct e as [f| |i ok].
    + rewrite IH; [|clear IH X|exact X].
      * cbn [Writer.step Writer.fileQueue Writer.written Writer.pushed].
        rewrite <- app_assoc. reflexivity.
      * destruct w as [q wr rn]. unfold Writer.singleRun in *. cbn in *.
        destruct I as [->|I]; [left; reflexivity|].
        destruct q as [|g q]; [left; exact I|right; exact I].
    + specialize (G eq_refl). rewrite IH; [|clear IH X|exact X].
      * destruct w as [q wr rn]. cbn in G. subst rn. cbn.
        destruct q; reflexivity.
      * right. destruct w as [q wr rn]. cbn in G. subst rn.
        unfold Writer.singleRun. cbn. destruct q; reflexivity.
    + assert (K : Writer.step exportPath w (Writer.Settle i ok) = w \/
                  (i = 0%nat /\ Writer.singleRun exportPath w)).
      { destruct I as [I|I].
        - left. destruct w as [q wr rn]. cbn in I. subst rn. cbn.
          destruct i; reflexivity.
        - destruct i as [|i]; [right; split; [reflexivity|exact I]|].
          left. destruct w as [q wr rn]. unfold Writer.singleRun in I.
          cbn in I. subst rn. cbn. destruct q; cbn; [reflexivity|].
          destruct i; reflexivity. }
      destruct K as [K|[-> J]].
      * rewrite K in X |- *. cbn [Writer.pushed]. apply IH; assumption.
      * destruct (settle_alone w ok J) as (J' & C & _).
        rewrite IH; [|right; exact J'|exact X].
        cbn [Writer.pushed]. rewrite map_app, app_assoc, C.
        rewrite map_app, app_assoc. reflexivity.
Qed.

End WriterLemmas.

(** C7, at the events of a change notification with two content changes.
    The handler pushes the first row and calls [appendToFile], pushes the
    second row and calls [appendToFile] again while the first append is
    still pending, so that both runs append the first row.  When the two
    appends have succeeded the first row is written twice and the second
    row has left the queue though no append of it has succeeded yet; if
    the append of the second row then fails the row is lost, and if it
    succeeds the file holds the first row twice. *)
Theorem overlapping_appendToFile_runs :
  let after := @Writer.run exampleHost (str "/out/") emptyWorld
                 twoChangesEvents in
  let failed := @Writer.step exampleHost (str "/out/") after
                  (Writer.Settle 0 false) in
  let succeeded := @Writer.step exampleHost (str "/out/") after
                     (Writer.Settle 0 true) in
  let t1 := @Writer.task exampleHost (str "/out/") row1 in
  let t2 := @Writer.task exampleHost (str "/out/") row2 in
  (Writer.fileQueue after = [] /\ Writer.written after = [t1; t1] /\
   Writer.running after = [Writer.mkPending (fst t2) (snd t2)]) /\
  (Writer.fileQueue failed = [] /\ Writer.running failed = [] /\
   Writer.written failed = [t1; t1]) /\
  (Writer.written succeeded = [t1; t1; t2] /\
   Writer.fileContent (fst t1) (Writer.written succeeded) =
     content row1 ++ content row1 ++ content row2 /\
   Writer.fileContent (fst t1) (Writer.written succeeded) <>
     content row1 ++ content row2).
Proof.
  cbv zeta. split; [|split].
  - repeat split; reflexivity.
  - repeat split; reflexivity.
  - split; [reflexivity|]. split; [reflexivity|].
    vm_compute. discriminate.
Qed.

(** ** The earlier revision of the replay loop *)

(** The loop of src/recording.ts keeps every row and the sequence number
    that the row carries: on the log of C3 it yields two changes. *)
Lemma legacy_keeps_unchanged_row :
  exists c1 c2,
    @Legacy.processLines exampleHost (str "source") true
      (Recorder.mkReplayState [] []) sameStateLog
    = (Recorder.mkReplayState [c1; c2] [mkFile (str "source.srt")
         (Recorder.addSrtLine 1 (Int 0) (Int 0) (str "abc"))], false) /\
    text c1 = str "abc" /\ text c2 = str "abc" /\
    sequence c1 = 1 /\ sequence c2 = 2.
Proof.
  eexists _, _. split; [vm_compute; reflexivity|].
  repeat split; reflexivity.
Qed.

(* ================================================================== *)
(** * Part III. Further properties of the code *)
(* ================================================================== *)

(** ** The escaped text *)

Lemma countQuotes_app (a b : jsstring) :
  countQuotes (a ++ b) = (countQuotes a + countQuotes b)%nat.
Proof. unfold countQuotes. rewrite filter_app, length_app. reflexivity. Qed.

Lemma noneOf_app (cs : list char) (a b : jsstring) :
  noneOf cs (a ++ b) = noneOf cs a && noneOf cs b.
Proof. apply forallb_app. Qed.

Lemma even_add_2 (n : nat) : Nat.even (2 + n) = Nat.even n.
Proof. reflexivity. Qed.

(** Whatever the text, [escapeString] leaves no line feed, carriage
    return or tab in it, and an even number of double quotes: the text
    field of a row stays on one line and closes every quote it opens. *)
Theorem escapeString_one_line_even_quotes (text : jsstring) :
  noneOf [LF; CR; TAB_CHAR] (Utilities.escapeString (Some text)) = true /\
  Nat.even (countQuotes (Utilities.escapeString (Some text))) = true.
Proof.
  rewrite escapeString_render.
  induction text as [| r [IH1 IH2] | r E [IH1 IH2] | c r E [IH1 IH2]]
    using render_ind.
  - split; reflexivity.
  - rewrite render_crlf, noneOf_app, countQuotes_app, IH1. split; [reflexivity|].
    exact IH2.
  - rewrite render_cr, noneOf_app, countQuotes_app, IH1 by assumption.
    split; [reflexivity|]. exact IH2.
  - rewrite render_other, noneOf_app, countQuotes_app, IH1 by assumption.
    rewrite andb_true_r.
    destruct (N.eqb c DQUOTE) eqn:A; [split; [reflexivity|exact IH2]|].
    destruct (N.eqb c LF) eqn:B; [split; [reflexivity|exact IH2]|].
    destruct (N.eqb c TAB_CHAR) eqn:C; [split; [reflexivity|exact IH2]|].
    split.
    + cbn [noneOf forallb existsb]. rewrite B, E, C. reflexivity.
    + unfold countQuotes at 1. cbn [filter].
      rewrite (N.eqb_sym DQUOTE c), A. exact IH2.
Qed.

(** ** The text field written and read back *)

(** X1.  A text that has no backslash and no Unicode line separator,
    escaped by [escapeString] and put between double quotes as
    [buildCsvRow] does, is given back unchanged by [removeDoubleQuotes]
    followed by [unescapeString]: quotes, commas, tabs and line breaks of
    the text all survive. *)
Theorem escaped_text_restored (text : jsstring) :
  noBackslash text = true -> noSeparator text = true ->
  Utilities.unescapeString
    (Utilities.removeDoubleQuotes
       (DQUOTE :: Utilities.escapeString (Some text) ++ [DQUOTE]))
  = text.
Proof.
  intros B S.
  rewrite removeDoubleQuotes_quoted.
  - apply unescape_escape. exact B.
  - rewrite escapeString_render. apply escaped_one_line. exact S.
Qed.

(** ** Numbers written and read back *)

Lemma readDigits_all_digits (s : jsstring) :
  forall a v, readDigits a s = Some v -> forallb isDecimalDigit s = true.
Proof.
  induction s as [|c s IH]; intros a v R; [reflexivity|].
  cbn [readDigits] in R. cbn [forallb]. unfold isDecimalDigit at 1.
  destruct (N.leb 48 c && N.leb c 57); [|discriminate].
  exact (IH _ _ R).
Qed.

Lemma digits_all_digits (n : Z) :
  0 <= n -> forallb isDecimalDigit (digits n) = true.
Proof.
  intros Hn. apply (readDigits_all_digits _ 0 n). apply digits_value. exact Hn.
Qed.

Lemma digits_not_nil (n : Z) : 0 <= n -> digits n <> [].
Proof.
  intros Hn E. pose proof (digits_value n Hn) as V. rewrite E in V.
  pose proof (digits_length n (S (Z.to_nat n))) as L.
  assert (B : 0 <= n < 10 ^ Z.of_nat (S (Z.to_nat n))).
  { split; [exact Hn|].
    rewrite Nat2Z.inj_succ, Z2Nat.id by exact Hn.
    apply Z.lt_le_trans with (2 ^ Z.succ n).
    - apply Z.lt_trans with (2 ^ n); [apply Z.pow_gt_lin_r; lia|].
      apply Z.pow_lt_mono_r; lia.
    - apply Z.pow_le_mono_l. lia. }
  specialize (L B ltac:(lia)). rewrite E in L. cbn in L. lia.
Qed.

Lemma parseDigits_decimal (s : jsstring) :
  forall a v,
    readDigits a s = Some v -> parseDigits 10 (Some a) s = Some v.
Proof.
  induction s as [|c s IH]; intros a v R; [exact R|].
  cbn [readDigits] in R. cbn [parseDigits]. unfold digitValue.
  destruct (N.leb 48 c && N.leb c 57) eqn:D; [|discriminate].
  apply andb_true_iff in D. destruct D as [D1 D2].
  apply N.leb_le in D1, D2.
  replace (Z.of_N c - 48 <? 10) with true by (symmetry; apply Z.ltb_lt; lia).
  apply IH. exact R.
Qed.

Lemma parseDigits_first (c : char) (s : jsstring) :
  isDecimalDigit c = true ->
  parseDigits 10 None (c :: s) = parseDigits 10 (Some (Z.of_N c - 48)) s.
Proof.
  intros D. cbn [parseDigits]. unfold digitValue.
  unfold isDecimalDigit in D. rewrite D.
  apply andb_true_iff in D. destruct D as [D1 D2].
  apply N.leb_le in D1, D2.
  replace (Z.of_N c - 48 <? 10) with true by (symmetry; apply Z.ltb_lt; lia).
  reflexivity.
Qed.

(** [parseInt] on the digits of a number that is not negative. *)
Lemma parseInt_digits (n : Z) :
  0 <= n ->
  parseDigits 10 None (digits n) = Some n /\
  trimStart (digits n) = digits n /\
  (forall c r, digits n = c :: r ->
     isDecimalDigit c = true /\ forallb isDecimalDigit r = true).
Proof.
  intros Hn. pose proof (digits_all_digits n Hn) as A.
  pose proof (digits_value n Hn) as V. pose proof (digits_not_nil n Hn) as NE.
  destruct (digits n) as [|c r]; [contradiction|].
  cbn [forallb] in A. apply andb_true_iff in A. destruct A as [A1 A2].
  assert (B : (48 <= c <= 57)%N).
  { unfold isDecimalDigit in A1. apply andb_true_iff in A1.
    destruct A1 as [X Y]. apply N.leb_le in X, Y. lia. }
  split; [|split].
  - rewrite parseDigits_first by exact A1. apply parseDigits_decimal.
    unfold digitsValue in V. cbn [readDigits] in V.
    unfold isDecimalDigit in A1. rewrite A1 in V.
    replace (10 * 0 + (Z.of_N c - 48)) with (Z.of_N c - 48) in V by lia.
    exact V.
  - cbn [trimStart]. unfold isStrWhiteSpaceChar.
    replace (N.leb 9 c && N.leb c 13) with false
      by (symmetry; apply andb_false_iff; right; apply N.leb_gt; lia).
    repeat match goal with
    | |- context [N.eqb c ?k] =>
        replace (N.eqb c k) with false by (symmetry; apply N.eqb_neq; lia)
    end.
    replace (N.leb 8192 c) with false by (symmetry; apply N.leb_gt; lia).
    reflexivity.
  - intros c' r' E. injection E as <- <-. split; assumption.
Qed.

Lemma parseInt_sign_free (c : char) (r : jsstring) :
  isDecimalDigit c = true -> forallb isDecimalDigit r = true ->
  forall sign : Z,
    (let '(R, S2) :=
       match c :: r with
       | a :: b :: r' =>
           if N.eqb a 48 && (N.eqb b 120 || N.eqb b 88)
           then (16, r') else (10, c :: r)
       | _ => (10, c :: r)
       end in
     match parseDigits R None S2 with
     | None => NaN
     | Some v => Int (sign * v)
     end) =
    match parseDigits 10 None (c :: r) with
    | None => NaN
    | Some v => Int (sign * v)
    end.
Proof.
  intros Dc Dr sign. destruct r as [|b r']; [reflexivity|].
  cbn [forallb] in Dr. apply andb_true_iff in Dr. destruct Dr as [Db _].
  unfold isDecimalDigit in Db. apply andb_true_iff in Db.
  destruct Db as [X Y]. apply N.leb_le in X, Y.
  replace (N.eqb b 120) with false by (symmetry; apply N.eqb_neq; lia).
  replace (N.eqb b 88) with false by (symmetry; apply N.eqb_neq; lia).
  rewrite andb_false_r. reflexivity.
Qed.

Lemma parseInt_minus (c : char) (r : jsstring) :
  isDecimalDigit c = true -> forallb isDecimalDigit r = true ->
  parseInt (Some (MINUS :: c :: r)) =
  match parseDigits 10 None (c :: r) with
  | None => NaN
  | Some v => Int (-1 * v)
  end.
Proof.
  intros Dc Dr. rewrite <- (parseInt_sign_free c r Dc Dr (-1)). reflexivity.
Qed.

Lemma parseInt_plain (c : char) (r : jsstring) :
  isDecimalDigit c = true -> forallb isDecimalDigit r = true ->
  parseInt (Some (c :: r)) =
  match parseDigits 10 None (c :: r) with
  | None => NaN
  | Some v => Int (1 * v)
  end.
Proof.
  intros Dc Dr. rewrite <- (parseInt_sign_free c r Dc Dr 1).
  assert (B : (48 <= c <= 57)%N).
  { unfold isDecimalDigit in Dc. apply andb_true_iff in Dc.
    destruct Dc as [X Y]. apply N.leb_le in X, Y. lia. }
  unfold parseInt. cbn [trimStart].
  assert (W : isStrWhiteSpaceChar c = false).
  { unfold isStrWhiteSpaceChar.
    replace (N.leb 9 c && N.leb c 13) with false
      by (symmetry; apply andb_false_iff; right; apply N.leb_gt; lia).
    repeat match goal with
    | |- context [N.eqb c ?k] =>
        replace (N.eqb c k) with false by (symmetry; apply N.eqb_neq; lia)
    end.
    replace (N.leb 8192 c) with false by (symmetry; apply N.leb_gt; lia).
    reflexivity. }
  rewrite W.
  replace (N.eqb c MINUS) with false
    by (symmetry; apply N.eqb_neq; unfold MINUS; lia).
  replace (N.eqb c PLUS) with false
    by (symmetry; apply N.eqb_neq; unfold PLUS; lia).
  reflexivity.
Qed.

(** The decimal text of an integer, as a template literal writes it, is
    read back by [parseInt] as the same integer. *)
Theorem parseInt_Number_toString (z : Z) :
  parseInt (Some (Number_toString (Int z))) = Int z.
Proof.
  unfold Number_toString. destruct (z <? 0) eqn:Neg.
  - apply Z.ltb_lt in Neg.
    destruct (parseInt_digits (- z) ltac:(lia)) as (P & _ & F).
    destruct (digits (- z)) as [|c r] eqn:D.
    { exfalso. exact (digits_not_nil (- z) ltac:(lia) D). }
    destruct (F c r eq_refl) as [Dc Dr].
    eapply eq_trans; [exact (parseInt_minus c r Dc Dr)|].
    rewrite P. f_equal. lia.
  - apply Z.ltb_ge in Neg.
    destruct (parseInt_digits z Neg) as (P & T & F).
    destruct (digits z) as [|c r] eqn:D.
    { exfalso. exact (digits_not_nil z Neg D). }
    destruct (F c r eq_refl) as [Dc Dr].
    eapply eq_trans; [exact (parseInt_plain c r Dc Dr)|].
    rewrite P. f_equal. lia.
Qed.

(** ** A row built by [buildCsvRow], split and decoded *)

Lemma split_from_run (x : jsstring) :
  forall cur rest,
    commasQuoted x rest = true ->
    split_from cur (x ++ rest) = split_from (rev x ++ cur) rest.
Proof.
  induction x as [|c x IH]; intros cur rest Q; [reflexivity|].
  cbn [commasQuoted] in Q. apply andb_true_iff in Q. destruct Q as [Qc Q].
  cbn [app split_from rev].
  replace (N.eqb c COMMA && Nat.even (countQuotes (x ++ rest))) with false.
  - rewrite IH by exact Q. rewrite <- app_assoc. reflexivity.
  - symmetry. destruct (N.eqb c COMMA); [|reflexivity].
    apply negb_true_iff in Qc. rewrite Qc. reflexivity.
Qed.

Lemma split_field (x rest : jsstring) :
  commasQuoted x (COMMA :: rest) = true ->
  Nat.even (countQuotes rest) = true ->
  split_from [] (x ++ COMMA :: rest) = x :: split_from [] rest.
Proof.
  intros Q E. rewrite split_from_run by exact Q.
  cbn [split_from]. change (N.eqb COMMA COMMA) with true. rewrite E.
  cbn [andb]. rewrite app_nil_r, rev_involutive. reflexivity.
Qed.

Lemma split_last_field (x : jsstring) :
  commasQuoted x [] = true -> split_from [] x = [x].
Proof.
  intros Q. rewrite <- (app_nil_r x) at 1. rewrite split_from_run by exact Q.
  cbn [split_from]. rewrite app_nil_r, rev_involutive. reflexivity.
Qed.

Lemma commasQuoted_no_comma (x rest : jsstring) :
  noneOf [COMMA] x = true -> commasQuoted x rest = true.
Proof.
  induction x as [|c x IH]; intros N; [reflexivity|].
  cbn [noneOf forallb existsb] in N. apply andb_true_iff in N.
  destruct N as [Nc N]. rewrite orb_false_r in Nc.
  apply negb_true_iff in Nc. cbn [commasQuoted]. rewrite Nc.
  apply IH. exact N.
Qed.

Lemma countQuotes_none (x : jsstring) :
  noneOf [DQUOTE] x = true -> countQuotes x = 0%nat.
Proof.
  induction x as [|c x IH]; intros N; [reflexivity|].
  cbn [noneOf forallb existsb] in N. apply andb_true_iff in N.
  destruct N as [Nc N]. rewrite orb_false_r in Nc.
  apply negb_true_iff in Nc. unfold countQuotes. cbn [filter].
  rewrite (N.eqb_sym DQUOTE c), Nc. apply IH. exact N.
Qed.

(** Commas of a stretch without quote that is followed by an odd number
    of quotes. *)
Lemma commasQuoted_no_quote (x rest : jsstring) :
  noneOf [DQUOTE] x = true -> Nat.even (countQuotes rest) = false ->
  commasQuoted x rest = true.
Proof.
  induction x as [|c x IH]; intros N O; [reflexivity|].
  cbn [noneOf forallb] in N. apply andb_true_iff in N.
  destruct N as [_ N]. cbn [commasQuoted]. rewrite (IH N O), andb_true_r.
  destruct (N.eqb c COMMA); [|reflexivity].
  rewrite countQuotes_app, (countQuotes_none x N). cbn [Nat.add].
  rewrite O. reflexivity.
Qed.

Lemma commasQuoted_app (x y rest : jsstring) :
  commasQuoted (x ++ y) rest =
  commasQuoted x (y ++ rest) && commasQuoted y rest.
Proof.
  induction x as [|c x IH]; [reflexivity|].
  cbn [app commasQuoted]. rewrite IH, <- app_assoc, andb_assoc. reflexivity.
Qed.

(** Commas of an escaped text that is followed by an odd number of
    quotes: the quotes of the text are doubled, so that what lies
    between a comma and the end of the text holds an even number of
    them. *)
Lemma commasQuoted_escaped (text rest : jsstring) :
  Nat.even (countQuotes rest) = false ->
  commasQuoted (Utilities.escapeString (Some text)) rest = true.
Proof.
  intros O. rewrite escapeString_render.
  assert (Q : forall s,
             Nat.even (countQuotes
               (render [DQUOTE; DQUOTE]
                  [BACKSLASH; LETTER_r; BACKSLASH; LETTER_n]
                  [BACKSLASH; LETTER_n] [BACKSLASH; LETTER_r]
                  [BACKSLASH; LETTER_t] s)) = true).
  { intros s. rewrite <- escapeString_render.
    apply escapeString_one_line_even_quotes. }
  induction text as [| r IH | r E IH | c r E IH] using render_ind.
  - reflexivity.
  - rewrite render_crlf, commasQuoted_app, IH. reflexivity.
  - rewrite render_cr, commasQuoted_app, IH by assumption. reflexivity.
  - rewrite render_other, commasQuoted_app, IH by assumption.
    rewrite andb_true_r.
    destruct (N.eqb c DQUOTE) eqn:A; [reflexivity|].
    destruct (N.eqb c LF) eqn:B; [reflexivity|].
    destruct (N.eqb c TAB_CHAR) eqn:C; [reflexivity|].
    cbn [commasQuoted app]. rewrite andb_true_r.
    destruct (N.eqb c COMMA); [|reflexivity].
    rewrite countQuotes_app, Nat.even_add, Q, O. reflexivity.
Qed.

Lemma parity_app (a b : jsstring) :
  Nat.even (countQuotes (a ++ b)) =
  Bool.eqb (Nat.even (countQuotes a)) (Nat.even (countQuotes b)).
Proof. rewrite countQuotes_app. apply Nat.even_add. Qed.

Lemma parity_quote (a : jsstring) :
  Nat.even (countQuotes (DQUOTE :: a)) = negb (Nat.even (countQuotes a)).
Proof.
  change (countQuotes (DQUOTE :: a)) with (S (countQuotes a)).
  rewrite Nat.even_succ, <- Nat.negb_even. reflexivity.
Qed.

Lemma parity_comma (a : jsstring) :
  Nat.even (countQuotes (COMMA :: a)) = Nat.even (countQuotes a).
Proof. reflexivity. Qed.

Lemma parity_none (a : jsstring) :
  noneOf [DQUOTE] a = true -> Nat.even (countQuotes a) = true.
Proof. intros N. rewrite (countQuotes_none a N). reflexivity. Qed.

Lemma noneOf_incl (cs cs' : list char) (s : jsstring) :
  incl cs' cs -> noneOf cs s = true -> noneOf cs' s = true.
Proof.
  intros I N. unfold noneOf in *. rewrite forallb_forall in *.
  intros c Hc. specialize (N c Hc). apply negb_true_iff in N.
  apply negb_true_iff. destruct (existsb (N.eqb c) cs') eqn:X; [|reflexivity].
  apply existsb_exists in X. destruct X as (d & Hd & Ed).
  rewrite <- N. symmetry. apply existsb_exists. exists d.
  split; [apply I; exact Hd|exact Ed].
Qed.

Lemma commasQuoted_between_quotes (x rest : jsstring) :
  commasQuoted x (DQUOTE :: rest) = true ->
  commasQuoted (DQUOTE :: x ++ [DQUOTE]) rest = true.
Proof.
  intros Q. cbn [commasQuoted]. change (N.eqb DQUOTE COMMA) with false.
  cbn [andb]. rewrite commasQuoted_app. cbn [app commasQuoted].
  change (N.eqb DQUOTE COMMA) with false. rewrite Q. reflexivity.
Qed.

(** The fields of a line whose file and text fields are quoted and whose
    other fields hold neither comma nor quote. *)
Lemma split_eight (f0 f1 file f3 f4 text f6 f7 : jsstring) :
  noneOf [COMMA; DQUOTE] f0 = true -> noneOf [COMMA; DQUOTE] f1 = true ->
  noneOf [DQUOTE] file = true ->
  noneOf [COMMA; DQUOTE] f3 = true -> noneOf [COMMA; DQUOTE] f4 = true ->
  noneOf [COMMA; DQUOTE] f6 = true -> noneOf [COMMA; DQUOTE] f7 = true ->
  let f2 := DQUOTE :: file ++ [DQUOTE] in
  let f5 := encodeText text in
  splitCsvLine
    (f0 ++ COMMA :: f1 ++ COMMA :: f2 ++ COMMA :: f3 ++ COMMA :: f4 ++
     COMMA :: f5 ++ COMMA :: f6 ++ COMMA :: f7)
  = [f0; f1; f2; f3; f4; f5; f6; f7].
Proof.
  intros N0 N1 Nf N3 N4 N6 N7 f2 f5.
  assert (C : forall f, noneOf [COMMA; DQUOTE] f = true ->
                noneOf [COMMA] f = true /\
                Nat.even (countQuotes f) = true).
  { intros f N. split.
    - apply (noneOf_incl [COMMA; DQUOTE]); [|exact N].
      intros c [<-|[]]. left. reflexivity.
    - apply parity_none. apply (noneOf_incl [COMMA; DQUOTE]); [|exact N].
      intros c [<-|[]]. right. left. reflexivity. }
  destruct (C f0 N0) as [C0 P0], (C f1 N1) as [C1 P1], (C f3 N3) as [C3 P3],
    (C f4 N4) as [C4 P4], (C f6 N6) as [C6 P6], (C f7 N7) as [C7 P7].
  pose proof (parity_none file Nf) as Pf.
  pose proof (proj2 (escapeString_one_line_even_quotes text)) as Pt.
  assert (P2 : Nat.even (countQuotes f2) = true).
  { unfold f2. rewrite parity_quote, parity_app, parity_quote, Pf.
    reflexivity. }
  assert (P5 : Nat.even (countQuotes f5) = true).
  { unfold f5, encodeText. rewrite parity_quote, parity_app, parity_quote, Pt.
    reflexivity. }
  assert (Q2 : forall rest, Nat.even (countQuotes rest) = true ->
                 commasQuoted f2 (COMMA :: rest) = true).
  { intros rest Pr. unfold f2. apply commasQuoted_between_quotes.
    apply commasQuoted_no_quote; [exact Nf|].
    rewrite parity_quote, parity_comma, Pr. reflexivity. }
  assert (Q5 : forall rest, Nat.even (countQuotes rest) = true ->
                 commasQuoted f5 (COMMA :: rest) = true).
  { intros rest Pr. unfold f5, encodeText. apply commasQuoted_between_quotes.
    apply commasQuoted_escaped.
    rewrite parity_quote, parity_comma, Pr. reflexivity. }
  unfold splitCsvLine.
  assert (E7 : split_from [] f7 = [f7]).
  { apply split_last_field. apply commasQuoted_no_comma. exact C7. }
  assert (R6 : Nat.even (countQuotes (f6 ++ COMMA :: f7)) = true).
  { rewrite parity_app, parity_comma, P6, P7. reflexivity. }
  assert (R5 : Nat.even (countQuotes (f5 ++ COMMA :: f6 ++ COMMA :: f7))
               = true).
  { rewrite parity_app, parity_comma, P5, R6. reflexivity. }
  assert (R4 : Nat.even (countQuotes
                 (f4 ++ COMMA :: f5 ++ COMMA :: f6 ++ COMMA :: f7)) = true).
  { rewrite parity_app, parity_comma, P4, R5. reflexivity. }
  assert (R3 : Nat.even (countQuotes
                 (f3 ++ COMMA :: f4 ++ COMMA :: f5 ++ COMMA :: f6 ++
                  COMMA :: f7)) = true).
  { rewrite parity_app, parity_comma, P3, R4. reflexivity. }
  assert (R2 : Nat.even (countQuotes
                 (f2 ++ COMMA :: f3 ++ COMMA :: f4 ++ COMMA :: f5 ++
                  COMMA :: f6 ++ COMMA :: f7)) = true).
  { rewrite parity_app, parity_comma, P2, R3. reflexivity. }
  assert (R1 : Nat.even (countQuotes
                 (f1 ++ COMMA :: f2 ++ COMMA :: f3 ++ COMMA :: f4 ++
                  COMMA :: f5 ++ COMMA :: f6 ++ COMMA :: f7)) = true).
  { rewrite parity_app, parity_comma, P1, R2. reflexivity. }
  rewrite split_field; [|apply commasQuoted_no_comma; exact C0|exact R1].
  rewrite split_field; [|apply commasQuoted_no_comma; exact C1|exact R2].
  rewrite split_field; [|apply Q2; exact R3|exact R3].
  rewrite split_field; [|apply commasQuoted_no_comma; exact C3|exact R4].
  rewrite split_field; [|apply commasQuoted_no_comma; exact C4|exact R5].
  rewrite split_field; [|apply Q5; exact R6|exact R6].
  rewrite split_field; [|apply commasQuoted_no_comma; exact C6|exact P7].
  rewrite E7. reflexivity.
Qed.

Lemma Number_toString_chars (z : Z) :
  noneOf [COMMA; DQUOTE; LF; CR] (Number_toString (Int z)) = true.
Proof.
  assert (D : forall n, 0 <= n ->
                noneOf [COMMA; DQUOTE; LF; CR] (digits n) = true).
  { intros n Hn. pose proof (digits_all_digits n Hn) as A.
    unfold noneOf. rewrite forallb_forall in *. intros c Hc.
    specialize (A c Hc). unfold isDecimalDigit in A.
    apply andb_true_iff in A. destruct A as [X Y]. apply N.leb_le in X, Y.
    cbn [existsb]. unfold COMMA, DQUOTE, LF, CR.
    repeat match goal with
    | |- context [N.eqb c ?k] =>
        replace (N.eqb c k) with false by (symmetry; apply N.eqb_neq; lia)
    end.
    reflexivity. }
  unfold Number_toString. destruct (z <? 0) eqn:Neg.
  - apply Z.ltb_lt in Neg. cbn [noneOf forallb]. fold (noneOf [COMMA; DQUOTE; LF; CR] (digits (- z))).
    rewrite D by lia. reflexivity.
  - apply Z.ltb_ge in Neg. apply D. exact Neg.
Qed.

Lemma no_line_terminator (s : jsstring) :
  noneOf [LF; CR; LINE_SEPARATOR; PARAGRAPH_SEPARATOR] s = true ->
  forallb (fun c => negb (Utilities.isLineTerminator c)) s = true.
Proof.
  unfold noneOf. rewrite !forallb_forall. intros N c Hc.
  specialize (N c Hc). cbn [existsb] in N. rewrite orb_false_r in N.
  unfold Utilities.isLineTerminator. rewrite <- !orb_assoc. exact N.
Qed.

(** The row that [buildCsvRow] builds, as the eight fields it lays
    out. *)
Lemma buildCsvRow_fields (recording : Recording) (w : Capture.Window)
  (now start sequence rangeOffset rangeLength : Z) (text type : jsstring) :
  startDateTime recording = Some start ->
  jsstring_eqb type (str "heading") = false ->
  Capture.buildCsvRow recording w now sequence rangeOffset rangeLength text
    type =
  Some ((Number_toString (Int sequence) ++ COMMA ::
         Number_toString (Int (now - start)) ++ COMMA ::
         (DQUOTE :: Capture.getEditorFileName w ++ [DQUOTE]) ++ COMMA ::
         Number_toString (Int rangeOffset) ++ COMMA ::
         Number_toString (Int rangeLength) ++ COMMA ::
         encodeText text ++ COMMA ::
         Capture.getEditorLanguage w ++ COMMA :: type) ++ [LF]).
Proof.
  intros S T. unfold Capture.buildCsvRow, encodeText. rewrite S, T.
  f_equal. cbn [app]. repeat rewrite <- app_assoc. cbn [app].
  repeat (f_equal; repeat rewrite <- app_assoc; cbn [app]).
Qed.

(** The fields of a row of [buildCsvRow] as [processCSVLine] reads
    them. *)
Lemma buildCsvRow_read_back (recording : Recording) (w : Capture.Window)
  (now start sequence rangeOffset rangeLength : Z) (text type : jsstring) :
  startDateTime recording = Some start ->
  jsstring_eqb type (str "heading") = false ->
  noneOf [DQUOTE; LF; CR; LINE_SEPARATOR; PARAGRAPH_SEPARATOR]
    (Capture.getEditorFileName w) = true ->
  noneOf [COMMA; DQUOTE; LF; CR] (Capture.getEditorLanguage w) = true ->
  noneOf [COMMA; DQUOTE; LF; CR] type = true ->
  let row :=
    Capture.buildCsvRow recording w now sequence rangeOffset rangeLength
      text type in
  let line := Capture.rowLine row in
  row = Some (line ++ [LF]) /\
  noneOf [LF; CR] line = true /\
  Recorder.decode line =
    Normal (Some
      (Recorder.mkRow (Int (now - start)) (Capture.getEditorFileName w)
         (Int rangeOffset) (Int rangeLength) (decodeText (encodeText text))
         (Some (Capture.getEditorLanguage w)) (Some type))).
Proof.
  intros S T Nf Nl Nt row line.
  pose proof (buildCsvRow_fields recording w now start sequence rangeOffset
                rangeLength text type S T) as B.
  fold row in B.
  assert (L : line = removelast
                (match row with Some r => r | None => [] end))
    by (unfold line, Capture.rowLine; destruct row; reflexivity).
  rewrite B in L. rewrite removelast_last in L.
  assert (I : forall (cs cs' : list char) s, incl cs' cs ->
                noneOf cs s = true -> noneOf cs' s = true)
    by (intros; eapply noneOf_incl; eassumption).
  assert (I2 : incl [COMMA; DQUOTE] [COMMA; DQUOTE; LF; CR])
    by (intros c Hc; cbn in Hc |- *; tauto).
  assert (I3 : incl [LF; CR] [COMMA; DQUOTE; LF; CR])
    by (intros c Hc; cbn in Hc |- *; tauto).
  assert (If : incl [LF; CR]
                 [DQUOTE; LF; CR; LINE_SEPARATOR; PARAGRAPH_SEPARATOR])
    by (intros c Hc; cbn in Hc |- *; tauto).
  assert (Iq : incl [DQUOTE]
                 [DQUOTE; LF; CR; LINE_SEPARATOR; PARAGRAPH_SEPARATOR])
    by (intros c Hc; cbn in Hc |- *; tauto).
  assert (It : incl [LF; CR; LINE_SEPARATOR; PARAGRAPH_SEPARATOR]
                 [DQUOTE; LF; CR; LINE_SEPARATOR; PARAGRAPH_SEPARATOR])
    by (intros c Hc; cbn in Hc |- *; tauto).
  assert (Ie : incl [LF; CR] [LF; CR; TAB_CHAR])
    by (intros c Hc; cbn in Hc |- *; tauto).
  assert (Ic : forall (c : char) (cs : list char) s,
                noneOf cs (c :: s) =
                negb (existsb (N.eqb c) cs) && noneOf cs s)
    by reflexivity.
  pose proof (fun z => I _ _ _ I3 (Number_toString_chars z)) as A0.
  pose proof (fun z => I _ _ _ I2 (Number_toString_chars z)) as C0.
  split; [|split].
  - rewrite B, L. reflexivity.
  - rewrite L. unfold encodeText.
    repeat (rewrite noneOf_app || rewrite Ic || rewrite A0).
    rewrite (I _ _ _ If Nf), (I _ _ _ I3 Nl), (I _ _ _ I3 Nt).
    rewrite (I _ _ _ Ie (proj1 (escapeString_one_line_even_quotes text))).
    reflexivity.
  - unfold Recorder.decode. rewrite L.
    pose proof (split_eight (Number_toString (Int sequence))
                  (Number_toString (Int (now - start)))
                  (Capture.getEditorFileName w)
                  (Number_toString (Int rangeOffset))
                  (Number_toString (Int rangeLength)) text
                  (Capture.getEditorLanguage w) type
                  (C0 _) (C0 _) (I _ _ _ Iq Nf)
                  (C0 _) (C0 _) (I _ _ _ I2 Nl) (I _ _ _ I2 Nt)) as Sp.
    cbv zeta in Sp. rewrite Sp. cbn [nth_error].
    rewrite !parseInt_Number_toString. cbn [Number_isNaN].
    rewrite removeDoubleQuotes_quoted.
    + reflexivity.
    + apply no_line_terminator. apply (I _ _ _ It Nf).
Qed.

(** X2.  A row that [buildCsvRow] builds is one line, and [processCSVLine]
    reads its fields back: the elapsed time, the file, the offset, the
    length, the language and the type as they were given, and the text
    as [unescapeString] makes it of the escaped text, which is the text
    itself when it has no backslash and no Unicode line separator.  The
    file name must have no double quote and no line terminator, the
    language and the type no comma, quote or line break. *)
Theorem buildCsvRow_decoded (recording : Recording) (w : Capture.Window)
  (now start sequence rangeOffset rangeLength : Z) (text type : jsstring) :
  startDateTime recording = Some start ->
  jsstring_eqb type (str "heading") = false ->
  noneOf [DQUOTE; LF; CR; LINE_SEPARATOR; PARAGRAPH_SEPARATOR]
    (Capture.getEditorFileName w) = true ->
  noneOf [COMMA; DQUOTE; LF; CR] (Capture.getEditorLanguage w) = true ->
  noneOf [COMMA; DQUOTE; LF; CR] type = true ->
  let row :=
    Capture.buildCsvRow recording w now sequence rangeOffset rangeLength
      text type in
  let line := Capture.rowLine row in
  row = Some (line ++ [LF]) /\
  noneOf [LF; CR] line = true /\
  Recorder.decode line =
    Normal (Some
      (Recorder.mkRow (Int (now - start)) (Capture.getEditorFileName w)
         (Int rangeOffset) (Int rangeLength) (decodeText (encodeText text))
         (Some (Capture.getEditorLanguage w)) (Some type))) /\
  (noBackslash text = true -> noSeparator text = true ->
   decodeText (encodeText text) = text).
Proof.
  intros S T Nf Nl Nt row line.
  destruct (buildCsvRow_read_back recording w now start sequence rangeOffset
              rangeLength text type S T Nf Nl Nt) as (B & L & D).
  repeat split; [exact B | exact L | exact D |].
  intros Bs Sp. apply text_round_trip; assumption.
Qed.

(** ** Lines that the replay skips, and lines that make it throw *)

Lemma decode_skipped (line : jsstring) :
  skipped line = true <-> Recorder.decode line = Normal None.
Proof.
  unfold skipped, Recorder.decode.
  destruct (Number_isNaN (parseInt (nth_error (splitCsvLine line) 0))).
  - split; reflexivity.
  - split; [discriminate|].
    destruct (nth_error (splitCsvLine line) 2); [|discriminate].
    destruct (nth_error (splitCsvLine line) 5); discriminate.
Qed.

Lemma decode_throws (line : jsstring) :
  Recorder.decode line = Throw <->
  skipped line = false /\ (length (splitCsvLine line) < 6)%nat.
Proof.
  unfold skipped, Recorder.decode.
  destruct (Number_isNaN (parseInt (nth_error (splitCsvLine line) 0))).
  - split; [discriminate|]. intros [A _]. discriminate.
  - destruct (nth_error (splitCsvLine line) 5) as [f5|] eqn:E5.
    + assert (L : (5 < length (splitCsvLine line))%nat).
      { apply nth_error_Some. rewrite E5. discriminate. }
      destruct (nth_error (splitCsvLine line) 2) as [f2|] eqn:E2.
      * split; [discriminate|]. intros [_ B]. lia.
      * apply nth_error_None in E2. lia.
    + apply nth_error_None in E5.
      destruct (nth_error (splitCsvLine line) 2); split; auto;
        intros _; split; auto; lia.
Qed.

(** X4.  The loop goes through a log as it goes through the log without the
    lines whose first field is not a number: such lines, the heading
    among them, change nothing and stop nothing, wherever they are. *)
Theorem processLines_ignores_skipped_lines `{Host} (recording : Recording)
  (exportFormats : list jsstring) (lines : list jsstring) :
  forall st,
    Recorder.processLines recording exportFormats st
      (filter (fun line => negb (skipped line)) lines) =
    Recorder.processLines recording exportFormats st lines.
Proof.
  induction lines as [|line lines IH]; intros st; [reflexivity|].
  cbn [filter]. destruct (skipped line) eqn:S.
  - cbn [negb Recorder.processLines].
    rewrite (processLine_skipped recording exportFormats st line
               (proj1 (decode_skipped line) S)).
    apply IH.
  - cbn [negb Recorder.processLines].
    destruct (Recorder.processLine recording exportFormats st line);
      [apply IH|reflexivity].
Qed.

Lemma processLines_app `{Host} (recording : Recording)
  (exportFormats : list jsstring) (l1 l2 : list jsstring) :
  forall st,
    Recorder.processLines recording exportFormats st (l1 ++ l2) =
    match Recorder.processLines recording exportFormats st l1 with
    | (st1, true) => (st1, true)
    | (st1, false) => Recorder.processLines recording exportFormats st1 l2
    end.
Proof.
  induction l1 as [|line l1 IH]; intros st; [reflexivity|].
  cbn [app Recorder.processLines].
  destruct (Recorder.processLine recording exportFormats st line);
    [apply IH|reflexivity].
Qed.

(** X5.  A line that has a number in its first field and fewer than six
    fields makes the replay throw: the run ends aborted, the lines after
    it are not processed, [finalizeRecording] is not reached, so that
    [appendToFile] is not called and what the lines before had queued
    stays in the queue. *)
Theorem truncated_row_aborts_replay `{Host} (env : Recorder.Environment)
  (recording : Recording) (fileQueue : list File) (s e : Z)
  (exportPath : jsstring) (c : char) (n : jsstring)
  (before after : list jsstring) (line : jsstring) :
  Recorder.workspaceFolders env = true ->
  startDateTime recording = Some s ->
  endDateTime recording = Some e ->
  Recorder.exportFormats env <> [] ->
  Recorder.exportPath env = Some exportPath ->
  generateFileName s false = Some (c :: n) ->
  Recorder.readLines env (path_join exportPath ((c :: n) ++ str ".csv"))
    = Some (before ++ line :: after) ->
  Forall (fun l => Recorder.decode l <> Throw) before ->
  skipped line = false -> (length (splitCsvLine line) < 6)%nat ->
  let out := Recorder.processCsvFile env recording fileQueue in
  Recorder.result out = Recorder.Aborted /\
  Recorder.effects out =
    [Recorder.CreateReadStream
       (path_join exportPath ((c :: n) ++ str ".csv"))] /\
  Recorder.queue out =
    Recorder.fileQueue
      (fst (Recorder.processLines recording (Recorder.exportFormats env)
              (Recorder.mkReplayState [] fileQueue) before)).
Proof.
  intros W S E F P G R D Sk Len.
  unfold Recorder.processCsvFile, Recorder.validateRecordingState.
  rewrite W, E, S. cbn [negb].
  destruct (Recorder.exportFormats env) as [|f fs] eqn:Fs; [contradiction|].
  cbn [length Nat.eqb]. rewrite P, G, R. rewrite processLines_app.
  pose proof (processLines_no_throw recording (f :: fs) before D
                (Recorder.mkReplayState [] fileQueue)) as T.
  destruct (Recorder.processLines recording (f :: fs)
              (Recorder.mkReplayState [] fileQueue) before) as [st threw].
  cbn [snd fst] in T |- *. subst threw. cbn [Recorder.processLines].
  rewrite (processLine_throws recording (f :: fs) st line
             (proj2 (decode_throws line) (conj Sk Len))).
  repeat split.
Qed.

(** [processCsvFile] calls [appendToFile] exactly when it ends with the
    array of changes; when it ends before the log is read it opens no
    file and leaves the queue as it was. *)
Theorem processCsvFile_flushes_iff_replayed `{Host}
  (env : Recorder.Environment) (recording : Recording)
  (fileQueue : list File) :
  let out := Recorder.processCsvFile env recording fileQueue in
  (In Recorder.AppendToFile (Recorder.effects out) <->
   exists cs, Recorder.result out = Recorder.Replayed cs) /\
  (Recorder.result out = Recorder.NotStarted ->
   Recorder.queue out = fileQueue /\
   forall path,
     ~ In (Recorder.CreateReadStream path) (Recorder.effects out)).
Proof.
  unfold Recorder.processCsvFile, Recorder.validateRecordingState.
  assert (A : forall (l : list Recorder.effect) (q : list File)
                (r : Recorder.replay),
             (forall cs, r <> Recorder.Replayed cs) ->
             ~ In Recorder.AppendToFile l ->
             (r = Recorder.NotStarted ->
              q = fileQueue /\
              forall path, ~ In (Recorder.CreateReadStream path) l) ->
             let out := Recorder.mkOutcome l q r in
             (In Recorder.AppendToFile (Recorder.effects out) <->
              exists cs, Recorder.result out = Recorder.Replayed cs) /\
             (Recorder.result out = Recorder.NotStarted ->
              Recorder.queue out = fileQueue /\
              forall path,
                ~ In (Recorder.CreateReadStream path) (Recorder.effects out))).
  { intros l q r N I K. cbn. split; [|exact K].
    split; [intros X; contradiction|]. intros [cs X]. exfalso.
    exact (N cs X). }
  assert (B : forall msg sev path,
             ~ In (Recorder.CreateReadStream path)
                 [Recorder.LogToOutput msg sev]).
  { intros msg sev path [X|[]]. discriminate. }
  destruct (Recorder.workspaceFolders env); cbn [negb].
  2:{ apply A; [discriminate| |].
      - intros [X|[]]. discriminate.
      - intros _. split; [reflexivity|]. intros path. apply B. }
  destruct (endDateTime recording) as [e|].
  2:{ apply A; [discriminate| |].
      - intros [X|[]]. discriminate.
      - intros _. split; [reflexivity|]. intros path. apply B. }
  destruct (startDateTime recording) as [s|].
  2:{ apply A; [discriminate| |].
      - intros [X|[]]. discriminate.
      - intros _. split; [reflexivity|]. intros path. apply B. }
  cbn [negb].
  destruct (Nat.eqb (length (Recorder.exportFormats env)) 0).
  { apply A; [discriminate| |].
    - intros [X|[X|[]]]; discriminate.
    - intros _. split; [reflexivity|].
      intros path [X|[X|[]]]; discriminate. }
  destruct (Recorder.exportPath env) as [exportPath|].
  2:{ apply A; [discriminate|intros []|].
      intros _. split; [reflexivity|]. intros path []. }
  destruct (generateFileName s false) as [[|c n]|].
  1,3: (apply A; [discriminate|intros []|];
        intros _; split; [reflexivity|]; intros path []).
  destruct (Recorder.readLines env _) as [lines|].
  2:{ apply A; [discriminate| |discriminate].
      intros [X|[]]. discriminate. }
  destruct (Recorder.processLines recording (Recorder.exportFormats env)
              (Recorder.mkReplayState [] fileQueue) lines) as [st [|]].
  { apply A; [discriminate| |discriminate].
    intros [X|[]]. discriminate. }
  destruct (Recorder.finalizeRecording recording (Recorder.exportFormats env)
              st) as [st'|].
  2:{ apply A; [discriminate| |discriminate].
      intros [X|[]]. discriminate. }
  cbn. split; [|discriminate].
  split; [intros _; eexists; reflexivity|]. intros _. right. left. reflexivity.
Qed.

(** ** The subtitle blocks that a replay queues *)

Lemma addSrtLine_not_empty (sequence : Z) (start end_ : number)
  (text : jsstring) :
  exists c r, Recorder.addSrtLine sequence start end_ text = c :: r.
Proof.
  unfold Recorder.addSrtLine.
  destruct (Number_toString (Int sequence)) as [|c r];
    cbn [app]; eexists _, _; reflexivity.
Qed.

Section SubtitleBlocks.

Context `{Host}.
Variable recording : Recording.
Variable exportFormats : list jsstring.
Variable start : Z.
Variable fileName : jsstring.
Hypothesis started : startDateTime recording = Some start.
Hypothesis named : generateFileName start true = Some fileName.
Hypothesis fileName_not_empty : fileName <> [].

Lemma addToFileQueue_subtitle (c : Change) (q : list File) :
  Recorder.addToFileQueue recording
    (Some (Recorder.addSrtLine (sequence c) (startTime c) (endTime c)
             (JSON_stringify_subtitle (text c) (file c) (language c))))
    (str "srt") true q
  = q ++ [subtitleTask fileName c].
Proof.
  unfold subtitleTask, subtitleBlock.
  change (Number_toString (Int (sequence c)) ++ [LF] ++
          Utilities.formatSrtTime (startTime c) ++ str " --> " ++
          Utilities.formatSrtTime (endTime c) ++ [LF] ++
          JSON_stringify_subtitle (text c) (file c) (language c) ++ [LF; LF])
    with (Recorder.addSrtLine (sequence c) (startTime c) (endTime c)
            (JSON_stringify_subtitle (text c) (file c) (language c))).
  unfold Recorder.addToFileQueue.
  destruct (addSrtLine_not_empty (sequence c) (startTime c) (endTime c)
              (JSON_stringify_subtitle (text c) (file c) (language c)))
    as (x & r & E).
  rewrite E, started, named.
  destruct fileName as [|d n]; [contradiction|]. reflexivity.
Qed.

Lemma addToSRTFile_last_task (changes : list Change) (c : Change)
  (q : list File) :
  Recorder.addToSRTFile recording (changes ++ [c])
    (length (changes ++ [c])) true q
  = Normal (q ++ [subtitleTask fileName c]).
Proof.
  unfold Recorder.addToSRTFile. cbn [negb]. rewrite length_app. cbn [length].
  replace (Nat.eqb (length changes + 1) 0) with false
    by (symmetry; apply Nat.eqb_neq; lia).
  rewrite nth_error_app2 by lia.
  replace (length changes + 1 - 1 - length changes)%nat with 0%nat by lia.
  cbn [nth_error]. rewrite addToFileQueue_subtitle. reflexivity.
Qed.

Lemma subtitleTasks_snoc (cs : list Change) (c : Change) :
  subtitleTasks exportFormats fileName (cs ++ [c]) =
  subtitleTasks exportFormats fileName cs ++
  (if includes exportFormats (str "SRT") then [subtitleTask fileName c]
   else []).
Proof.
  unfold subtitleTasks. destruct (includes exportFormats (str "SRT"));
    [apply map_app|reflexivity].
Qed.

Lemma processLine_blocks (q0 : list File) (st st' : Recorder.ReplayState)
  (line : jsstring) :
  Recorder.processLine recording exportFormats st line = Normal st' ->
  Recorder.fileQueue st =
    q0 ++ subtitleTasks exportFormats fileName (removelast (Recorder.processedChanges st)) ->
  Recorder.fileQueue st' =
    q0 ++ subtitleTasks exportFormats fileName (removelast (Recorder.processedChanges st')).
Proof.
  intros P Q.
  destruct (Recorder.decode line) as [[row|]|] eqn:D.
  - destruct (lastElement (Recorder.processedChanges st)) as [p|] eqn:L.
    + destruct (Recorder.sameAsPrevious row p) eqn:E.
      * rewrite (processLine_dropped _ _ st line row p L D E) in P.
        injection P as <-. exact Q.
      * unfold Recorder.processLine in P.
        rewrite processCSVLine_decode, D, L, E in P.
        unfold Recorder.closePrevious in P. rewrite L in P.
        cbn [startTime Recorder.newChange] in P.
        rewrite addToSRTFile_last_task in P.
        assert (R : forall q,
                  Recorder.fileQueue st' = q ->
                  Recorder.processedChanges st' =
                    (removelast (Recorder.processedChanges st) ++
                     [setEndTime p (Recorder.row_time row)]) ++
                    [Recorder.newChange row (Some p)] ->
                  q = Recorder.fileQueue st ++
                      (if includes exportFormats (str "SRT")
                       then [subtitleTask fileName
                               (setEndTime p (Recorder.row_time row))]
                       else []) ->
                  Recorder.fileQueue st' =
                    q0 ++ subtitleTasks exportFormats fileName
                            (removelast (Recorder.processedChanges st'))).
        { intros q Eq Ep Eq'. rewrite Ep, removelast_last, subtitleTasks_snoc.
          rewrite Eq, Eq', Q, <- app_assoc. reflexivity. }
        destruct (includes exportFormats (str "SRT")); injection P as <-;
          (eapply R; [reflexivity|reflexivity|]); cbn [Recorder.fileQueue];
          [reflexivity|rewrite app_nil_r; reflexivity].
    + rewrite (processLine_first _ _ st line row L D) in P.
      injection P as <-. cbn [Recorder.processedChanges Recorder.fileQueue].
      apply lastElement_nil in L. rewrite L in Q |- *. exact Q.
  - rewrite (processLine_skipped _ _ st line D) in P.
    injection P as <-. exact Q.
  - rewrite (processLine_throws _ _ st line D) in P. discriminate.
Qed.

Lemma processLines_blocks (q0 : list File) (lines : list jsstring) :
  forall st st' threw,
    Recorder.processLines recording exportFormats st lines = (st', threw) ->
    Recorder.fileQueue st =
      q0 ++ subtitleTasks exportFormats fileName (removelast (Recorder.processedChanges st)) ->
    Recorder.fileQueue st' =
      q0 ++ subtitleTasks exportFormats fileName (removelast (Recorder.processedChanges st')).
Proof.
  induction lines as [|line lines IH]; intros st st' threw P Q.
  - injection P as <- _. exact Q.
  - cbn [Recorder.processLines] in P.
    destruct (Recorder.processLine recording exportFormats st line)
      as [st1|] eqn:P1.
    + exact (IH st1 st' threw P (processLine_blocks q0 st st1 line P1 Q)).
    + injection P as <- _. exact Q.
Qed.

Lemma finalizeRecording_blocks (q0 : list File)
  (st st' : Recorder.ReplayState) (e : Z) :
  endDateTime recording = Some e ->
  Recorder.finalizeRecording recording exportFormats st = Normal st' ->
  Recorder.fileQueue st =
    q0 ++ subtitleTasks exportFormats fileName (removelast (Recorder.processedChanges st)) ->
  Recorder.fileQueue st' =
    if includes exportFormats (str "JSON")
    then Recorder.addToFileQueue recording
           (Some (JSON_stringify_changes (Recorder.processedChanges st')))
           (str "json") true
           (q0 ++ subtitleTasks exportFormats fileName (Recorder.processedChanges st'))
    else q0 ++ subtitleTasks exportFormats fileName (Recorder.processedChanges st').
Proof.
  intros E F Q. unfold Recorder.finalizeRecording in F.
  rewrite E, started in F.
  assert (K : forall st1,
             Recorder.fileQueue st1 =
               q0 ++ subtitleTasks exportFormats fileName (Recorder.processedChanges st1) ->
             (if includes exportFormats (str "JSON")
              then Normal
                     (Recorder.mkReplayState (Recorder.processedChanges st1)
                        (Recorder.addToFileQueue recording
                           (Some (JSON_stringify_changes
                                    (Recorder.processedChanges st1)))
                           (str "json") true (Recorder.fileQueue st1)))
              else Normal st1) = Normal st' ->
             Recorder.fileQueue st' =
               if includes exportFormats (str "JSON")
               then Recorder.addToFileQueue recording
                      (Some (JSON_stringify_changes
                               (Recorder.processedChanges st')))
                      (str "json") true
                      (q0 ++ subtitleTasks exportFormats fileName (Recorder.processedChanges st'))
               else q0 ++ subtitleTasks exportFormats fileName (Recorder.processedChanges st')).
  { intros st1 Q1 X. destruct (includes exportFormats (str "JSON"));
      injection X as <-; cbn [Recorder.fileQueue Recorder.processedChanges];
      rewrite Q1; reflexivity. }
  destruct (lastElement (Recorder.processedChanges st)) as [p|] eqn:L.
  - unfold Recorder.closePrevious in F. rewrite L in F.
    rewrite addToSRTFile_last_task in F.
    destruct (includes exportFormats (str "SRT")) eqn:Srt.
    + eapply K; cycle 1; [exact F|].
      cbn [Recorder.fileQueue Recorder.processedChanges].
      rewrite subtitleTasks_snoc, Srt, Q, <- app_assoc. reflexivity.
    + eapply K; cycle 1; [exact F|].
      cbn [Recorder.fileQueue Recorder.processedChanges].
      rewrite subtitleTasks_snoc, Srt, Q, app_nil_r. reflexivity.
  - apply lastElement_nil in L. apply (K st); [|exact F].
    rewrite Q, L. reflexivity.
Qed.

End SubtitleBlocks.

Lemma processCsvFile_replayed_state `{Host} (env : Recorder.Environment)
  (recording : Recording) (fileQueue : list File) (cs : list Change) :
  Recorder.result (Recorder.processCsvFile env recording fileQueue)
    = Recorder.Replayed cs ->
  exists e lines st st',
    endDateTime recording = Some e /\
    Recorder.processLines recording (Recorder.exportFormats env)
      (Recorder.mkReplayState [] fileQueue) lines = (st, false) /\
    Recorder.finalizeRecording recording (Recorder.exportFormats env) st
      = Normal st' /\
    cs = Recorder.processedChanges st' /\
    Recorder.queue (Recorder.processCsvFile env recording fileQueue)
      = Recorder.fileQueue st'.
Proof.
  unfold Recorder.processCsvFile, Recorder.validateRecordingState.
  destruct (Recorder.workspaceFolders env); cbn [negb];
    [|cbn; discriminate].
  destruct (endDateTime recording) as [e|]; [|cbn; discriminate].
  destruct (startDateTime recording) as [s|]; [|cbn; discriminate].
  cbn [negb].
  destruct (Nat.eqb (length (Recorder.exportFormats env)) 0);
    [cbn; discriminate|].
  destruct (Recorder.exportPath env) as [exportPath|]; [|cbn; discriminate].
  destruct (generateFileName s false) as [[|c n]|]; try (cbn; discriminate).
  destruct (Recorder.readLines env _) as [lines|]; [|cbn; discriminate].
  destruct (Recorder.processLines recording (Recorder.exportFormats env)
              (Recorder.mkReplayState [] fileQueue) lines) as [st [|]] eqn:P;
    [cbn; discriminate|].
  destruct (Recorder.finalizeRecording recording (Recorder.exportFormats env)
              st) as [st'|] eqn:F; [|cbn; discriminate].
  cbn [Recorder.result Recorder.queue]. intros Q. injection Q as <-.
  exists e, lines, st, st'. repeat split; assumption.
Qed.

(** X6.  When a run of [processCsvFile] ends with the array of changes,
    what it has added to the queue is, when the subtitle format is asked
    for, one block for each change, in the order of the changes, for the
    file of the subtitles: the sequence number of the change, then its
    start and its end in the array as subtitle times, then its payload;
    after the blocks comes, when the structured format is asked for, one
    task with the serialised array for the file of the export; and
    nothing else.  The export file name that [generateFileName] gives
    must not be empty, and neither must the serialised array, which
    [JSON.stringify] never leaves empty. *)
Theorem replay_queues_one_block_per_change `{Host}
  (env : Recorder.Environment) (recording : Recording)
  (fileQueue : list File) (cs : list Change) (start : Z)
  (fileName : jsstring) :
  Recorder.result (Recorder.processCsvFile env recording fileQueue)
    = Recorder.Replayed cs ->
  startDateTime recording = Some start ->
  generateFileName start true = Some fileName -> fileName <> [] ->
  JSON_stringify_changes cs <> [] ->
  Recorder.queue (Recorder.processCsvFile env recording fileQueue) =
    fileQueue ++
    (if includes (Recorder.exportFormats env) (str "SRT")
     then map (subtitleTask fileName) cs else []) ++
    (if includes (Recorder.exportFormats env) (str "JSON")
     then [jsonTask fileName cs] else []).
Proof.
  intros R S G N J.
  destruct (processCsvFile_replayed_state env recording fileQueue cs R)
    as (e & lines & st & st' & E & P & F & -> & ->).
  assert (Q : Recorder.fileQueue st' =
              if includes (Recorder.exportFormats env) (str "JSON")
              then Recorder.addToFileQueue recording
                     (Some (JSON_stringify_changes
                              (Recorder.processedChanges st')))
                     (str "json") true
                     (fileQueue ++
                      subtitleTasks (Recorder.exportFormats env) fileName
                        (Recorder.processedChanges st'))
              else fileQueue ++
                   subtitleTasks (Recorder.exportFormats env) fileName
                     (Recorder.processedChanges st')).
  { apply (finalizeRecording_blocks recording (Recorder.exportFormats env)
             start fileName S G N fileQueue st st' e E F).
    apply (processLines_blocks recording (Recorder.exportFormats env)
             start fileName S G N fileQueue lines _ st false P).
    cbn [Recorder.fileQueue Recorder.processedChanges removelast].
    unfold subtitleTasks.
    destruct (includes (Recorder.exportFormats env) (str "SRT"));
      cbn [map]; rewrite app_nil_r; reflexivity. }
  rewrite Q. unfold subtitleTasks, jsonTask.
  destruct (includes (Recorder.exportFormats env) (str "JSON")).
  - unfold Recorder.addToFileQueue.
    destruct (JSON_stringify_changes (Recorder.processedChanges st'))
      as [|x r] eqn:X; [contradiction|].
    rewrite S, G. destruct fileName as [|d n]; [contradiction|].
    cbn [falsy]. rewrite <- app_assoc. reflexivity.
  - rewrite app_nil_r. reflexivity.
Qed.

(** ** From the captured rows to the replayed text *)

Lemma capturedLine_decoded (recording : Recording) (start : Z)
  (r : CapturedRow) :
  startDateTime recording = Some start ->
  readableRow r = true ->
  Recorder.decode (capturedLine recording r) =
    Normal (Some
      (Recorder.mkRow (Int (cr_now r - start))
         (Capture.getEditorFileName (cr_window r))
         (Int (cr_rangeOffset r)) (Int (cr_rangeLength r)) (cr_text r)
         (Some (Capture.getEditorLanguage (cr_window r)))
         (Some (cr_type r)))).
Proof.
  intros S W. unfold readableRow in W.
  rewrite !andb_true_iff in W.
  destruct W as [[[[[T Nf] Nl] Nt] Bs] Sp]. apply negb_true_iff in T.
  destruct (buildCsvRow_read_back recording (cr_window r) (cr_now r) start
              (cr_sequence r) (cr_rangeOffset r) (cr_rangeLength r)
              (cr_text r) (cr_type r) S T Nf Nl Nt) as (_ & _ & D).
  unfold capturedLine. rewrite D, (text_round_trip _ Bs Sp). reflexivity.
Qed.

Lemma getUpdatedText_in_range (previousText newText : jsstring) (o l : Z) :
  0 <= o -> 0 <= l -> o + l <= Z.of_nat (length previousText) ->
  Recorder.getUpdatedText previousText (Int o) (Int l) newText =
  firstn (Z.to_nat o) previousText ++ newText ++
  skipn (Z.to_nat (o + l)) previousText.
Proof.
  intros Ho Hl Hin. rewrite getUpdatedText_clamped by assumption.
  rewrite !Z.min_l by lia. reflexivity.
Qed.

Lemma processLines_captured `{Host} (recording : Recording)
  (exportFormats : list jsstring) (start : Z) (rows : list CapturedRow) :
  startDateTime recording = Some start ->
  forall st0,
    forallb readableRow rows = true ->
    editsInRange
      (option_map text (lastElement (Recorder.processedChanges st0)))
      rows = true ->
    exists st,
      Recorder.processLines recording exportFormats st0
        (map (capturedLine recording) rows) = (st, false) /\
      option_map text (lastElement (Recorder.processedChanges st)) =
        fold_left textAfter rows
          (option_map text (lastElement (Recorder.processedChanges st0))).
Proof.
  intros S. induction rows as [|r rows IH]; intros st0 W R.
  - exists st0. split; reflexivity.
  - cbn [forallb] in W. apply andb_true_iff in W. destruct W as [Wr W].
    cbn [editsInRange] in R. apply andb_true_iff in R. destruct R as [Rr R].
    pose proof (capturedLine_decoded recording start r S Wr) as D.
    destruct (processLine_text recording exportFormats st0 _ _ D)
      as (st1 & c & P & L & Tx).
    assert (E : option_map text (lastElement (Recorder.processedChanges st1))
                = textAfter
                    (option_map text
                       (lastElement (Recorder.processedChanges st0))) r).
    { rewrite L. cbn [option_map]. unfold textAfter. f_equal. rewrite Tx.
      unfold Recorder.rowText, Recorder.getNewTextContent.
      cbn [Recorder.row_type Recorder.row_text Recorder.row_rangeOffset
           Recorder.row_rangeLength opt_jsstring_eqb].
      destruct (jsstring_eqb (cr_type r) ChangeType_TAB); [reflexivity|].
      cbn [orb] in Rr.
      destruct (lastElement (Recorder.processedChanges st0)) as [p|];
        [|reflexivity].
      cbn [option_map] in Rr |- *.
      rewrite !andb_true_iff in Rr. destruct Rr as [[Ro Rl] Rin].
      apply Z.leb_le in Ro, Rl, Rin.
      apply getUpdatedText_in_range; assumption. }
    rewrite <- E in R.
    destruct (IH st1 W R) as (st & Ps & Ts).
    exists st. cbn [map Recorder.processLines fold_left]. rewrite P.
    split; [exact Ps|]. rewrite Ts, E. reflexivity.
Qed.


(** ** Edits *)

Lemma firstn_app_exact {A : Type} (a b : list A) :
  firstn (length a) (a ++ b) = a.
Proof.
  rewrite <- (Nat.add_0_r (length a)), firstn_app_2. cbn [firstn].
  apply app_nil_r.
Qed.

Lemma skipn_app_exact {A : Type} (a b : list A) :
  skipn (length a) (a ++ b) = b.
Proof.
  rewrite skipn_app, skipn_all, Nat.sub_diag. reflexivity.
Qed.

(** X7.  An edit is undone by the edit that puts the replaced characters back
    in the place of the inserted ones. *)
Theorem getUpdatedText_undone (previousText newText : jsstring) (o l : Z) :
  0 <= o -> 0 <= l -> o + l <= Z.of_nat (length previousText) ->
  Recorder.getUpdatedText
    (Recorder.getUpdatedText previousText (Int o) (Int l) newText)
    (Int o) (Int (Z.of_nat (length newText)))
    (firstn (Z.to_nat l) (skipn (Z.to_nat o) previousText))
  = previousText.
Proof.
  intros Ho Hl Hin.
  rewrite (getUpdatedText_clamped previousText newText o l Ho Hl).
  rewrite !Z.min_l by lia.
  set (a := firstn (Z.to_nat o) previousText).
  set (b := skipn (Z.to_nat (o + l)) previousText).
  assert (La : length a = Z.to_nat o).
  { unfold a. rewrite length_firstn. lia. }
  rewrite getUpdatedText_clamped by lia.
  rewrite !length_app, La.
  rewrite !Z.min_l by lia.
  rewrite <- La at 1. rewrite firstn_app_exact.
  replace (Z.to_nat (o + Z.of_nat (length newText)))
    with (length (a ++ newText)) by (rewrite length_app; lia).
  rewrite (app_assoc a newText b), skipn_app_exact.
  unfold a, b.
  replace (Z.to_nat (o + l)) with (Z.to_nat l + Z.to_nat o)%nat by lia.
  rewrite <- skipn_skipn.
  rewrite (firstn_skipn (Z.to_nat l)). apply firstn_skipn.
Qed.

(** ** The time of the status bar *)

(** X8.  For a count of seconds that is not negative, [formatDisplayTime]
    renders the minutes and the seconds on two characters each, with a
    colon in between, and puts the hours and a colon in front from one
    hour on and nothing below: the fields read back as [s / 3600],
    [(s mod 3600) / 60] and [s mod 60]. *)
Theorem formatDisplayTime_fields (s : Z) (Hs : 0 <= s) :
  exists hh mm ss : jsstring,
    Display.formatDisplayTime (Int s) = hh ++ mm ++ str ":" ++ ss /\
    digitsValue mm = Some (s mod 3600 / 60) /\
    digitsValue ss = Some (s mod 60) /\
    length mm = 2%nat /\ length ss = 2%nat /\
    (s < 3600 -> hh = []) /\
    (3600 <= s ->
     exists h, hh = h ++ str ":" /\ digitsValue h = Some (s / 3600) /\
               (2 <= length h)%nat).
Proof.
  assert (Hh : 0 <= s / 3600) by (apply Z.div_pos; lia).
  assert (Hr : 0 <= s mod 3600 < 3600) by (apply Z.mod_pos_bound; lia).
  assert (Hmin : 0 <= s mod 3600 / 60 < 60).
  { split; [apply Z.div_pos; lia|apply Z.div_lt_upper_bound; lia]. }
  assert (Hsec : 0 <= s mod 60 < 60) by (apply Z.mod_pos_bound; lia).
  unfold Display.formatDisplayTime. cbn [Math_floor_div js_mod number_gtb].
  rewrite !Z.rem_mod_nonneg by lia.
  unfold Number_toString.
  replace (s / 3600 <? 0) with false by (symmetry; apply Z.ltb_ge; lia).
  replace (s mod 3600 / 60 <? 0) with false by (symmetry; apply Z.ltb_ge; lia).
  replace (s mod 60 <? 0) with false by (symmetry; apply Z.ltb_ge; lia).
  eexists _, _, _. split; [reflexivity|].
  rewrite !padStart_value, !padStart_length.
  rewrite !digits_value by lia.
  pose proof (digits_length (s mod 3600 / 60) 2 ltac:(simpl; lia) ltac:(lia)).
  pose proof (digits_length (s mod 60) 2 ltac:(simpl; lia) ltac:(lia)).
  split; [reflexivity|]. split; [reflexivity|].
  split; [lia|]. split; [lia|]. split.
  - intros Lt. rewrite Z.div_small by lia. reflexivity.
  - intros Ge. assert (0 < s / 3600) by (apply Z.div_str_pos; lia).
    replace (0 <? s / 3600) with true by (symmetry; apply Z.ltb_lt; lia).
    eexists. split; [reflexivity|].
    rewrite padStart_value, padStart_length, digits_value by lia.
    split; [reflexivity|lia].
Qed.

Lemma formatDisplayTime_fields_witness :
  exists hh mm ss : jsstring,
    Display.formatDisplayTime (Int 3725) = hh ++ mm ++ str ":" ++ ss /\
    digitsValue mm = Some (3725 mod 3600 / 60) /\
    digitsValue ss = Some (3725 mod 60) /\
    length mm = 2%nat /\ length ss = 2%nat /\
    (3725 < 3600 -> hh = []) /\
    (3600 <= 3725 ->
     exists h, hh = h ++ str ":" /\ digitsValue h = Some (3725 / 3600) /\
               (2 <= length h)%nat).
Proof. apply (formatDisplayTime_fields 3725). lia. Defined.

(** ** The writer, one run at a time *)

(** X9.  A run of [appendToFile] on its own, [k] of whose appends succeed,
    writes the first [k] tasks of the queue, in the order of the queue,
    and leaves the others queued: an append that fails is tried again
    and nothing that follows it is written before it. *)
Theorem run_alone_writes_the_head `{Host} (exportPath : jsstring)
  (results : list bool) (w : Writer.World) :
  Writer.running w = [] ->
  let w' := Writer.run exportPath w (Writer.alone results) in
  let k := count_occ bool_dec results true in
  Writer.written w' =
    Writer.written w ++
    map (Writer.task exportPath) (firstn k (Writer.fileQueue w)) /\
  Writer.fileQueue w' = skipn k (Writer.fileQueue w).
Proof.
  intros R. cbv zeta.
  destruct (run_alone_keeps_order exportPath results w R) as [C Q].
  split; [|exact Q]. rewrite Q in C.
  rewrite <- (firstn_skipn (count_occ bool_dec results true)
                (Writer.fileQueue w)) in C at 2.
  rewrite map_app, app_assoc in C. apply app_inv_tail in C. exact C.
Qed.

Lemma run_alone_writes_the_head_witness :
  let w := Writer.mkWorld [row1; row2] [] [] in
  let w' := @Writer.run exampleHost (str "/out/") w
              (Writer.alone [false; true; false]) in
  Writer.written w' =
    [] ++ map (@Writer.task exampleHost (str "/out/")) (firstn 1 [row1; row2])
  /\ Writer.fileQueue w' = skipn 1 [row1; row2].
Proof.
  apply (@run_alone_writes_the_head exampleHost (str "/out/")
           [false; true; false] (Writer.mkWorld [row1; row2] [] [])).
  reflexivity.
Defined.

(** The events of the witness below: each call of [appendToFile] is made
    when the run before it has ended. *)
Lemma one_run_at_a_time_keeps_order_witness :
  let es :=
    [Writer.Push row1; Writer.CallAppendToFile; Writer.Settle 0 false;
     Writer.Push row2; Writer.Settle 0 true; Writer.Settle 0 true;
     Writer.CallAppendToFile] in
  let w' := @Writer.run exampleHost (str "/out/") emptyWorld es in
  Writer.written w' ++
  map (@Writer.task exampleHost (str "/out/")) (Writer.fileQueue w') =
  Writer.written emptyWorld ++
  map (@Writer.task exampleHost (str "/out/"))
    (Writer.fileQueue emptyWorld ++ Writer.pushed es).
Proof.
  apply (@one_run_at_a_time_keeps_order exampleHost (str "/out/")).
  - left. reflexivity.
  - cbn. repeat split; try discriminate; intros _; reflexivity.
Defined.

(** ** The rows that a session queues *)

Lemma pushed_app (a b : list Writer.event) :
  Writer.pushed (a ++ b) = Writer.pushed a ++ Writer.pushed b.
Proof.
  induction a as [|e a IH]; [reflexivity|].
  destruct e; cbn [app Writer.pushed]; rewrite IH; reflexivity.
Qed.

Lemma startsWith_app (p r : jsstring) : startsWith p (p ++ r) = true.
Proof.
  induction p as [|c p IH]; [reflexivity|].
  cbn [app startsWith]. rewrite N.eqb_refl. exact IH.
Qed.

Lemma rowsNumbered_app (logName : jsstring) (a b : list File) :
  forall from,
    rowsNumbered logName from a ->
    rowsNumbered logName (from + Z.of_nat (length a)) b ->
    rowsNumbered logName from (a ++ b).
Proof.
  induction a as [|f a IH]; intros from A B.
  - cbn [length] in B. replace (from + Z.of_nat 0) with from in B by lia.
    exact B.
  - destruct A as (N & W & A). cbn [app rowsNumbered].
    split; [exact N|]. split; [exact W|]. apply IH; [exact A|].
    cbn [length] in B.
    replace (from + 1 + Z.of_nat (length a))
      with (from + Z.of_nat (S (length a))) by lia.
    exact B.
Qed.

Section SessionRows.

Context `{Host}.
Variable CONTENT : jsstring.
Variable startDate : Z.
Variable fileName : jsstring.
Hypothesis named : generateFileName startDate false = Some fileName.
Hypothesis fileName_not_empty : fileName <> [].
Hypothesis content_type : jsstring_eqb CONTENT (str "heading") = false.
Hypothesis tab_type : jsstring_eqb ChangeType_TAB (str "heading") = false.
Variable logName : jsstring.
Hypothesis logName_csv : logName = fileName ++ str "." ++ str "csv".

Lemma adds_nothing (s : Lifecycle.Session) : adds logName s s [].
Proof. repeat split. cbn. lia. Qed.

Lemma adds_trans (s1 s2 s3 : Lifecycle.Session)
  (e1 e2 : list Writer.event) :
  adds logName s1 s2 e1 -> adds logName s2 s3 e2 ->
  adds logName s1 s3 (e1 ++ e2).
Proof.
  intros (A1 & B1 & C1) (A2 & B2 & C2). unfold adds.
  rewrite pushed_app, length_app. split; [congruence|]. split.
  - apply rowsNumbered_app; [exact B1|].
    replace (Lifecycle.sequence s1 + 1 +
             Z.of_nat (length (Writer.pushed e1)))
      with (Lifecycle.sequence s2 + 1) by lia.
    exact B2.
  - lia.
Qed.

Lemma pushRow_built (recording : Recording) (w : Capture.Window)
  (now sequence rangeOffset rangeLength : Z) (text type : jsstring) :
  startDateTime recording = Some startDate ->
  jsstring_eqb type (str "heading") = false ->
  exists f,
    Lifecycle.pushRow recording
      (Capture.buildCsvRow recording w now sequence rangeOffset rangeLength
         text type) = [Writer.Push f] /\
    name f = logName /\
    startsWith (Number_toString (Int sequence) ++ [COMMA]) (content f) = true.
Proof.
  intros S T.
  rewrite (buildCsvRow_fields recording w now startDate sequence rangeOffset
             rangeLength text type S T).
  set (rest := Number_toString (Int (now - startDate)) ++ _).
  assert (E : (Number_toString (Int sequence) ++ COMMA :: rest) ++ [LF] =
              (Number_toString (Int sequence) ++ [COMMA]) ++ rest ++ [LF]).
  { rewrite <- !app_assoc. reflexivity. }
  rewrite E.
  assert (X : exists c r,
             (Number_toString (Int sequence) ++ [COMMA]) ++ rest ++ [LF]
             = c :: r).
  { destruct (Number_toString (Int sequence)); cbn [app];
      eexists _, _; reflexivity. }
  destruct X as (c & r & X).
  unfold Lifecycle.pushRow, Recorder.addToFileQueue.
  rewrite X, S, named. destruct fileName as [|d n]; [contradiction|].
  cbn [falsy app map]. eexists. split; [reflexivity|].
  cbn [name content]. split; [symmetry; exact logName_csv|].
  rewrite <- X. apply startsWith_app.
Qed.

Lemma appendToFile_adds (w : Capture.Window) (s : Lifecycle.Session) :
  adds logName s (fst (fst (Lifecycle.appendToFile w s)))
    (snd (fst (Lifecycle.appendToFile w s))).
Proof.
  unfold Lifecycle.appendToFile, Lifecycle.stopRecording.
  destruct (falsy (Capture.exportPath w)).
  - destruct (isRecording (Lifecycle.recording s)); cbn; repeat split;
      cbn; lia.
  - cbn. repeat split. cbn. lia.
Qed.

Lemma recordChange_adds (w : Capture.Window) (s0 s : Lifecycle.Session)
  (events : list Writer.event) (actions : list Lifecycle.action)
  (change : Lifecycle.ContentChange) :
  startDateTime (Lifecycle.recording s0) = Some startDate ->
  adds logName s0 s events ->
  adds logName s0
    (fst (fst (Lifecycle.recordChange CONTENT w (s, events, actions) change)))
    (snd (fst (Lifecycle.recordChange CONTENT w (s, events, actions) change))).
Proof.
  intros S0 A. unfold Lifecycle.recordChange.
  set (s1 := Lifecycle.mkSession (Lifecycle.recording s) (Lifecycle.timer s)
               (Lifecycle.sequence s + 1)).
  pose proof (appendToFile_adds w s1) as B.
  destruct (Lifecycle.appendToFile w s1) as [[s2 calls] a].
  cbn [fst snd] in B |- *.
  apply (adds_trans s0 s s2); [exact A|].
  assert (S : startDateTime (Lifecycle.recording s1) = Some startDate).
  { destruct A as (A & _). cbn. rewrite A. exact S0. }
  destruct (pushRow_built (Lifecycle.recording s1) w
              (Lifecycle.readAt change) (Lifecycle.sequence s1)
              (Lifecycle.rangeOffset change) (Lifecycle.rangeLength change)
              (Lifecycle.text change) CONTENT S content_type)
    as (f & P & N & W).
  rewrite P. destruct B as (B1 & B2 & B3). unfold adds.
  rewrite pushed_app, length_app. cbn [Writer.pushed length app] in *.
  assert (Q : Lifecycle.sequence s1 = Lifecycle.sequence s + 1)
    by reflexivity.
  split; [exact B1|]. split; [|lia].
  split; [exact N|]. split; [exact W|].
  rewrite <- Q. exact B2.
Qed.

Lemma recordChanges_adds (w : Capture.Window) (s0 : Lifecycle.Session)
  (changes : list Lifecycle.ContentChange) :
  startDateTime (Lifecycle.recording s0) = Some startDate ->
  forall s events actions,
    adds logName s0 s events ->
    adds logName s0
      (fst (fst (fold_left (Lifecycle.recordChange CONTENT w) changes
                   (s, events, actions))))
      (snd (fst (fold_left (Lifecycle.recordChange CONTENT w) changes
                   (s, events, actions)))).
Proof.
  intros S0. induction changes as [|c changes IH]; intros s events actions A.
  - exact A.
  - cbn [fold_left].
    pose proof (recordChange_adds w s0 s events actions c S0 A) as B.
    destruct (Lifecycle.recordChange CONTENT w (s, events, actions) c)
      as [[s1 e1] a1].
    apply IH. exact B.
Qed.

Lemma onDidChangeTextDocument_adds (w : Capture.Window)
  (event : Lifecycle.DocumentChange) (s : Lifecycle.Session) :
  startDateTime (Lifecycle.recording s) = Some startDate ->
  adds logName s
    (fst (fst (Lifecycle.onDidChangeTextDocument CONTENT w event s)))
    (snd (fst (Lifecycle.onDidChangeTextDocument CONTENT w event s))).
Proof.
  intros S. unfold Lifecycle.onDidChangeTextDocument.
  destruct (negb (isRecording (Lifecycle.recording s)));
    [apply adds_nothing|].
  destruct (Lifecycle.isCurrentFileExported w); [apply adds_nothing|].
  destruct (Capture.activeTextEditor w); [|apply adds_nothing].
  destruct (Lifecycle.ofActiveDocument event); [|apply adds_nothing].
  apply recordChanges_adds; [exact S|apply adds_nothing].
Qed.

Lemma onDidChangeActiveTextEditor_adds (w : Capture.Window) (now : Z)
  (s : Lifecycle.Session) :
  startDateTime (Lifecycle.recording s) = Some startDate ->
  adds logName s
    (fst (fst (Lifecycle.onDidChangeActiveTextEditor w now s)))
    (snd (fst (Lifecycle.onDidChangeActiveTextEditor w now s))).
Proof.
  intros S. unfold Lifecycle.onDidChangeActiveTextEditor.
  destruct (Capture.activeTextEditor w) as [editor|]; [|apply adds_nothing].
  destruct (isRecording (Lifecycle.recording s)); [|apply adds_nothing].
  destruct (Lifecycle.isCurrentFileExported w); [apply adds_nothing|].
  set (s1 := Lifecycle.mkSession (Lifecycle.recording s) (Lifecycle.timer s)
               (Lifecycle.sequence s + 1)).
  pose proof (appendToFile_adds w s1) as B.
  destruct (Lifecycle.appendToFile w s1) as [[s2 calls] a].
  cbn [fst snd] in B |- *.
  destruct (pushRow_built (Lifecycle.recording s1) w now
              (Lifecycle.sequence s1) 0 0 (Capture.getText editor)
              ChangeType_TAB S tab_type) as (f & P & N & W).
  rewrite P. destruct B as (B1 & B2 & B3). unfold adds.
  rewrite pushed_app, length_app. cbn [Writer.pushed length app] in *.
  assert (Q : Lifecycle.sequence s1 = Lifecycle.sequence s + 1)
    by reflexivity.
  split; [exact B1|]. split; [|lia].
  split; [exact N|]. split; [exact W|].
  rewrite <- Q. exact B2.
Qed.

Lemma handle_adds (s0 : Lifecycle.Session)
  (ns : list Lifecycle.notification) :
  startDateTime (Lifecycle.recording s0) = Some startDate ->
  forall s events,
    adds logName s0 s events ->
    adds logName s0
      (fst (fold_left (Lifecycle.handle CONTENT) ns (s, events)))
      (snd (fold_left (Lifecycle.handle CONTENT) ns (s, events))).
Proof.
  intros S0. induction ns as [|n ns IH]; intros s events A; [exact A|].
  cbn [fold_left]. 
  assert (S : startDateTime (Lifecycle.recording s) = Some startDate).
  { destruct A as (A & _). rewrite A. exact S0. }
  assert (B : adds logName s0 (fst (Lifecycle.handle CONTENT (s, events) n))
                (snd (Lifecycle.handle CONTENT (s, events) n))).
  { unfold Lifecycle.handle. destruct n as [w event|w now].
    - pose proof (onDidChangeTextDocument_adds w event s S) as B.
      destruct (Lifecycle.onDidChangeTextDocument CONTENT w event s)
        as [[s1 e1] a1].
      exact (adds_trans s0 s s1 events e1 A B).
    - pose proof (onDidChangeActiveTextEditor_adds w now s S) as B.
      destruct (Lifecycle.onDidChangeActiveTextEditor w now s)
        as [[s1 e1] a1].
      exact (adds_trans s0 s s1 events e1 A B). }
  destruct (Lifecycle.handle CONTENT (s, events) n) as [s1 e1].
  apply IH. exact B.
Qed.

End SessionRows.

Lemma handle_prefix `{Host} (CONTENT : jsstring)
  (ns : list Lifecycle.notification) :
  forall s pre events,
    fold_left (Lifecycle.handle CONTENT) ns (s, pre ++ events) =
    (fst (fold_left (Lifecycle.handle CONTENT) ns (s, events)),
     pre ++ snd (fold_left (Lifecycle.handle CONTENT) ns (s, events))).
Proof.
  induction ns as [|n ns IH]; intros s pre events; [reflexivity|].
  cbn [fold_left]. unfold Lifecycle.handle at 2 4 6.
  destruct (match n with
            | Lifecycle.DocumentChanged w event =>
                Lifecycle.onDidChangeTextDocument CONTENT w event s
            | Lifecycle.EditorChanged w now =>
                Lifecycle.onDidChangeActiveTextEditor w now s
            end) as [[s1 e1] a1].
  rewrite <- app_assoc. apply IH.
Qed.

(** X11.  From a start of the recording that goes through, and through the
    notifications of changed documents and changed editors that follow
    it, the queue is given the heading and then one row at a time, all
    for the one log file of the session; the rows begin with the numbers
    1, 2, 3 and so on without a gap, as many as the sequence counter
    counts. *)
Theorem session_rows_numbered `{Host} (CONTENT : jsstring)
  (w : Capture.Window) (editor : Capture.Editor) (startDate now : Z)
  (fileName : jsstring) (s0 : Lifecycle.Session)
  (ns : list Lifecycle.notification) :
  Capture.activeTextEditor w = Some editor ->
  isRecording (Lifecycle.recording s0) = false ->
  falsy (Capture.exportPath w) = false ->
  generateFileName startDate false = Some fileName -> fileName <> [] ->
  jsstring_eqb CONTENT (str "heading") = false ->
  jsstring_eqb ChangeType_TAB (str "heading") = false ->
  let started := Lifecycle.startRecording w startDate now s0 in
  let final :=
    fold_left (Lifecycle.handle CONTENT) ns
      (fst (fst started), snd (fst started)) in
  let logName := fileName ++ str "." ++ str "csv" in
  exists rows,
    Writer.pushed (snd final) =
      mkFile logName (headingLine ++ [LF]) :: rows /\
    rowsNumbered logName 1 rows /\
    Lifecycle.sequence (fst final) = Z.of_nat (length rows).
Proof.
  intros E R P G N Tc Tt started final logName.
  set (recording1 := mkRecording true (Some startDate) None).
  set (s00 := Lifecycle.mkSession recording1 0 0).
  set (s1 := Lifecycle.mkSession recording1 0 (0 + 1)).
  destruct (pushRow_built startDate fileName G N logName
              eq_refl recording1 w now (Lifecycle.sequence s1) 0 0
              (Capture.getText editor) ChangeType_TAB eq_refl Tt)
    as (f & Pf & Nf & Wf).
  assert (St : started =
               (s1,
                [Writer.Push (mkFile logName (headingLine ++ [LF]))] ++
                [Writer.Push f; Writer.CallAppendToFile],
                [Lifecycle.NotificationWithProgress (str "Recording started");
                 Lifecycle.LogToOutput (str "Recording started")
                   Recorder.info])).
  { unfold started, Lifecycle.startRecording. rewrite E, R, P, G.
    replace (falsy (Some fileName)) with false
      by (destruct fileName; [contradiction|reflexivity]).
    fold recording1. fold s1. rewrite Pf.
    unfold Lifecycle.appendToFile. rewrite P.
    unfold Lifecycle.pushRow at 1, Recorder.addToFileQueue, Capture.buildCsvRow.
    cbn [startDateTime recording1]. rewrite G.
    change (jsstring_eqb (str "heading") (str "heading")) with true.
    cbv iota.
    replace (falsy (Some fileName)) with false
      by (destruct fileName; [contradiction|reflexivity]).
    reflexivity. }
  unfold final. rewrite St. cbn [fst snd]. rewrite handle_prefix.
  cbn [fst snd].
  assert (A : adds logName s00 s1 [Writer.Push f; Writer.CallAppendToFile]).
  { unfold adds. cbn [Writer.pushed length]. split; [reflexivity|].
    split; [|reflexivity]. cbn [rowsNumbered].
    split; [exact Nf|]. split; [exact Wf|exact I]. }
  pose proof (handle_adds CONTENT startDate fileName G N Tc Tt logName
                eq_refl s00 ns eq_refl s1 _ A) as (_ & B & C).
  eexists. rewrite pushed_app. cbn [Writer.pushed app].
  split; [reflexivity|]. split; [exact B|]. rewrite C. cbn. lia.
Qed.

Lemma recordChange_events `{Host} (CONTENT : jsstring) (w : Capture.Window)
  (changes : list Lifecycle.ContentChange) :
  forall s events actions,
    exists more,
      snd (fst (fold_left (Lifecycle.recordChange CONTENT w) changes
                  (s, events, actions))) = events ++ more.
Proof.
  induction changes as [|c changes IH]; intros s events actions.
  - exists []. cbn. rewrite app_nil_r. reflexivity.
  - cbn [fold_left]. unfold Lifecycle.recordChange at 2.
    destruct (Lifecycle.appendToFile w _) as [[s2 calls] a].
    destruct (IH s2 (events ++
                     Lifecycle.pushRow
                       (Lifecycle.recording
                          (Lifecycle.mkSession (Lifecycle.recording s)
                             (Lifecycle.timer s) (Lifecycle.sequence s + 1)))
                       (Capture.buildCsvRow
                          (Lifecycle.recording
                             (Lifecycle.mkSession (Lifecycle.recording s)
                                (Lifecycle.timer s)
                                (Lifecycle.sequence s + 1)))
                          w (Lifecycle.readAt c)
                          (Lifecycle.sequence
                             (Lifecycle.mkSession (Lifecycle.recording s)
                                (Lifecycle.timer s)
                                (Lifecycle.sequence s + 1)))
                          (Lifecycle.rangeOffset c) (Lifecycle.rangeLength c)
                          (Lifecycle.text c) CONTENT) ++ calls)
                (actions ++ a)) as [more M].
    rewrite M. rewrite <- app_assoc. eexists. reflexivity.
Qed.

(** X12.  A change notification that carries two changes or more makes the
    handler call [appendToFile] a second time while the run of the first
    call is still under way, whatever the state of the writer: the
    handler pushes a row and calls, pushes the next row and calls again,
    and only the settlement of an append, which comes later, can end a
    run. *)
Theorem change_handler_overlaps_runs `{Host} (CONTENT : jsstring)
  (w : Capture.Window) (editor : Capture.Editor)
  (event : Lifecycle.DocumentChange) (s : Lifecycle.Session)
  (exportPath fileName : jsstring) (startDate : Z)
  (c1 c2 : Lifecycle.ContentChange) (rest : list Lifecycle.ContentChange) :
  isRecording (Lifecycle.recording s) = true ->
  startDateTime (Lifecycle.recording s) = Some startDate ->
  generateFileName startDate false = Some fileName -> fileName <> [] ->
  jsstring_eqb CONTENT (str "heading") = false ->
  Capture.activeTextEditor w = Some editor ->
  Capture.exportPath w = Some exportPath -> exportPath <> [] ->
  Lifecycle.isCurrentFileExported w = false ->
  Lifecycle.ofActiveDocument event = true ->
  Lifecycle.contentChanges event = c1 :: c2 :: rest ->
  forall world,
    ~ Writer.oneRunAtATime exportPath world
        (snd (fst (Lifecycle.onDidChangeTextDocument CONTENT w event s))).
Proof.
  intros R S G N Tc E P Pn X A C world.
  assert (Fp : falsy (Capture.exportPath w) = false).
  { rewrite P. destruct exportPath; [contradiction|reflexivity]. }
  unfold Lifecycle.onDidChangeTextDocument. rewrite R, X, E, A, C.
  cbn [negb fold_left].
  unfold Lifecycle.recordChange at 2 3, Lifecycle.appendToFile.
  rewrite Fp. cbn [Lifecycle.recording Lifecycle.sequence app].
  destruct (pushRow_built startDate fileName G N _ eq_refl
              (Lifecycle.recording s) w (Lifecycle.readAt c1)
              (Lifecycle.sequence s + 1) (Lifecycle.rangeOffset c1)
              (Lifecycle.rangeLength c1) (Lifecycle.text c1) CONTENT S Tc)
    as (f1 & P1 & _).
  destruct (pushRow_built startDate fileName G N _ eq_refl
              (Lifecycle.recording s) w (Lifecycle.readAt c2)
              (Lifecycle.sequence s + 1 + 1) (Lifecycle.rangeOffset c2)
              (Lifecycle.rangeLength c2) (Lifecycle.text c2) CONTENT S Tc)
    as (f2 & P2 & _).
  rewrite P1, P2. cbn [app].
  match goal with
  | |- context [fold_left ?f rest ?acc] =>
      destruct acc as [[s2 ev2] a2] eqn:Acc;
      destruct (recordChange_events CONTENT w rest s2 ev2 a2) as [more M]
  end.
  injection Acc as _ <- _. rewrite M. cbn [app Writer.oneRunAtATime].
  intros (_ & Call1 & _ & Call2 & _).
  specialize (Call1 eq_refl). specialize (Call2 eq_refl).
  destruct world as [q wr rn]. cbn in Call1. subst rn.
  cbn in Call2. destruct q as [|g q]; cbn in Call2; discriminate.
Qed.

(** ** The properties above at the examples *)

Lemma escaped_text_restored_witness :
  Utilities.unescapeString
    (Utilities.removeDoubleQuotes
       (DQUOTE ::
        Utilities.escapeString
          (Some (str "a" ++ [DQUOTE; CR; LF; LF; TAB_CHAR] ++ str ",b")) ++
        [DQUOTE]))
  = str "a" ++ [DQUOTE; CR; LF; LF; TAB_CHAR] ++ str ",b".
Proof. apply escaped_text_restored; reflexivity. Defined.

Lemma buildCsvRow_decoded_witness :
  let text := str " wor" ++ [DQUOTE; COMMA; LF] ++ str "ld" in
  let row :=
    Capture.buildCsvRow exampleRecording exampleWindow 1010 2 5 0 text
      (str "content") in
  let line := Capture.rowLine row in
  row = Some (line ++ [LF]) /\
  noneOf [LF; CR] line = true /\
  Recorder.decode line =
    Normal (Some
      (Recorder.mkRow (Int (1010 - 1000))
         (Capture.getEditorFileName exampleWindow) (Int 5) (Int 0)
         (decodeText (encodeText text))
         (Some (Capture.getEditorLanguage exampleWindow))
         (Some (str "content")))) /\
  (noBackslash text = true -> noSeparator text = true ->
   decodeText (encodeText text) = text).
Proof.
  apply (buildCsvRow_decoded exampleRecording exampleWindow 1010 1000 2 5 0);
    reflexivity.
Defined.

Lemma truncated_row_aborts_replay_witness :
  let out :=
    @Recorder.processCsvFile exampleHost (exampleEnvironment truncatedLog)
      exampleRecording [] in
  Recorder.result out = Recorder.Aborted /\
  Recorder.effects out =
    [Recorder.CreateReadStream
       (@path_join exampleHost (str "/out/") (str "source" ++ str ".csv"))] /\
  Recorder.queue out =
    Recorder.fileQueue
      (fst (@Recorder.processLines exampleHost exampleRecording
              (Recorder.exportFormats (exampleEnvironment truncatedLog))
              (Recorder.mkReplayState [] [])
              [headingLine;
               csvLine 1 0 (str "a.ts") 0 0 (str "abc") (str "ts")
                 (str "tab")])).
Proof.
  apply (@truncated_row_aborts_replay exampleHost
           (exampleEnvironment truncatedLog) exampleRecording [] 1000 6000
           (str "/out/") 115%N (str "ource")
           [headingLine;
            csvLine 1 0 (str "a.ts") 0 0 (str "abc") (str "ts") (str "tab")]
           [csvLine 3 20 (str "a.ts") 0 0 (str "x") (str "ts")
              (str "content")]
           (str "2,17"));
    try reflexivity.
  - discriminate.
  - repeat constructor; vm_compute; discriminate.
  - vm_compute. lia.
Defined.

Lemma replay_queues_one_block_per_change_witness :
  Recorder.queue
    (@Recorder.processCsvFile exampleHost
       (exampleEnvironment threeChangesLog) exampleRecording []) =
  [mkFile (str "export.srt")
     (str "1" ++ [LF] ++ str "00:00:00,000 --> 00:00:01,200" ++ [LF] ++
      str "let x" ++ [LF; LF]);
   mkFile (str "export.srt")
     (str "2" ++ [LF] ++ str "00:00:01,200 --> 00:00:03,400" ++ [LF] ++
      str "let x = 1" ++ [LF; LF]);
   mkFile (str "export.srt")
     (str "3" ++ [LF] ++ str "00:00:03,400 --> 00:00:05,000" ++ [LF] ++
      str "// b" ++ [LF; LF]);
   mkFile (str "export.json") (str "[]")].
Proof.
  apply (@replay_queues_one_block_per_change exampleHost
           (exampleEnvironment threeChangesLog) exampleRecording []
           threeChanges 1000 (str "export")).
  - vm_compute. reflexivity.
  - reflexivity.
  - reflexivity.
  - discriminate.
  - discriminate.
Defined.


Lemma getUpdatedText_undone_witness :
  Recorder.getUpdatedText
    (Recorder.getUpdatedText (str "hello") (Int 1) (Int 3) (str "ipp"))
    (Int 1) (Int (Z.of_nat (length (str "ipp"))))
    (firstn (Z.to_nat 3) (skipn (Z.to_nat 1) (str "hello")))
  = str "hello".
Proof.
  apply (getUpdatedText_undone (str "hello") (str "ipp") 1 3);
    [lia|lia|vm_compute; discriminate].
Defined.

Lemma session_rows_numbered_witness :
  let started :=
    @Lifecycle.startRecording exampleHost exampleWindow 1000 1000
      idleSession in
  let final :=
    fold_left (@Lifecycle.handle exampleHost (str "content"))
      exampleNotifications (fst (fst started), snd (fst started)) in
  let logName := str "source" ++ str "." ++ str "csv" in
  exists rows,
    Writer.pushed (snd final) =
      mkFile logName (headingLine ++ [LF]) :: rows /\
    rowsNumbered logName 1 rows /\
    Lifecycle.sequence (fst final) = Z.of_nat (length rows).
Proof.
  apply (@session_rows_numbered exampleHost (str "content") exampleWindow
           exampleEditor 1000 1000 (str "source") idleSession
           exampleNotifications);
    try reflexivity.
  discriminate.
Defined.

Lemma change_handler_overlaps_runs_witness :
  ~ @Writer.oneRunAtATime exampleHost (str "/out/") emptyWorld
      (snd (fst (@Lifecycle.onDidChangeTextDocument exampleHost
                   (str "content") exampleWindow twoChanges
                   activeSession))).
Proof.
  apply (@change_handler_overlaps_runs exampleHost (str "content")
           exampleWindow exampleEditor twoChanges activeSession
           (str "/out/") (str "source") 1000
           (Lifecycle.mkContentChange 5 0 (str "!") 1010)
           (Lifecycle.mkContentChange 0 1 (str "H") 1010) []);
    try reflexivity; discriminate.
Defined.

(** ** The two revisions of the replay loop *)

Section Revisions.

Context `{Host}.
Variable recording : Recording.
Variable exportFormats : list jsstring.
Variable fileName : jsstring.
Variable exportInSrt : bool.

Lemma legacy_addToSRTFile_normal (changes : list Change) (c : Change)
  (q : list File) :
  exists q',
    Legacy.addToSRTFile fileName (changes ++ [c]) (length changes)
      exportInSrt q = Normal q'.
Proof.
  unfold Legacy.addToSRTFile.
  destruct (negb exportInSrt); [eexists; reflexivity|].
  destruct (Nat.eqb (length changes) 0) eqn:Z; [eexists; reflexivity|].
  apply Nat.eqb_neq in Z.
  destruct (nth_error (changes ++ [c]) (length changes - 1)) eqn:E.
  - eexists. reflexivity.
  - apply nth_error_None in E. rewrite length_app in E. cbn in E. lia.
Qed.

(** One turn of the earlier loop, in the terms of [decode]. *)
Lemma legacy_processLine_cases (st : Recorder.ReplayState) (line : jsstring) :
  match Recorder.decode line with
  | Normal None => Legacy.processLine fileName exportInSrt st line = Normal st
  | Throw => Legacy.processLine fileName exportInSrt st line = Throw
  | Normal (Some row) =>
      if opt_jsstring_eqb (Recorder.row_type row) (Some ChangeType_TAB)
         || match lastElement (Recorder.processedChanges st) with
            | Some _ => true
            | None => false
            end
      then
        exists st' c,
          Legacy.processLine fileName exportInSrt st line = Normal st' /\
          lastElement (Recorder.processedChanges st') = Some c /\
          text c =
            Recorder.rowText row
              (lastElement (Recorder.processedChanges st))
      else Legacy.processLine fileName exportInSrt st line = Throw
  end.
Proof.
  unfold Recorder.decode, Legacy.processLine, Recorder.rowText,
    Recorder.getNewTextContent.
  destruct (parseInt (nth_error (splitCsvLine line) 0)) as [|z];
    [reflexivity|].
  cbn [Number_isNaN].
  destruct (nth_error (splitCsvLine line) 2) as [f2|]; [|reflexivity].
  destruct (nth_error (splitCsvLine line) 5) as [f5|]; [|reflexivity].
  cbn [Recorder.row_type Recorder.row_text Recorder.row_rangeOffset
       Recorder.row_rangeLength].
  destruct st as [cs q]. cbn [Recorder.processedChanges Recorder.fileQueue].
  set (t := parseInt (nth_error (splitCsvLine line) 1)).
  destruct (closePrevious_cases cs t) as [[-> _]|(r & p & -> & C)].
  - cbn [lastElement rev length Nat.ltb Nat.leb app].
    destruct (opt_jsstring_eqb (nth_error (splitCsvLine line) 7)
                (Some ChangeType_TAB)); cbn [orb]; [|reflexivity].
    eexists _, _. split; [reflexivity|].
    cbn [Recorder.processedChanges]. split; reflexivity.
  - rewrite C, lastElement_snoc.
    assert (Pos : Nat.ltb 0 (length (r ++ [p])) = true).
    { apply Nat.ltb_lt. rewrite length_app. cbn. lia. }
    rewrite Pos, orb_true_r.
    assert (Len : length (r ++ [p]) = length (r ++ [setEndTime p t])).
    { rewrite !length_app. reflexivity. }
    rewrite Len.
    destruct (opt_jsstring_eqb (nth_error (splitCsvLine line) 7)
                (Some ChangeType_TAB)).
    + match goal with
      | |- context [Legacy.addToSRTFile _ (?a ++ [?c]) _ _ ?q] =>
          destruct (legacy_addToSRTFile_normal a c q) as [q' Q]
      end.
      rewrite Q. eexists _, _. split; [reflexivity|].
      cbn [Recorder.processedChanges]. rewrite lastElement_snoc.
      split; reflexivity.
    + match goal with
      | |- context [Legacy.addToSRTFile _ (?a ++ [?c]) _ _ ?q] =>
          destruct (legacy_addToSRTFile_normal a c q) as [q' Q]
      end.
      rewrite Q. eexists _, _. split; [reflexivity|].
      cbn [Recorder.processedChanges]. rewrite lastElement_snoc.
      split; reflexivity.
Qed.

(** X13.  Whenever the earlier loop goes through a log without throwing, the
    revised loop goes through it too, and both end on the same text:
    dropping the rows that change nothing and renumbering the changes
    does not alter what is reconstructed. *)
Theorem revisions_reconstruct_same_text (lines : list jsstring) :
  forall (stL stL' stR : Recorder.ReplayState),
    option_map text (lastElement (Recorder.processedChanges stL)) =
    option_map text (lastElement (Recorder.processedChanges stR)) ->
    Legacy.processLines fileName exportInSrt stL lines = (stL', false) ->
    exists stR',
      Recorder.processLines recording exportFormats stR lines
        = (stR', false) /\
      option_map text (lastElement (Recorder.processedChanges stL')) =
      option_map text (lastElement (Recorder.processedChanges stR')).
Proof.
  induction lines as [|line lines IH]; intros stL stL' stR E P.
  - injection P as <-. exists stR. split; [reflexivity|exact E].
  - cbn [Legacy.processLines Recorder.processLines] in P |- *.
    pose proof (legacy_processLine_cases stL line) as C.
    destruct (Recorder.decode line) as [[row|]|] eqn:D.
    + destruct (opt_jsstring_eqb (Recorder.row_type row)
                  (Some ChangeType_TAB)
                || match lastElement (Recorder.processedChanges stL) with
                   | Some _ => true
                   | None => false
                   end) eqn:G.
      * destruct C as (stL1 & cL & PL & LL & TL). rewrite PL in P.
        destruct (processLine_text recording exportFormats stR line row D)
          as (stR1 & cR & PR & LR & TR).
        rewrite PR. apply (IH stL1 stL' stR1); [|exact P].
        rewrite LL, LR. cbn [option_map]. f_equal. rewrite TL, TR.
        unfold Recorder.rowText, Recorder.getNewTextContent.
        destruct (opt_jsstring_eqb (Recorder.row_type row)
                    (Some ChangeType_TAB)); [reflexivity|].
        destruct (lastElement (Recorder.processedChanges stL)) as [pL|],
          (lastElement (Recorder.processedChanges stR)) as [pR|];
          cbn [option_map] in E; try discriminate.
        injection E as ->. reflexivity.
      * rewrite C in P. discriminate.
    + rewrite C in P.
      rewrite (processLine_skipped recording exportFormats stR line D).
      exact (IH stL stL' stR E P).
    + rewrite C in P. discriminate.
Qed.

End Revisions.


Lemma revisions_reconstruct_same_text_witness :
  exists stR',
    @Recorder.processLines exampleHost exampleRecording [str "SRT"]
      (Recorder.mkReplayState [] []) sameStateLog = (stR', false) /\
    option_map text
      (lastElement
         (Recorder.processedChanges
            (fst (@Legacy.processLines exampleHost (str "source") true
                    (Recorder.mkReplayState [] []) sameStateLog)))) =
    option_map text (lastElement (Recorder.processedChanges stR')).
Proof.
  apply (@revisions_reconstruct_same_text exampleHost exampleRecording
           [str "SRT"] (str "source") true sameStateLog
           (Recorder.mkReplayState [] []) _ (Recorder.mkReplayState [] []));
    [reflexivity | vm_compute; reflexivity].
Defined.


(** ** The name of a recording (earlier revision) *)

Lemma digit_run_unique (x : jsstring) :
  forall (y : jsstring) (s s' : char) (r r' : jsstring),
    forallb isDecimalDigit x = true ->
    forallb isDecimalDigit y = true ->
    isDecimalDigit s = false ->
    isDecimalDigit s' = false ->
    x ++ s :: r = y ++ s' :: r' ->
    x = y /\ r = r'.
Proof.
  induction x as [|c x IH]; intros [|c' y] s s' r r' Dx Dy Ds Ds' E.
  - injection E as _ E. split; [reflexivity|exact E].
  - injection E as E _. subst s. cbn [forallb] in Dy.
    apply andb_true_iff in Dy. destruct Dy as [Dy _]. congruence.
  - injection E as E _. subst s'. cbn [forallb] in Dx.
    apply andb_true_iff in Dx. destruct Dx as [Dx _]. congruence.
  - cbn [forallb] in Dx, Dy. apply andb_true_iff in Dx, Dy.
    destruct Dx as [_ Dx], Dy as [_ Dy].
    injection E as -> E.
    destruct (IH y s s' r r' Dx Dy Ds Ds' E) as [-> ->].
    split; reflexivity.
Qed.

Lemma digits_injective (a b : Z) :
  0 <= a -> 0 <= b -> digits a = digits b -> a = b.
Proof.
  intros Ha Hb E. pose proof (digits_value a Ha) as Va.
  pose proof (digits_value b Hb) as Vb. rewrite E in Va. congruence.
Qed.

Lemma Number_toString_natural (z : Z) :
  0 <= z -> Number_toString (Int z) = digits z.
Proof.
  intros Hz. unfold Number_toString.
  replace (z <? 0) with false by (symmetry; apply Z.ltb_ge; exact Hz).
  reflexivity.
Qed.

(** X14.  Two local dates with the same name are the same date, field by
    field: recordings started at different local instants are never
    given the same name. *)
Theorem generateFileName_injective (d1 d2 : FileNames.LocalDate) :
  FileNames.wellFormed d1 ->
  FileNames.wellFormed d2 ->
  FileNames.generateFileName d1 = FileNames.generateFileName d2 ->
  d1 = d2.
Proof.
  destruct d1 as [y1 m1 a1 h1 i1 s1 l1], d2 as [y2 m2 a2 h2 i2 s2 l2].
  unfold FileNames.wellFormed, FileNames.generateFileName.
  cbn [FileNames.fullYear FileNames.month FileNames.date FileNames.hours
       FileNames.minutes FileNames.seconds FileNames.milliseconds].
  intros (Y1 & M1 & A1 & H1 & I1 & S1 & L1)
         (Y2 & M2 & A2 & H2 & I2 & S2 & L2) E.
  rewrite !Number_toString_natural in E by assumption.
  apply app_inv_head in E.
  change (str "_") with [95%N] in E. change (str "-") with [45%N] in E.
  change (str ".") with [46%N] in E.
  cbn [app] in E.
  repeat match type of E with
  | digits ?a ++ _ :: _ = digits ?b ++ _ :: _ =>
      let Q := fresh "Q" in
      apply digit_run_unique in E;
        [destruct E as [Q E]; apply digits_injective in Q;
           [subst a | assumption | assumption]
        | apply digits_all_digits; assumption
        | apply digits_all_digits; assumption
        | reflexivity
        | reflexivity]
  end.
  apply digits_injective in E; [|assumption|assumption].
  subst. reflexivity.
Qed.

Lemma generateFileName_injective_witness :
  FileNames.mkLocalDate 2024 4 31 9 5 7 12 =
  FileNames.mkLocalDate 2024 4 31 9 5 7 12.
Proof.
  apply generateFileName_injective;
    [ unfold FileNames.wellFormed; cbn; lia
    | unfold FileNames.wellFormed; cbn; lia
    | reflexivity ].
Defined.
